(** * context_realish: the pipeline engine and its collaborators

    A shallow embedding of [context_realish/engine.py] together with the
    three policy modules it imports ([schemas.py], [rules.py],
    [guardrails.py]), and the properties of the engine.

    Layout:
    - [PyText]: the string methods the code calls ([lower], [strip],
      [split], [replace], [in], [join]), over ASCII text;
    - [value]: Python values (JSON-like data, tuples, opaque objects),
      dictionaries as insertion-ordered association lists;
    - the state-and-exception monad in which collaborator functions run;
    - [Engine]: [_step_trace], [_normalize_errors], [_call_layer], [run],
      parametric in the three imported modules;
    - [Schemas], [Rules], [Guardrails]: the shipped policies;
    - [Store]: the same engine over an object store with references, for
      the aliasing behaviour of [request.copy()] and of a transform that
      writes to the payload it is handed;
    - the paths through [run] and the readings of a Result that the
      statements use, and the concrete inputs of the examples;
    - the properties, and the tests of the repository replayed. *)

From Stdlib Require Import List String Ascii ZArith Lia Bool Arith DecimalString.
Import ListNotations.

Local Open Scope list_scope.
Local Open Scope string_scope.

#[local] Set Warnings "-register-all".

Set Implicit Arguments.

(* ------------------------------------------------------------------ *)
(** * Text *)

Module PyText.

(** Text is modelled over ASCII code points: [lower] folds [A-Z] only and
    whitespace is what [str.isspace] accepts below 128. *)

Definition is_upper (c : ascii) : bool :=
  let n := nat_of_ascii c in Nat.leb 65 n && Nat.leb n 90.

Definition lower_char (c : ascii) : ascii :=
  if is_upper c then ascii_of_nat (nat_of_ascii c + 32) else c.

Fixpoint lower (s : string) : string :=
  match s with
  | EmptyString => EmptyString
  | String c s' => String (lower_char c) (lower s')
  end.

(** [str.isspace] on one ASCII character: TAB, LF, VT, FF, CR, the four
    separators 0x1c-0x1f and the blank. *)
Definition is_space (c : ascii) : bool :=
  let n := nat_of_ascii c in
  (Nat.leb 9 n && Nat.leb n 13) || (Nat.leb 28 n && Nat.leb n 31) || Nat.eqb n 32.

Fixpoint lstrip (s : string) : string :=
  match s with
  | EmptyString => EmptyString
  | String c s' => if is_space c then lstrip s' else s
  end.

(** [rstrip] keeps a character when it is not a blank or when something
    survives after it. *)
Fixpoint rstrip (s : string) : string :=
  match s with
  | EmptyString => EmptyString
  | String c s' =>
      match rstrip s' with
      | EmptyString => if is_space c then EmptyString else String c EmptyString
      | r => String c r
      end
  end.

Definition strip (s : string) : string := rstrip (lstrip s).

(** [s.replace(ch, " ")] for a one-character [ch]. *)
Fixpoint replace_char (ch : ascii) (by_ : ascii) (s : string) : string :=
  match s with
  | EmptyString => EmptyString
  | String c s' =>
      String (if Ascii.eqb c ch then by_ else c) (replace_char ch by_ s')
  end.

(** [s.split()]: maximal runs of non-blank characters.  [cur] is the word
    being read, reversed. *)
Fixpoint split_aux (cur : list ascii) (s : string) : list string :=
  match s with
  | EmptyString =>
      match cur with
      | [] => []
      | _ => [string_of_list_ascii (rev cur)]
      end
  | String c s' =>
      if is_space c then
        match cur with
        | [] => split_aux [] s'
        | _ => string_of_list_ascii (rev cur) :: split_aux [] s'
        end
      else split_aux (c :: cur) s'
  end.

Definition split (s : string) : list string := split_aux [] s.

(** [needle in hay]. *)
Fixpoint contains (needle hay : string) : bool :=
  String.prefix needle hay ||
  match hay with
  | EmptyString => false
  | String _ hay' => contains needle hay'
  end.

Definition join (sep : string) (parts : list string) : string :=
  String.concat sep parts.

Definition len (s : string) : Z := Z.of_nat (String.length s).

Definition mem (s : string) (l : list string) : bool :=
  existsb (String.eqb s) l.

Definition of_int (n : Z) : string :=
  NilZero.string_of_int (Z.to_int n).

End PyText.

(* ------------------------------------------------------------------ *)
(** * Values *)

(** The values that reach the engine: JSON-like data, tuples, and opaque
    objects of any other class.  An opaque object is known by the four
    observations the code makes on a value it cannot take apart: the name
    of its class, its [str()], its truth value, and what a [for] loop over
    it walks through ([None] when the object cannot be iterated; the items
    of a set or the values of a generator otherwise).  A dictionary keeps
    its keys in insertion order; keys are strings. *)
Inductive value : Type :=
| VNone
| VBool (b : bool)
| VInt (n : Z)
| VStr (s : string)
| VList (xs : list value)
| VTuple (xs : list value)
| VDict (kvs : list (string * value))
| VOther (cls : string) (text : string) (truth : bool)
    (items : option (list value)).

Definition dict : Type := list (string * value).

(** ** Dictionary operations *)

Section Dict.

(** The operations do not look at the values stored. *)
Variable V : Type.

(** [d.get(k)], as an option: [None] when the key is absent. *)
Fixpoint dict_find (k : string) (d : list (string * V)) : option V :=
  match d with
  | [] => None
  | (k', v) :: d' => if String.eqb k k' then Some v else dict_find k d'
  end.

(** [d.get(k, default)]. *)
Definition dict_get (k : string) (default : V) (d : list (string * V)) : V :=
  match dict_find k d with
  | Some v => v
  | None => default
  end.

(** [k in d]. *)
Definition dict_has (k : string) (d : list (string * V)) : bool :=
  match dict_find k d with
  | Some _ => true
  | None => false
  end.

(** [d[k] = v]: an existing key keeps its position, a new key goes last. *)
Fixpoint dict_set (k : string) (v : V) (d : list (string * V)) : list (string * V) :=
  match d with
  | [] => [(k, v)]
  | (k', v') :: d' =>
      if String.eqb k k' then (k, v) :: d' else (k', v') :: dict_set k v d'
  end.

Definition dict_keys (d : list (string * V)) : list string := map fst d.

(** The loop [for k, v in e.items(): if k not in ["code", "message"]:
    details[k] = v], from [details = {}]. *)
Definition other_keys (e : list (string * V)) : list (string * V) :=
  fold_left
    (fun details kv =>
       if negb (PyText.mem (fst kv) ["code"; "message"])
       then dict_set (fst kv) (snd kv) details
       else details)
    e [].

End Dict.

(** ** Observations on values *)

Definition is_none (v : value) : bool :=
  match v with VNone => true | _ => false end.

Definition is_dict (v : value) : bool :=
  match v with VDict _ => true | _ => false end.

Definition is_list (v : value) : bool :=
  match v with VList _ => true | _ => false end.

Definition is_str (v : value) : bool :=
  match v with VStr _ => true | _ => false end.

(** [bool(v)]. *)
Definition truthy (v : value) : bool :=
  match v with
  | VNone => false
  | VBool b => b
  | VInt n => negb (Z.eqb n 0)
  | VStr s => negb (String.eqb s "")
  | VList xs | VTuple xs => match xs with [] => false | _ => true end
  | VDict kvs => match kvs with [] => false | _ => true end
  | VOther _ _ t _ => t
  end.

(** The name of a value's class, as [type(v)] prints it. *)
Definition class_name (v : value) : string :=
  match v with
  | VNone => "NoneType"
  | VBool _ => "bool"
  | VInt _ => "int"
  | VStr _ => "str"
  | VList _ => "list"
  | VTuple _ => "tuple"
  | VDict _ => "dict"
  | VOther c _ _ _ => c
  end.

(** [str(type(v))]. *)
Definition type_text (v : value) : string :=
  "<class '" ++ class_name v ++ "'>".

(** ** [repr] and [str] *)

Definition hex_digit (n : nat) : ascii :=
  if Nat.ltb n 10 then ascii_of_nat (48 + n) else ascii_of_nat (87 + n).

Definition has_char (c : ascii) (s : string) : bool :=
  existsb (Ascii.eqb c) (list_ascii_of_string s).

(** The quote [repr] wraps a string in: a double quote only when the text
    has a single quote and no double quote. *)
Definition dquote : ascii := ascii_of_nat 34.

Definition repr_quote (s : string) : ascii :=
  if has_char "'"%char s && negb (has_char dquote s)
  then dquote else "'"%char.

Definition repr_char (q c : ascii) : string :=
  let n := nat_of_ascii c in
  if Ascii.eqb c q || Ascii.eqb c "\"%char then String "\"%char (String c "")
  else if Nat.eqb n 9 then "\t"
  else if Nat.eqb n 10 then "\n"
  else if Nat.eqb n 13 then "\r"
  else if Nat.ltb n 32 || Nat.eqb n 127 then
    "\x" ++ String (hex_digit (n / 16)) (String (hex_digit (n mod 16)) "")
  else String c "".

Fixpoint repr_body (q : ascii) (s : string) : string :=
  match s with
  | EmptyString => EmptyString
  | String c s' => repr_char q c ++ repr_body q s'
  end.

Definition repr_str (s : string) : string :=
  let q := repr_quote s in
  String q (repr_body q s ++ String q "").

Fixpoint py_repr (v : value) : string :=
  match v with
  | VNone => "None"
  | VBool b => if b then "True" else "False"
  | VInt n => PyText.of_int n
  | VStr s => repr_str s
  | VList xs => "[" ++ PyText.join ", " (map py_repr xs) ++ "]"
  | VTuple xs =>
      match xs with
      | [x] => "(" ++ py_repr x ++ ",)"
      | _ => "(" ++ PyText.join ", " (map py_repr xs) ++ ")"
      end
  | VDict kvs =>
      "{" ++ PyText.join ", "
               (map (fun kv => repr_str (fst kv) ++ ": " ++ py_repr (snd kv)) kvs)
          ++ "}"
  | VOther _ t _ _ => t
  end.

(** [str(v)]: the text itself for a string, [repr] for the rest. *)
Definition py_str (v : value) : string :=
  match v with
  | VStr s => s
  | _ => py_repr v
  end.

(** [v == s] for a string literal [s]: only a string compares equal. *)
Definition eq_str (v : value) (s : string) : bool :=
  match v with
  | VStr s' => String.eqb s' s
  | _ => false
  end.

(** [v in l] for a list of string literals. *)
Definition in_strs (v : value) (l : list string) : bool :=
  existsb (eq_str v) l.

(** What [for e in v] walks through, when [v] can be iterated: the items of
    a list or tuple, the keys of a dictionary, the characters of a string,
    and for an opaque object what the object itself yields. *)
Definition py_iter (v : value) : option (list value) :=
  match v with
  | VList xs | VTuple xs => Some xs
  | VDict kvs => Some (map (fun kv => VStr (fst kv)) kvs)
  | VStr s => Some (map (fun c => VStr (String c "")) (list_ascii_of_string s))
  | VOther _ _ _ items => items
  | VNone | VBool _ | VInt _ => None
  end.

(* ------------------------------------------------------------------ *)
(** * Exceptions and the monad of collaborator calls *)

(** A raised object: the name of its class, whether the class derives from
    [Exception] (what [except Exception] catches; [KeyboardInterrupt] and
    [SystemExit] do not), and its [str()]. *)
Record exn : Type := Exn {
  exn_class : string;
  exn_is_Exception : bool;
  exn_text : string
}.

Definition TypeError (msg : string) : exn := Exn "TypeError" true msg.
Definition AttributeError (msg : string) : exn := Exn "AttributeError" true msg.

Inductive outcome (A : Type) : Type :=
| Ret (a : A)
| Raise (e : exn).

Arguments Ret {A} a.
Arguments Raise {A} e.

(** ** The engine's data *)

Record ErrorRecord : Type := {
  code : string;
  message : string;
  details : value
}.

Record TraceEntry : Type := {
  step : string;
  step_ok : bool;
  info : value
}.

Record Result : Type := {
  ok : bool;
  data : value;
  errors : list ErrorRecord;
  trace : list TraceEntry
}.

(** [result["trace"].append(t)], [result["errors"].append(e)],
    [result["data"] = p] and [result["ok"] = b]. *)
Definition append_trace (t : TraceEntry) (r : Result) : Result :=
  {| ok := ok r; data := data r; errors := errors r; trace := (trace r ++ [t])%list |}.

Definition append_error (e : ErrorRecord) (r : Result) : Result :=
  {| ok := ok r; data := data r; errors := (errors r ++ [e])%list; trace := trace r |}.

Definition set_data (p : value) (r : Result) : Result :=
  {| ok := ok r; data := p; errors := errors r; trace := trace r |}.

Definition set_ok (b : bool) (r : Result) : Result :=
  {| ok := b; data := data r; errors := errors r; trace := trace r |}.

(* ------------------------------------------------------------------ *)
(** * engine.py *)

Section Engine.

(** The state a collaborator function or the transform may read and write
    besides its argument (module globals, counters, logs).  The engine
    itself never looks at it. *)
Variable S : Type.

Definition M (A : Type) : Type := S -> S * outcome A.

Definition ret {A : Type} (a : A) : M A := fun s => (s, Ret a).

Definition raise {A : Type} (e : exn) : M A := fun s => (s, Raise e).

Definition bind {A B : Type} (m : M A) (k : A -> M B) : M B :=
  fun s =>
    match m s with
    | (s', Ret a) => k a s'
    | (s', Raise e) => (s', Raise e)
    end.

(** [try: m except Exception as ex: h ex]. *)
Definition try_except {A : Type} (m : M A) (h : exn -> M A) : M A :=
  fun s =>
    match m s with
    | (s', Ret a) => (s', Ret a)
    | (s', Raise e) => if exn_is_Exception e then h e s' else (s', Raise e)
    end.

Definition lift {A : Type} (o : outcome A) : M A := fun s => (s, o).

Notation "x <- m ;; k" := (bind m (fun x => k))
  (at level 61, m at next level, right associativity).
Notation "' p <- m ;; k" := (bind m (fun x => let 'p := x in k))
  (at level 61, p pattern, m at next level, right associativity).

(** A Python function of one argument. *)
Definition pyfun : Type := value -> M value.

(** A module attribute: a callable, or plain data. *)
Inductive attr : Type :=
| Callable (f : pyfun)
| Plain (v : value).

(** A module: its [__name__] and its attributes. *)
Record pymodule : Type := {
  mod_name : string;
  mod_attrs : list (string * attr)
}.

(** [getattr(module, name, None)]. *)
Fixpoint getattr_in (attrs : list (string * attr)) (name : string) : option attr :=
  match attrs with
  | [] => None
  | (n, a) :: rest => if String.eqb name n then Some a else getattr_in rest name
  end.

Definition getattr (module : pymodule) (name : string) : option attr :=
  getattr_in (mod_attrs module) name.

(** ** [_step_trace] *)

Definition _step_trace (step : string) (ok : bool) (info : value) : TraceEntry :=
  let info := if is_none info then VDict [] else info in
  {| step := step; step_ok := ok; info := info |}.

(** ** [_normalize_errors] *)

(** The body of the loop over [raw_errors], for one element. *)
Definition normalize_one (default_code step_name : string) (e : value) : ErrorRecord :=
  match e with
  | VDict d =>
      let code := dict_get "code" (VStr default_code) d in
      let message := dict_get "message" (VStr "Error") d in
      let details := dict_get "details" (VDict []) d in
      let details :=
        if negb (dict_has "details" d) then VDict (other_keys d) else details in
      {| code := py_str code; message := py_str message; details := details |}
  | _ =>
      {| code := default_code;
         message := py_str e;
         details := VDict [("step", VStr step_name)] |}
  end.

Definition not_iterable (v : value) : exn :=
  TypeError ("'" ++ class_name v ++ "' object is not iterable").

Definition _normalize_errors (raw_errors : value) (default_code step_name : string)
  : outcome (list ErrorRecord) :=
  let normalized := [] in
  if is_none raw_errors then Ret normalized
  else
    match py_iter raw_errors with
    | None => Raise (not_iterable raw_errors)
    | Some es =>
        Ret (fold_left
               (fun normalized e =>
                  (normalized ++ [normalize_one default_code step_name e])%list)
               es normalized)
    end.

(** ** [_call_layer] *)

(** The reading of a collaborator's return value: [(new_payload, raw_errors)]. *)
Definition interpret_out (module : pymodule) (name : string) (out : value)
  : value * value :=
  let new_payload := VNone in
  let raw_errors := VList [] in
  match out with
  | VTuple [a; b] => (a, b)
  | VList _ => (new_payload, out)
  | VDict _ => (out, raw_errors)
  | VNone => (new_payload, raw_errors)
  | _ =>
      (new_payload,
       VList [VStr ("Unexpected return type from " ++ mod_name module ++ "."
                    ++ name ++ ": " ++ type_text out)])
  end.

Fixpoint _call_layer (module : pymodule) (fn_names : list string) (payload : value)
  : M (value * list ErrorRecord * value) :=
  match fn_names with
  | [] =>
      ret (VNone, [],
           VDict [("called", VNone); ("note", VStr "no matching function found")])
  | name :: rest =>
      match getattr module name with
      | Some (Callable fn) =>
          out <- fn payload ;;
          let meta := VDict [("called", VStr name)] in
          let '(new_payload, raw_errors) := interpret_out module name out in
          errs <- lift (_normalize_errors raw_errors "layer_error" name) ;;
          ret (new_payload, errs, meta)
      | _ => _call_layer module rest payload
      end
  end.

(** ** [run] *)

(** The three modules [run] imports. *)
Variables schemas rules guardrails : pymodule.

Definition nonempty {A : Type} (l : list A) : bool :=
  match l with [] => false | _ => true end.

(** [for e in errors: result["errors"].append({"code": c, "message":
    e["message"], "details": e["details"]})]. *)
Definition block_with (c : string) (errs : list ErrorRecord) (result : Result) : Result :=
  fold_left
    (fun result e =>
       append_error {| code := c; message := message e; details := details e |} result)
    errs result.

Definition run (request : dict) (ai_fn : option pyfun) (config : option dict)
  : M Result :=
  let config := match config with None => [] | Some c => c end in
  let enable_ai := dict_get "enable_ai" (VBool false) config in
  let strict := dict_get "strict" (VBool true) config in
  let result := {| ok := false; data := VNone; errors := []; trace := [] |} in
  let payload := VDict request in
  (* 1) Schema *)
  '(new_payload, errs, meta) <-
    _call_layer schemas ["validate_request"; "validate"; "schema_validate"] payload ;;
  let payload := if negb (is_none new_payload) then new_payload else payload in
  let result :=
    append_trace (_step_trace "schema" (Nat.eqb (List.length errs) 0) meta) result in
  if nonempty errs then
    let result := block_with "schema_error" errs result in
    let result := set_data payload result in
    ret result
  else
  (* 2) Rules *)
  '(new_payload, errs, meta) <-
    _call_layer rules
      ["check_rules"; "apply_rules"; "evaluate_rules"; "validate_rules"] payload ;;
  let payload := if negb (is_none new_payload) then new_payload else payload in
  let result :=
    append_trace (_step_trace "rules" (Nat.eqb (List.length errs) 0) meta) result in
  if nonempty errs && truthy strict then
    let result := block_with "rule_violation" errs result in
    let result := set_data payload result in
    ret result
  else
  (* 3) Guardrails *)
  '(new_payload, errs, meta) <-
    _call_layer guardrails
      ["check_guardrails"; "enforce_guardrails"; "guardrail_check"] payload ;;
  let payload := if negb (is_none new_payload) then new_payload else payload in
  let result :=
    append_trace (_step_trace "guardrails" (Nat.eqb (List.length errs) 0) meta) result in
  if nonempty errs then
    let result := block_with "guardrail_block" errs result in
    let result := set_data payload result in
    ret result
  else
  (* 4) Optional AI step *)
  let success (payload : value) (result : Result) : M Result :=
    let result := set_ok true result in
    let result := set_data payload result in
    ret result in
  match (if truthy enable_ai then ai_fn else None) with
  | Some ai_fn =>
      try_except
        (ai_out <- ai_fn payload ;;
         if negb (is_dict ai_out) then raise (TypeError "ai_fn must return a dict")
         else
           let payload := ai_out in
           let result :=
             append_trace (_step_trace "ai" true (VDict [("called", VBool true)]))
               result in
           success payload result)
        (fun ex =>
           let result :=
             append_trace (_step_trace "ai" false (VDict [("called", VBool true)]))
               result in
           let result :=
             append_error
               {| code := "ai_error"; message := exn_text ex; details := VDict [] |}
               result in
           let result := set_data payload result in
           ret result)
  | None =>
      let result :=
        append_trace (_step_trace "ai" true (VDict [("called", VBool false)])) result in
      success payload result
  end.

End Engine.

Arguments Callable {S} f.
Arguments Plain {S} v.

(** A function without effects, as a collaborator function. *)
Definition pure_fn {S : Type} (f : value -> outcome value) : pyfun S :=
  fun payload s => (s, f payload).

Definition strs (l : list string) : value := VList (map VStr l).

Definition no_attribute (v : value) (name : string) : exn :=
  AttributeError ("'" ++ class_name v ++ "' object has no attribute '" ++ name ++ "'").

(* ------------------------------------------------------------------ *)
(** * schemas.py *)

Module Schemas.

Definition ALLOWED_ROLES : list string := ["user"; "admin"; "system"].
Definition ALLOWED_ACTIONS : list string :=
  ["read"; "ask"; "summarize"; "write"; "delete"; "export"].
Definition REQUIRED_FIELDS : list string := ["action"].

Definition _err (code message : string) (details : value) : value :=
  VDict [("code", VStr code); ("message", VStr message); ("details", details)].

Definition _is_nonempty_string (x : value) : bool :=
  match x with
  | VStr s => negb (String.eqb (PyText.strip s) "")
  | _ => false
  end.

(** Step 1, for one required field. *)
Definition missing_field (field : string) : value :=
  _err "missing_field" ("Missing required field: " ++ field)
    (VDict [("field", VStr field); ("required_fields", strs REQUIRED_FIELDS)]).

(** The text of a value known to be a string. *)
Definition text_of (v : value) : string :=
  match v with
  | VStr t => t
  | _ => ""
  end.

(** Step 2: the action. *)
Definition check_action (normalized : dict) (errors : list value)
  : dict * list value :=
  let action := dict_get "action" VNone normalized in
  if negb (_is_nonempty_string action) then
    (normalized,
     (errors ++ [_err "invalid_action_type"
                   "Field 'action' must be a non-empty string."
                   (VDict [("action", action)])])%list)
  else
    let action_clean := PyText.lower (PyText.strip (text_of action)) in
    let normalized := dict_set "action" (VStr action_clean) normalized in
    if negb (PyText.mem action_clean ALLOWED_ACTIONS) then
      (normalized,
       (errors ++ [_err "unknown_action" "Action is not recognized."
                     (VDict [("action", VStr action_clean);
                             ("allowed_actions", strs ALLOWED_ACTIONS)])])%list)
    else (normalized, errors).

(** Step 3: the role, when there is one. *)
Definition check_role (normalized : dict) (errors : list value)
  : dict * list value :=
  let role := dict_get "role" VNone normalized in
  if negb (is_none role) then
    if negb (_is_nonempty_string role) then
      (normalized,
       (errors ++ [_err "invalid_role_type"
                     "Field 'role' must be a non-empty string if provided."
                     (VDict [("role", role)])])%list)
    else
      let role_clean := PyText.lower (PyText.strip (text_of role)) in
      let normalized := dict_set "role" (VStr role_clean) normalized in
      if negb (PyText.mem role_clean ALLOWED_ROLES) then
        (normalized,
         (errors ++ [_err "unknown_role" "Role is not recognized."
                       (VDict [("role", VStr role_clean);
                               ("allowed_roles", strs ALLOWED_ROLES)])])%list)
      else (normalized, errors)
  else (normalized, errors).

(** Step 4: strip the optional text fields that hold a string. *)
Definition strip_field (normalized : dict) (field : string) : dict :=
  match dict_find field normalized with
  | Some (VStr t) => dict_set field (VStr (PyText.strip t)) normalized
  | _ => normalized
  end.

Definition TEXT_FIELDS : list string :=
  ["resource"; "prompt"; "input"; "text"; "message"; "query"; "content";
   "instruction"].

Definition validate_dict (payload : dict) : dict * list value :=
  let errors := [] in
  let normalized := payload in
  let errors :=
    fold_left
      (fun errors field =>
         if negb (dict_has field normalized)
         then (errors ++ [missing_field field])%list else errors)
      REQUIRED_FIELDS errors in
  if nonempty errors then (normalized, errors)
  else
    let '(normalized, errors) := check_action normalized errors in
    let '(normalized, errors) := check_role normalized errors in
    let normalized := fold_left strip_field TEXT_FIELDS normalized in
    let normalized :=
      dict_set "_schema"
        (VDict [("validated", VBool true);
                ("required_fields", strs REQUIRED_FIELDS)])
        normalized in
    (normalized, errors).

(** [validate_request].  A dictionary is the intended argument.  A list
    also has [copy] and [in]: it is reported as lacking the required
    fields, or fails at [normalized.get] when it happens to hold their
    names.  Nothing else has [copy]. *)
Definition validate_request (payload : value) : outcome value :=
  match payload with
  | VDict d =>
      let '(normalized, errors) := validate_dict d in
      Ret (VTuple [VDict normalized; VList errors])
  | VList xs =>
      let errors :=
        fold_left
          (fun errors field =>
             if negb (existsb (fun x => eq_str x field) xs)
             then (errors ++ [missing_field field])%list else errors)
          REQUIRED_FIELDS [] in
      if nonempty errors then Ret (VTuple [VList xs; VList errors])
      else Raise (no_attribute payload "get")
  | _ => Raise (no_attribute payload "copy")
  end.

Definition module (S : Type) : pymodule S :=
  {| mod_name := "context_realish.schemas";
     mod_attrs :=
       [("ALLOWED_ROLES", Plain (strs ALLOWED_ROLES));
        ("ALLOWED_ACTIONS", Plain (strs ALLOWED_ACTIONS));
        ("REQUIRED_FIELDS", Plain (strs REQUIRED_FIELDS));
        ("validate_request", Callable (pure_fn validate_request));
        ("validate", Callable (pure_fn validate_request));
        ("schema_validate", Callable (pure_fn validate_request))] |}.

End Schemas.

(* ------------------------------------------------------------------ *)
(** * rules.py *)

Module Rules.

Definition ALLOWED_ROLES : list string := ["user"; "admin"; "system"].

Definition ROLE_ACTIONS : list (string * list string) :=
  [("user", ["read"; "ask"; "summarize"]);
   ("admin", ["read"; "ask"; "summarize"; "write"; "delete"]);
   ("system", ["read"; "ask"; "summarize"])].

Definition _err (code message : string) (details : value) : value :=
  VDict [("code", VStr code); ("message", VStr message); ("details", details)].

(** [ROLE_ACTIONS.get(role, [])]. *)
Fixpoint role_actions_in (table : list (string * list string)) (role : string)
  : list string :=
  match table with
  | [] => []
  | (r, acts) :: rest => if String.eqb role r then acts else role_actions_in rest role
  end.

Definition check_rules_dict (payload : dict) : dict * list value :=
  let errors := [] in
  let role := dict_get "role" VNone payload in
  let action := dict_get "action" VNone payload in
  let resource := dict_get "resource" VNone payload in
  (* 1) Unknown role *)
  if negb (is_none role) && negb (in_strs role ALLOWED_ROLES) then
    (payload,
     (errors ++ [_err "invalid_role" "Role is not allowed."
                   (VDict [("role", role); ("allowed_roles", strs ALLOWED_ROLES)])])%list)
  else
  let role := if is_none role then VStr "user" else role in
  (* 2) Missing action *)
  if is_none action then
    (payload,
     (errors ++ [_err "missing_action" "Missing required field: action"
                   (VDict [("required", strs ["action"]); ("example", VStr "read")])])%list)
  else
  (* 3) Action not allowed for role *)
  let allowed_actions :=
    match role with
    | VStr r => role_actions_in ROLE_ACTIONS r
    | _ => []
    end in
  if negb (in_strs action allowed_actions) then
    (payload,
     (errors ++ [_err "action_not_allowed" "Action is not allowed for this role."
                   (VDict [("role", role); ("action", action);
                           ("allowed_actions", strs allowed_actions)])])%list)
  else
  (* 4) only admin can delete *)
  if eq_str action "delete" && negb (eq_str role "admin") then
    (payload,
     (errors ++ [_err "delete_requires_admin" "Only admin can perform delete actions."
                   (VDict [("role", role); ("action", action)])])%list)
  else
  (* 5) user cannot write to system_config *)
  if eq_str action "write" && eq_str role "user" && eq_str resource "system_config" then
    (payload,
     (errors ++ [_err "protected_resource" "Users cannot write to protected resources."
                   (VDict [("role", role); ("action", action);
                           ("resource", resource)])])%list)
  else
  let normalized := payload in
  let normalized := dict_set "role" role normalized in
  let normalized :=
    dict_set "_rules"
      (VDict [("checked", VBool true); ("role", role); ("action", action)])
      normalized in
  (normalized, errors).

Definition check_rules (payload : value) : outcome value :=
  match payload with
  | VDict d =>
      let '(p, errors) := check_rules_dict d in
      Ret (VTuple [VDict p; VList errors])
  | _ => Raise (no_attribute payload "get")
  end.

Definition module (S : Type) : pymodule S :=
  {| mod_name := "context_realish.rules";
     mod_attrs :=
       [("ALLOWED_ROLES", Plain (strs ALLOWED_ROLES));
        ("ROLE_ACTIONS",
         Plain (VDict (map (fun ra => (fst ra, strs (snd ra))) ROLE_ACTIONS)));
        ("check_rules", Callable (pure_fn check_rules));
        ("apply_rules", Callable (pure_fn check_rules))] |}.

End Rules.

(* ------------------------------------------------------------------ *)
(** * guardrails.py *)

Module Guardrails.

Definition MAX_TEXT_LEN : Z := 2000.
Definition MAX_LIST_ITEMS : Z := 50.

Definition BANNED_PHRASES : list string :=
  ["kill myself"; "end my life"; "hurt myself"; "self harm"; "self-harm";
   "suicide";
   "make a bomb"; "build a bomb"; "how to make a bomb"; "how to build a bomb";
   "homemade explosive";
   "steal password"; "steal my password"; "hack an account"; "bypass login";
   "phishing link"; "credential stuffing"; "sql injection";
   "cross site scripting"; "xss attack"; "write malware"; "make malware";
   "ransomware"; "keylogger"].

Definition BANNED_WORDS : list string :=
  ["suicide"; "selfharm";
   "bomb"; "explosive"; "weapon"; "gun"; "ammo";
   "phishing"; "keylogger"; "malware"; "ransomware"; "ddos"; "botnet";
   "backdoor"; "hack"; "hacking"; "crack"; "cracker";
   "scam"; "fraud"].

Definition _err (code message : string) (details : value) : value :=
  VDict [("code", VStr code); ("message", VStr message); ("details", details)].

Definition _collect_text (payload : dict) : string :=
  let fields :=
    ["prompt"; "input"; "text"; "message"; "query"; "content"; "instruction"] in
  let parts :=
    fold_left
      (fun parts f =>
         let value := dict_get f VNone payload in
         if negb (is_none value) then (parts ++ [py_str value])%list else parts)
      fields [] in
  PyText.strip (PyText.join (String (ascii_of_nat 10) "") parts).

Definition PUNCTUATION : list ascii :=
  ["."; ","; "!"; "?"; ":"; ";"; "("; ")"; "["; "]"; "{"; "}"; dquote; "'";
   "/"; "\"; "-"; "_"]%char.

Definition _to_words (text : string) : list string :=
  let text := PyText.lower text in
  let text := fold_left (fun text ch => PyText.replace_char ch " "%char text)
                PUNCTUATION text in
  PyText.split text.

(** [for x in xs: if hit x: errors.append(mk x); break]. *)
Fixpoint first_hit (hit : string -> bool) (mk : string -> value)
  (xs : list string) (errors : list value) : list value :=
  match xs with
  | [] => errors
  | x :: rest =>
      if hit x then (errors ++ [mk x])%list else first_hit hit mk rest errors
  end.

Definition banned (matched kind : string) : value :=
  _err "banned_content" "Request appears to include disallowed/unsafe content."
    (VDict [("matched", VStr matched); ("type", VStr kind)]).

Definition too_many_items (key : string) (count : Z) : value :=
  _err "too_many_items"
    ("Field '" ++ key ++ "' has too many items (max "
       ++ PyText.of_int MAX_LIST_ITEMS ++ ").")
    (VDict [("field", VStr key); ("count", VInt count);
            ("max_items", VInt MAX_LIST_ITEMS)]).

Definition check_guardrails_dict (payload : dict) : dict * list value :=
  let errors := [] in
  let combined_text := PyText.lower (_collect_text payload) in
  (* 1) Length guardrail *)
  let errors :=
    if Z.ltb MAX_TEXT_LEN (PyText.len combined_text) then
      (errors ++ [_err "too_long"
                    ("Input text is too long (max " ++ PyText.of_int MAX_TEXT_LEN
                       ++ " chars).")
                    (VDict [("length", VInt (PyText.len combined_text));
                            ("max_len", VInt MAX_TEXT_LEN)])])%list
    else errors in
  (* 2A) Banned phrase scan *)
  let errors :=
    first_hit (fun phrase => PyText.contains phrase combined_text)
      (fun phrase => banned phrase "phrase") BANNED_PHRASES errors in
  (* 2B) Banned word scan *)
  let errors :=
    if negb (nonempty errors) then
      let words := _to_words combined_text in
      first_hit (fun w => PyText.mem w BANNED_WORDS)
        (fun w => banned w "word") words errors
    else errors in
  (* 3) Large list fields check *)
  let errors :=
    fold_left
      (fun errors kv =>
         match snd kv with
         | VList items =>
             if Z.ltb MAX_LIST_ITEMS (Z.of_nat (List.length items)) then
               (errors ++ [too_many_items (fst kv) (Z.of_nat (List.length items))])%list
             else errors
         | _ => errors
         end)
      payload errors in
  let guarded_payload := payload in
  let guarded_payload :=
    dict_set "_guardrails"
      (VDict [("scanned_chars", VInt (PyText.len combined_text));
              ("errors", VInt (Z.of_nat (List.length errors)))])
      guarded_payload in
  (guarded_payload, errors).

Definition check_guardrails (payload : value) : outcome value :=
  match payload with
  | VDict d =>
      let '(p, errors) := check_guardrails_dict d in
      Ret (VTuple [VDict p; VList errors])
  | _ => Raise (no_attribute payload "get")
  end.

Definition module (S : Type) : pymodule S :=
  {| mod_name := "context_realish.guardrails";
     mod_attrs :=
       [("MAX_TEXT_LEN", Plain (VInt MAX_TEXT_LEN));
        ("MAX_LIST_ITEMS", Plain (VInt MAX_LIST_ITEMS));
        ("BANNED_PHRASES", Plain (strs BANNED_PHRASES));
        ("check_guardrails", Callable (pure_fn check_guardrails));
        ("enforce_guardrails", Callable (pure_fn check_guardrails))] |}.

End Guardrails.

(** ** The shipped pipeline: [run] with the three modules of the package. *)
Definition pipeline (S : Type) (request : dict) (ai_fn : option (pyfun S))
  (config : option dict) : M S Result :=
  run (Schemas.module S) (Rules.module S) (Guardrails.module S)
    request ai_fn config.

Definition steps (r : Result) : list string := map step (trace r).
Definition codes (r : Result) : list string := map code (errors r).

(* ------------------------------------------------------------------ *)
(** * The engine over a store of objects *)

(** Python passes dictionaries and lists by reference.  To see what [run]
    can do to the objects of its caller, the engine is read once more with
    the mutable objects in a store: a value is a scalar or a reference, a
    dictionary holds references, [request.copy()] creates a new object with
    the same references (a shallow copy), and the collaborator functions
    and the transform are arbitrary transformers of the store. *)

Module Store.

Definition loc : Type := nat.

Inductive ref_value : Type :=
| RNone
| RBool (b : bool)
| RInt (n : Z)
| RStr (s : string)
| RRef (l : loc).

(** An object of another class is known by the name of its class and by
    what a [for] loop over it walks through, when it can be iterated. *)
Inductive object : Type :=
| ODict (kvs : list (string * ref_value))
| OList (xs : list ref_value)
| OTuple (xs : list ref_value)
| OOther (cls : string) (items : option (list ref_value)).

(** The store: the object at location [l] is the [l]-th one. *)
Definition heap : Type := list object.

Definition lookup (h : heap) (v : ref_value) : option object :=
  match v with
  | RRef l => nth_error h l
  | _ => None
  end.

(** A new object goes last; its location is the size of the store. *)
Definition alloc (o : object) : M heap ref_value :=
  fun h => ((h ++ [o])%list, Ret (RRef (List.length h))).

(** The store with the object at [l] replaced by [o]. *)
Fixpoint write (l : loc) (o : object) (h : heap) {struct h} : heap :=
  match h, l with
  | [], _ => []
  | _ :: h', O => o :: h'
  | x :: h', S l' => x :: write l' o h'
  end.

Record ErrorRecord : Type := {
  code : string;
  message : string;
  details : ref_value
}.

Record Result : Type := {
  ok : bool;
  data : ref_value;
  errors : list ErrorRecord;
  trace : list TraceEntry
}.

Definition append_trace (t : TraceEntry) (r : Result) : Result :=
  {| ok := ok r; data := data r; errors := errors r; trace := (trace r ++ [t])%list |}.

Definition append_error (e : ErrorRecord) (r : Result) : Result :=
  {| ok := ok r; data := data r; errors := (errors r ++ [e])%list; trace := trace r |}.

Definition set_data (p : ref_value) (r : Result) : Result :=
  {| ok := ok r; data := p; errors := errors r; trace := trace r |}.

Definition set_ok (b : bool) (r : Result) : Result :=
  {| ok := b; data := data r; errors := errors r; trace := trace r |}.

(** A function of one argument: it may read and write the whole store. *)
Definition pyfun : Type := ref_value -> M heap ref_value.

Inductive attr : Type :=
| Callable (f : pyfun)
| Plain (v : ref_value).

Record pymodule : Type := {
  mod_name : string;
  mod_attrs : list (string * attr)
}.

Fixpoint getattr_in (attrs : list (string * attr)) (name : string) : option attr :=
  match attrs with
  | [] => None
  | (n, a) :: rest => if String.eqb name n then Some a else getattr_in rest name
  end.

Definition getattr (module : pymodule) (name : string) : option attr :=
  getattr_in (mod_attrs module) name.

Definition is_none (v : ref_value) : bool :=
  match v with RNone => true | _ => false end.

Definition is_dict (h : heap) (v : ref_value) : bool :=
  match lookup h v with Some (ODict _) => true | _ => false end.

Definition class_name (h : heap) (v : ref_value) : string :=
  match v with
  | RNone => "NoneType"
  | RBool _ => "bool"
  | RInt _ => "int"
  | RStr _ => "str"
  | RRef _ =>
      match lookup h v with
      | Some (ODict _) => "dict"
      | Some (OList _) => "list"
      | Some (OTuple _) => "tuple"
      | Some (OOther c _) => c
      | None => "object"
      end
  end.

Definition py_iter (h : heap) (v : ref_value) : option (list ref_value) :=
  match v with
  | RStr s => Some (map (fun c => RStr (String c "")) (list_ascii_of_string s))
  | RRef _ =>
      match lookup h v with
      | Some (OList xs) | Some (OTuple xs) => Some xs
      | Some (ODict kvs) => Some (map (fun kv => RStr (fst kv)) kvs)
      | Some (OOther _ items) => items
      | None => None
      end
  | _ => None
  end.

Section StoreEngine.

(** [str(v)] in a store: the interpreter's. *)
Variable str_in : heap -> ref_value -> string.

Notation "x <- m ;; k" := (bind m (fun x => k))
  (at level 61, m at next level, right associativity).
Notation "' p <- m ;; k" := (bind m (fun x => let 'p := x in k))
  (at level 61, p pattern, m at next level, right associativity).

(** Reading the store. *)
Definition read {A : Type} (f : heap -> A) : M heap A := fun h => (h, Ret (f h)).

(** The body of the loop of [_normalize_errors].  The dictionaries it
    builds for [details] are new objects. *)
Definition normalize_one (default_code step_name : string) (e : ref_value)
  : M heap ErrorRecord :=
  o <- read (fun h => lookup h e) ;;
  match o with
  | Some (ODict d) =>
      let code := dict_get "code" (RStr default_code) d in
      let message := dict_get "message" (RStr "Error") d in
      let details := dict_get "details" RNone d in
      details <-
        (if negb (dict_has "details" d) then alloc (ODict (other_keys d))
         else ret details) ;;
      code <- read (fun h => str_in h code) ;;
      message <- read (fun h => str_in h message) ;;
      ret {| code := code; message := message; details := details |}
  | _ =>
      message <- read (fun h => str_in h e) ;;
      details <- alloc (ODict [("step", RStr step_name)]) ;;
      ret {| code := default_code; message := message; details := details |}
  end.

Fixpoint normalize_loop (default_code step_name : string) (es : list ref_value)
  (normalized : list ErrorRecord) : M heap (list ErrorRecord) :=
  match es with
  | [] => ret normalized
  | e :: es' =>
      r <- normalize_one default_code step_name e ;;
      normalize_loop default_code step_name es' (normalized ++ [r])%list
  end.

Definition _normalize_errors (raw_errors : ref_value) (default_code step_name : string)
  : M heap (list ErrorRecord) :=
  let normalized := [] in
  if is_none raw_errors then ret normalized
  else
    it <- read (fun h => py_iter h raw_errors) ;;
    match it with
    | None =>
        c <- read (fun h => class_name h raw_errors) ;;
        raise (TypeError ("'" ++ c ++ "' object is not iterable"))
    | Some es => normalize_loop default_code step_name es normalized
    end.

(** The reading of a collaborator's return value; the lists [[]] and
    [[message]] the engine makes are new objects.  The object [out] refers
    to is looked up once, before them. *)
Definition interpret_out (module : pymodule) (name : string) (out : ref_value)
  : M heap (ref_value * ref_value) :=
  o <- read (fun h => lookup h out) ;;
  let new_payload := RNone in
  raw_errors <- alloc (OList []) ;;
  match o with
  | Some (OTuple [a; b]) => ret (a, b)
  | Some (OList _) => ret (new_payload, out)
  | Some (ODict _) => ret (out, raw_errors)
  | _ =>
      if is_none out then ret (new_payload, raw_errors)
      else
        c <- read (fun h => class_name h out) ;;
        raw_errors <-
          alloc (OList [RStr ("Unexpected return type from " ++ mod_name module
                              ++ "." ++ name ++ ": <class '" ++ c ++ "'>")]) ;;
        ret (new_payload, raw_errors)
  end.

Fixpoint _call_layer (module : pymodule) (fn_names : list string) (payload : ref_value)
  : M heap (ref_value * list ErrorRecord * value) :=
  match fn_names with
  | [] =>
      ret (RNone, [],
           VDict [("called", VNone); ("note", VStr "no matching function found")])
  | name :: rest =>
      match getattr module name with
      | Some (Callable fn) =>
          out <- fn payload ;;
          let meta := VDict [("called", VStr name)] in
          '(new_payload, raw_errors) <- interpret_out module name out ;;
          errs <- _normalize_errors raw_errors "layer_error" name ;;
          ret (new_payload, errs, meta)
      | _ => _call_layer module rest payload
      end
  end.

(** [request.copy()]: a new dictionary (or list) holding the same
    references. *)
Definition copy (v : ref_value) : M heap ref_value :=
  o <- read (fun h => lookup h v) ;;
  match o with
  | Some (ODict kvs) => alloc (ODict kvs)
  | Some (OList xs) => alloc (OList xs)
  | _ =>
      c <- read (fun h => class_name h v) ;;
      raise (AttributeError ("'" ++ c ++ "' object has no attribute 'copy'"))
  end.

Variables schemas rules guardrails : pymodule.

Definition block_with (c : string) (errs : list ErrorRecord) (result : Result) : Result :=
  fold_left
    (fun result e =>
       append_error {| code := c; message := message e; details := details e |} result)
    errs result.

Definition run (request : ref_value) (ai_fn : option pyfun) (config : option dict)
  : M heap Result :=
  let config := match config with None => [] | Some c => c end in
  let enable_ai := dict_get "enable_ai" (VBool false) config in
  let strict := dict_get "strict" (VBool true) config in
  let result := {| ok := false; data := RNone; errors := []; trace := [] |} in
  payload <- copy request ;;
  (* 1) Schema *)
  '(new_payload, errs, meta) <-
    _call_layer schemas ["validate_request"; "validate"; "schema_validate"] payload ;;
  let payload := if negb (is_none new_payload) then new_payload else payload in
  let result :=
    append_trace (_step_trace "schema" (Nat.eqb (List.length errs) 0) meta) result in
  if nonempty errs then
    let result := block_with "schema_error" errs result in
    let result := set_data payload result in
    ret result
  else
  (* 2) Rules *)
  '(new_payload, errs, meta) <-
    _call_layer rules
      ["check_rules"; "apply_rules"; "evaluate_rules"; "validate_rules"] payload ;;
  let payload := if negb (is_none new_payload) then new_payload else payload in
  let result :=
    append_trace (_step_trace "rules" (Nat.eqb (List.length errs) 0) meta) result in
  if nonempty errs && truthy strict then
    let result := block_with "rule_violation" errs result in
    let result := set_data payload result in
    ret result
  else
  (* 3) Guardrails *)
  '(new_payload, errs, meta) <-
    _call_layer guardrails
      ["check_guardrails"; "enforce_guardrails"; "guardrail_check"] payload ;;
  let payload := if negb (is_none new_payload) then new_payload else payload in
  let result :=
    append_trace (_step_trace "guardrails" (Nat.eqb (List.length errs) 0) meta) result in
  if nonempty errs then
    let result := block_with "guardrail_block" errs result in
    let result := set_data payload result in
    ret result
  else
  (* 4) Optional AI step *)
  let success (payload : ref_value) (result : Result) : M heap Result :=
    let result := set_ok true result in
    let result := set_data payload result in
    ret result in
  match (if truthy enable_ai then ai_fn else None) with
  | Some ai_fn =>
      try_except
        (ai_out <- ai_fn payload ;;
         is_mapping <- read (fun h => is_dict h ai_out) ;;
         if negb is_mapping then raise (TypeError "ai_fn must return a dict")
         else
           let payload := ai_out in
           let result :=
             append_trace (_step_trace "ai" true (VDict [("called", VBool true)]))
               result in
           success payload result)
        (fun ex =>
           let result :=
             append_trace (_step_trace "ai" false (VDict [("called", VBool true)]))
               result in
           details <- alloc (ODict []) ;;
           let result :=
             append_error
               {| code := "ai_error"; message := exn_text ex; details := details |}
               result in
           let result := set_data payload result in
           ret result)
  | None =>
      let result :=
        append_trace (_step_trace "ai" true (VDict [("called", VBool false)])) result in
      success payload result
  end.

End StoreEngine.

(** ** What a collaborator may touch *)

(** The first [n] objects of two stores are the same objects. *)
Definition agree (n : nat) (h h' : heap) : Prop := firstn n h' = firstn n h.

(** A value that is not a reference to one of the first [n] objects. *)
Definition beyond (n : nat) (v : ref_value) : Prop :=
  match v with
  | RRef l => n <= l
  | _ => True
  end.

(** The payload a collaborator's return value proposes. *)
Definition proposed (h : heap) (out : ref_value) : ref_value :=
  match lookup h out with
  | Some (OTuple [a; _]) => a
  | Some (ODict _) => out
  | _ => RNone
  end.

(** A function confined to what it is handed: called on a value beyond the
    first [n] objects, it leaves these objects as they are (it may write
    to its argument and to objects it creates), and what it returns is
    read by [payload_of] as a value beyond them again. *)
Definition confined (payload_of : heap -> ref_value -> ref_value) (n : nat)
  (f : pyfun) : Prop :=
  forall payload h h' o,
    n <= List.length h -> beyond n payload ->
    f payload h = (h', o) ->
    agree n h h'
    /\ match o with
       | Ret out => beyond n (payload_of h' out)
       | Raise _ => True
       end.

Definition confined_module (n : nat) (m : pymodule) : Prop :=
  forall name f, getattr m name = Some (Callable f) -> confined proposed n f.

Definition confined_transform (n : nat) (ai_fn : option pyfun) : Prop :=
  match ai_fn with
  | Some f => confined (fun _ out => out) n f
  | None => True
  end.

(** ** Computations that leave the caller's objects alone *)

(** A computation that leaves the first [n] objects alone: from a store
    satisfying [P] it ends in a store that agrees on them, with a result
    satisfying [Q]. *)
Definition keeps {A : Type} (n : nat) (P : heap -> Prop) (m : M heap A)
  (Q : heap -> A -> Prop) : Prop :=
  forall h h' o,
    n <= List.length h -> P h -> m h = (h', o) ->
    agree n h h'
    /\ match o with
       | Ret a => Q h' a
       | Raise _ => True
       end.

Definition any_heap : heap -> Prop := fun _ => True.

Definition anything {A : Type} : heap -> A -> Prop := fun _ _ => True.

End Store.

(* ------------------------------------------------------------------ *)
(** * The paths through [run] *)

Section Paths.

Variable S : Type.
Variables schemas rules guardrails : pymodule S.

Definition SCHEMA_NAMES : list string :=
  ["validate_request"; "validate"; "schema_validate"].
Definition RULES_NAMES : list string :=
  ["check_rules"; "apply_rules"; "evaluate_rules"; "validate_rules"].
Definition GUARDRAILS_NAMES : list string :=
  ["check_guardrails"; "enforce_guardrails"; "guardrail_check"].

Definition STAGES : list string := ["schema"; "rules"; "guardrails"; "ai"].
Definition STAGE_CODES : list string :=
  ["schema_error"; "rule_violation"; "guardrail_block"; "ai_error"].

(** [if new_payload is not None: payload = new_payload]. *)
Definition adopt (payload new_payload : value) : value :=
  if negb (is_none new_payload) then new_payload else payload.

(** The trace entry of a collaborator stage. *)
Definition entry (name : string) (errs : list ErrorRecord) (meta : value) : TraceEntry :=
  _step_trace name (Nat.eqb (List.length errs) 0) meta.

Definition ai_entry (ok called : bool) : TraceEntry :=
  _step_trace "ai" ok (VDict [("called", VBool called)]).

(** An error record under the blocking stage's code. *)
Definition recode (c : string) (e : ErrorRecord) : ErrorRecord :=
  {| code := c; message := message e; details := details e |}.

Definition config_of (config : option dict) : dict :=
  match config with None => [] | Some c => c end.

Definition enable_ai (config : option dict) : bool :=
  truthy (dict_get "enable_ai" (VBool false) (config_of config)).

Definition strict (config : option dict) : bool :=
  truthy (dict_get "strict" (VBool true) (config_of config)).

(** A collaborator stage that returned: the state after it, the payload
    the engine goes on with, the normalized errors and the trace info. *)
Definition stage_returns (module : pymodule S) (names : list string)
  (payload : value) (s s' : S) (payload' : value) (errs : list ErrorRecord)
  (meta : value) : Prop :=
  exists new_payload,
    _call_layer module names payload s = (s', Ret (new_payload, errs, meta))
    /\ payload' = adopt payload new_payload.

(** A collaborator stage whose function raised, or whose error list could
    not be walked. *)
Definition stage_raises (module : pymodule S) (names : list string)
  (payload : value) (s s' : S) (ex : exn) : Prop :=
  _call_layer module names payload s = (s', Raise ex).

(** Schema passed. *)
Definition passed1 (request : dict) (s s1 : S) (p1 : value)
  (tr : list TraceEntry) : Prop :=
  exists m1,
    stage_returns schemas SCHEMA_NAMES (VDict request) s s1 p1 [] m1
    /\ tr = [entry "schema" [] m1].

(** Schema passed and rules did not block. *)
Definition passed2 (request : dict) (config : option dict) (s s2 : S)
  (p2 : value) (tr : list TraceEntry) : Prop :=
  exists s1 p1 tr1 e2 m2,
    passed1 request s s1 p1 tr1
    /\ stage_returns rules RULES_NAMES p1 s1 s2 p2 e2 m2
    /\ (e2 = [] \/ strict config = false)
    /\ tr = (tr1 ++ [entry "rules" e2 m2])%list.

(** The three collaborator stages were passed: the AI stage is reached in
    state [s3] with payload [p3]. *)
Definition passed3 (request : dict) (config : option dict) (s s3 : S)
  (p3 : value) (tr : list TraceEntry) : Prop :=
  exists s2 p2 tr2 m3,
    passed2 request config s s2 p2 tr2
    /\ stage_returns guardrails GUARDRAILS_NAMES p2 s2 s3 p3 [] m3
    /\ tr = (tr2 ++ [entry "guardrails" [] m3])%list.

Definition blocked (c : string) (p : value) (errs : list ErrorRecord)
  (tr : list TraceEntry) : Result :=
  {| ok := false; data := p; errors := map (recode c) errs; trace := tr |}.

Definition ai_failed (p : value) (msg : string) (tr : list TraceEntry) : Result :=
  {| ok := false; data := p;
     errors := [{| code := "ai_error"; message := msg; details := VDict [] |}];
     trace := (tr ++ [ai_entry false true])%list |}.

Definition succeeded (p : value) (tr : list TraceEntry) (called : bool) : Result :=
  {| ok := true; data := p; errors := [];
     trace := (tr ++ [ai_entry true called])%list |}.

(** Every way [run] can end, one constructor per exit of the function. *)
Inductive run_path (request : dict) (ai_fn : option (pyfun S))
  (config : option dict) (s : S) : S -> outcome Result -> Prop :=
| SchemaRaised s1 ex :
    stage_raises schemas SCHEMA_NAMES (VDict request) s s1 ex ->
    run_path request ai_fn config s s1 (Raise ex)
| SchemaBlocked s1 p1 e1 m1 :
    stage_returns schemas SCHEMA_NAMES (VDict request) s s1 p1 e1 m1 ->
    e1 <> [] ->
    run_path request ai_fn config s s1
      (Ret (blocked "schema_error" p1 e1 [entry "schema" e1 m1]))
| RulesRaised s1 p1 tr1 s2 ex :
    passed1 request s s1 p1 tr1 ->
    stage_raises rules RULES_NAMES p1 s1 s2 ex ->
    run_path request ai_fn config s s2 (Raise ex)
| RulesBlocked s1 p1 tr1 s2 p2 e2 m2 :
    passed1 request s s1 p1 tr1 ->
    stage_returns rules RULES_NAMES p1 s1 s2 p2 e2 m2 ->
    e2 <> [] -> strict config = true ->
    run_path request ai_fn config s s2
      (Ret (blocked "rule_violation" p2 e2 (tr1 ++ [entry "rules" e2 m2])%list))
| GuardrailsRaised s2 p2 tr2 s3 ex :
    passed2 request config s s2 p2 tr2 ->
    stage_raises guardrails GUARDRAILS_NAMES p2 s2 s3 ex ->
    run_path request ai_fn config s s3 (Raise ex)
| GuardrailsBlocked s2 p2 tr2 s3 p3 e3 m3 :
    passed2 request config s s2 p2 tr2 ->
    stage_returns guardrails GUARDRAILS_NAMES p2 s2 s3 p3 e3 m3 ->
    e3 <> [] ->
    run_path request ai_fn config s s3
      (Ret (blocked "guardrail_block" p3 e3
              (tr2 ++ [entry "guardrails" e3 m3])%list))
| AiSkipped s3 p3 tr3 :
    passed3 request config s s3 p3 tr3 ->
    enable_ai config = false \/ ai_fn = None ->
    run_path request ai_fn config s s3 (Ret (succeeded p3 tr3 false))
| AiSucceeded s3 p3 tr3 f s4 ai_out :
    passed3 request config s s3 p3 tr3 ->
    enable_ai config = true -> ai_fn = Some f ->
    f p3 s3 = (s4, Ret ai_out) -> is_dict ai_out = true ->
    run_path request ai_fn config s s4 (Ret (succeeded ai_out tr3 true))
| AiWrongType s3 p3 tr3 f s4 ai_out :
    passed3 request config s s3 p3 tr3 ->
    enable_ai config = true -> ai_fn = Some f ->
    f p3 s3 = (s4, Ret ai_out) -> is_dict ai_out = false ->
    run_path request ai_fn config s s4
      (Ret (ai_failed p3 "ai_fn must return a dict" tr3))
| AiRaised s3 p3 tr3 f s4 ex :
    passed3 request config s s3 p3 tr3 ->
    enable_ai config = true -> ai_fn = Some f ->
    f p3 s3 = (s4, Raise ex) -> exn_is_Exception ex = true ->
    run_path request ai_fn config s s4 (Ret (ai_failed p3 (exn_text ex) tr3))
| AiUncaught s3 p3 tr3 f s4 ex :
    passed3 request config s s3 p3 tr3 ->
    enable_ai config = true -> ai_fn = Some f ->
    f p3 s3 = (s4, Raise ex) -> exn_is_Exception ex = false ->
    run_path request ai_fn config s s4 (Raise ex).

End Paths.

(** ** Reading a Result *)

Definition last_entry (r : Result) : option TraceEntry :=
  last (map Some (trace r)) None.

(** The AI stage was attempted and did not fail. *)
Definition ai_passed (r : Result) : Prop :=
  exists t, last_entry r = Some t /\ step t = "ai" /\ step_ok t = true.

(** All four stages were attempted and none of them blocked: a block at
    one of the first three stages leaves no entry for the later ones. *)
Definition ran_to_completion (r : Result) : Prop :=
  steps r = STAGES /\ ai_passed r.

(** The payload the engine holds when [run] returns: the copy of the
    request, replaced by each stage that returned one, up to the stage
    that ended the run.  A failed AI stage leaves the payload it was given. *)
Inductive exit_payload (S : Type) (schemas rules guardrails : pymodule S)
  (request : dict) (ai_fn : option (pyfun S)) (config : option dict) (s : S)
  : value -> Prop :=
| ExitSchema s1 p1 e1 m1 :
    stage_returns schemas SCHEMA_NAMES (VDict request) s s1 p1 e1 m1 ->
    e1 <> [] ->
    exit_payload schemas rules guardrails request ai_fn config s p1
| ExitRules s1 p1 tr1 s2 p2 e2 m2 :
    passed1 schemas request s s1 p1 tr1 ->
    stage_returns rules RULES_NAMES p1 s1 s2 p2 e2 m2 ->
    e2 <> [] -> strict config = true ->
    exit_payload schemas rules guardrails request ai_fn config s p2
| ExitGuardrails s2 p2 tr2 s3 p3 e3 m3 :
    passed2 schemas rules request config s s2 p2 tr2 ->
    stage_returns guardrails GUARDRAILS_NAMES p2 s2 s3 p3 e3 m3 ->
    e3 <> [] ->
    exit_payload schemas rules guardrails request ai_fn config s p3
| ExitAiSkipped s3 p3 tr3 :
    passed3 schemas rules guardrails request config s s3 p3 tr3 ->
    enable_ai config = false \/ ai_fn = None ->
    exit_payload schemas rules guardrails request ai_fn config s p3
| ExitAiFailed s3 p3 tr3 f s4 o :
    passed3 schemas rules guardrails request config s s3 p3 tr3 ->
    enable_ai config = true -> ai_fn = Some f ->
    f p3 s3 = (s4, o) ->
    match o with Ret ai_out => is_dict ai_out = false | Raise _ => True end ->
    exit_payload schemas rules guardrails request ai_fn config s p3
| ExitAiDone s3 p3 tr3 f s4 ai_out :
    passed3 schemas rules guardrails request config s s3 p3 tr3 ->
    enable_ai config = true -> ai_fn = Some f ->
    f p3 s3 = (s4, Ret ai_out) -> is_dict ai_out = true ->
    exit_payload schemas rules guardrails request ai_fn config s ai_out.

(** [isinstance(out, tuple) and len(out) == 2]. *)
Definition is_pair (v : value) : bool :=
  match v with VTuple [_; _] => true | _ => false end.

(** The record made from the one synthetic error string of an unexpected
    return value. *)
Definition unexpected_return (module_name name : string) (out : value) : ErrorRecord :=
  {| code := "layer_error";
     message := "Unexpected return type from " ++ module_name ++ "." ++ name
                ++ ": " ++ type_text out;
     details := VDict [("step", VStr name)] |}.

(** ** Determinism *)

(** A computation whose outcome does not depend on the state it starts
    from. *)
Definition stateless {S A : Type} (m : M S A) : Prop :=
  forall s1 s2, snd (m s1) = snd (m s2).

(** A deterministic function: what it returns or raises is decided by its
    argument alone. *)
Definition deterministic {S : Type} (f : pyfun S) : Prop :=
  forall payload, stateless (f payload).

(** A computation that leaves the state as it found it. *)
Definition preserving {S A : Type} (m : M S A) : Prop :=
  forall s, fst (m s) = s.

(** A side-effect-free function. *)
Definition effect_free {S : Type} (f : pyfun S) : Prop :=
  forall payload, preserving (f payload).

Definition module_functions {S : Type} (P : pyfun S -> Prop) (m : pymodule S) : Prop :=
  forall name f, getattr m name = Some (Callable f) -> P f.

Definition transform_is {S : Type} (P : pyfun S -> Prop) (ai_fn : option (pyfun S)) : Prop :=
  match ai_fn with
  | Some f => P f
  | None => True
  end.

(** ** The error normalizer, as the specification words it *)

(** The raw errors the contract admits: a structured entry (a dictionary,
    whose keys are distinct) or a plain string. *)
Definition raw_entry (e : value) : Prop :=
  match e with
  | VDict d => NoDup (dict_keys d)
  | VStr _ => True
  | _ => False
  end.

Definition is_code_or_message (k : string) : bool :=
  String.eqb k "code" || String.eqb k "message".

(** The record for one raw error: the entry's [code] (or [default_code]),
    its [message] (or "Error"), its [details] when the key is there and
    otherwise every other key and value of the entry besides [code] and
    [message]; for a string, [default_code], the string and the step name. *)
Definition spec_record (default_code step_name : string) (e : value)
  : option ErrorRecord :=
  match e with
  | VDict d =>
      Some {| code :=
                py_str (match dict_find "code" d with
                        | Some c => c
                        | None => VStr default_code
                        end);
              message :=
                py_str (match dict_find "message" d with
                        | Some m => m
                        | None => VStr "Error"
                        end);
              details :=
                match dict_find "details" d with
                | Some v => v
                | None =>
                    VDict (filter (fun kv => negb (is_code_or_message (fst kv))) d)
                end |}
  | VStr msg =>
      Some {| code := default_code; message := msg;
              details := VDict [("step", VStr step_name)] |}
  | _ => None
  end.

(** ** More readings of a run *)

(** The stage whose entry ends the trace reported a failure. *)
Definition ends_in_failure (r : Result) : Prop :=
  exists t, last_entry r = Some t /\ step_ok t = false.


(** The transform raises nothing but [Exception]s. *)
Definition raises_only_Exception (S : Type) (ai_fn : option (pyfun S)) : Prop :=
  forall f payload s s' ex,
    ai_fn = Some f -> f payload s = (s', Raise ex) -> exn_is_Exception ex = true.

Definition shipped_trace1 : list TraceEntry :=
  [entry "schema" [] (VDict [("called", VStr "validate_request")])].

Definition shipped_trace2 (v2 : list value) : list TraceEntry :=
  (shipped_trace1
     ++ [entry "rules" (map (normalize_one "layer_error" "check_rules") v2)
           (VDict [("called", VStr "check_rules")])])%list.

Definition shipped_trace3 (v2 : list value) : list TraceEntry :=
  (shipped_trace2 v2
     ++ [entry "guardrails" [] (VDict [("called", VStr "check_guardrails")])])%list.

(* ------------------------------------------------------------------ *)
(** * Reaching the AI stage, over a store *)

Module StorePaths.
Import Store.

(** [if new_payload is not None: payload = new_payload]. *)
Definition adopt (payload new_payload : ref_value) : ref_value :=
  if negb (is_none new_payload) then new_payload else payload.

Section Reaching.

Variable str_in : heap -> ref_value -> string.
Variables schemas rules guardrails : pymodule.

(** The three collaborator stages were passed: [run], started in the store
    [h], reaches the AI stage in the store [h3], holding the payload [p3]
    and the trace [tr3]. *)
Definition reaches_ai (request : ref_value) (config : option dict) (h h3 : heap)
  (p3 : ref_value) (tr3 : list TraceEntry) : Prop :=
  exists h0 p0 h1 np1 m1 h2 np2 e2 m2 np3 m3,
    copy request h = (h0, Ret p0)
    /\ _call_layer str_in schemas SCHEMA_NAMES p0 h0 = (h1, Ret (np1, [], m1))
    /\ _call_layer str_in rules RULES_NAMES (adopt p0 np1) h1
       = (h2, Ret (np2, e2, m2))
    /\ (e2 = [] \/ strict config = false)
    /\ _call_layer str_in guardrails GUARDRAILS_NAMES (adopt (adopt p0 np1) np2) h2
       = (h3, Ret (np3, [], m3))
    /\ p3 = adopt (adopt (adopt p0 np1) np2) np3
    /\ tr3 = [_step_trace "schema" true m1;
              _step_trace "rules" (Nat.eqb (List.length e2) 0) m2;
              _step_trace "guardrails" true m3].

End Reaching.

(** The transform failed: it raised an [Exception], or what it returned
    is not a dictionary in the store it left. *)
Definition transform_failed (h4 : heap) (o : outcome ref_value) : Prop :=
  match o with
  | Ret ai_out => is_dict h4 ai_out = false
  | Raise ex => exn_is_Exception ex = true
  end.

(** The message of the [ai_error] record. *)
Definition failure_text (o : outcome ref_value) : string :=
  match o with
  | Ret _ => "ai_fn must return a dict"
  | Raise ex => exn_text ex
  end.

End StorePaths.

(* ------------------------------------------------------------------ *)
(** * Readings of the collaborators *)

(** The attribute [name] of the module is missing or is not callable. *)
Definition not_callable (S : Type) (module : pymodule S) (name : string) : Prop :=
  match getattr module name with
  | Some (Callable _) => False
  | _ => True
  end.

(** The [code] of an error a policy function built. *)
Definition error_code (e : value) : option value :=
  match e with
  | VDict d => dict_find "code" d
  | _ => None
  end.

(** The role the rules work with: "user" when the payload has none. *)
Definition effective_role (payload : dict) : value :=
  let role := dict_get "role" VNone payload in
  if is_none role then VStr "user" else role.

(** The role is one of the allowed ones and its row of [ROLE_ACTIONS] has
    the action. *)
Definition permitted (payload : dict) : Prop :=
  exists r a,
    effective_role payload = VStr r /\ In r Rules.ALLOWED_ROLES
    /\ dict_get "action" VNone payload = VStr a
    /\ In a (Rules.role_actions_in Rules.ROLE_ACTIONS r).

(** What validation makes of the value stored under [k], for a key other
    than [_schema]: [action] and [role] are stripped and lowercased when
    they are non-empty strings, the optional text fields are stripped when
    they are strings, anything else is left alone. *)
Definition field_after (k : string) (v : value) : value :=
  if String.eqb k "action" || String.eqb k "role" then
    if Schemas._is_nonempty_string v
    then VStr (PyText.lower (PyText.strip (Schemas.text_of v)))
    else v
  else if PyText.mem k Schemas.TEXT_FIELDS then
    match v with
    | VStr t => VStr (PyText.strip t)
    | _ => v
    end
  else v.

Definition schema_record : value :=
  VDict [("validated", VBool true);
         ("required_fields", strs Schemas.REQUIRED_FIELDS)].

Definition stripped (v : value) : value :=
  match v with
  | VStr t => VStr (PyText.strip t)
  | _ => v
  end.

(** The text the guardrails scan. *)
Definition scanned_text (payload : dict) : string :=
  PyText.lower (Guardrails._collect_text payload).

(** A field that holds a list of more than [MAX_LIST_ITEMS] items. *)
Definition oversized (kv : string * value) : bool :=
  match snd kv with
  | VList items => Z.ltb Guardrails.MAX_LIST_ITEMS (Z.of_nat (List.length items))
  | _ => false
  end.

Definition items_of (v : value) : Z :=
  match v with
  | VList items => Z.of_nat (List.length items)
  | _ => 0%Z
  end.

(** The error of step 1, when there is one. *)
Definition length_errors (payload : dict) : list value :=
  let combined_text := scanned_text payload in
  if Z.ltb Guardrails.MAX_TEXT_LEN (PyText.len combined_text) then
    [Guardrails._err "too_long"
       ("Input text is too long (max " ++ PyText.of_int Guardrails.MAX_TEXT_LEN
          ++ " chars).")
       (VDict [("length", VInt (PyText.len combined_text));
               ("max_len", VInt Guardrails.MAX_TEXT_LEN)])]
  else [].

(** The error of step 2A: the first banned phrase the text contains. *)
Definition phrase_errors (payload : dict) : list value :=
  match find (fun phrase => PyText.contains phrase (scanned_text payload))
          Guardrails.BANNED_PHRASES with
  | Some phrase => [Guardrails.banned phrase "phrase"]
  | None => []
  end.

(** The error of step 2B: the first word of the text that is banned. *)
Definition word_errors (payload : dict) : list value :=
  match find (fun w => PyText.mem w Guardrails.BANNED_WORDS)
          (Guardrails._to_words (scanned_text payload)) with
  | Some w => [Guardrails.banned w "word"]
  | None => []
  end.

Definition has_code (c : string) (e : value) : bool :=
  match error_code e with
  | Some (VStr c') => String.eqb c' c
  | _ => false
  end.

(** The three shipped policies let the request through: the schema and the
    guardrails report nothing, and the rules report nothing or [strict] is
    off. *)
Definition policies_pass (request : dict) (config : option dict) : Prop :=
  let d1 := fst (Schemas.validate_dict request) in
  let d2 := fst (Rules.check_rules_dict d1) in
  snd (Schemas.validate_dict request) = []
  /\ (snd (Rules.check_rules_dict d1) = [] \/ strict config = false)
  /\ snd (Guardrails.check_guardrails_dict d2) = [].

(** The payload after the three policy functions, one applied to the
    payload of the other. *)
Definition passed_payload (request : dict) : dict :=
  fst (Guardrails.check_guardrails_dict
         (fst (Rules.check_rules_dict (fst (Schemas.validate_dict request))))).

(** A payload in the form validation leaves it in. *)
Definition normal (d : dict) : Prop :=
  (exists a, dict_find "action" d = Some (VStr a) /\ In a Schemas.ALLOWED_ACTIONS)
  /\ (dict_find "role" d = None
      \/ dict_find "role" d = Some VNone
      \/ exists r, dict_find "role" d = Some (VStr r) /\ In r Schemas.ALLOWED_ROLES)
  /\ (forall f t, In f Schemas.TEXT_FIELDS -> dict_find f d = Some (VStr t) ->
        PyText.strip t = t)
  /\ dict_find "_schema" d = Some schema_record.

(* ------------------------------------------------------------------ *)
(** * Concrete inputs *)

Definition hello_request : dict :=
  [("role", VStr "user"); ("action", VStr "read"); ("prompt", VStr "hello")].

Definition delete_request : dict :=
  [("role", VStr "user"); ("action", VStr "delete"); ("prompt", VStr "hello")].

Definition no_action_request : dict :=
  [("role", VStr "user"); ("prompt", VStr "hello")].

Definition lax_config : option dict := Some [("strict", VBool false)].
Definition ai_config : option dict := Some [("enable_ai", VBool true)].

(** The transform of the test suite that returns a string. *)
Definition bad_ai_fn : pyfun unit := pure_fn (fun _ => Ret (VStr "not a dict")).

(** [simple_ai] of [main.py]. *)
Definition simple_ai : pyfun unit :=
  pure_fn (fun payload =>
    match payload with
    | VDict new_payload =>
        let prompt := dict_get "prompt" (VStr "") new_payload in
        Ret (VDict (dict_set "assistant_reply"
                      (VStr ("You said: " ++ py_str prompt)) new_payload))
    | _ => Raise (no_attribute payload "copy")
    end).

Definition result_of (o : unit * outcome Result) : Result :=
  match o with
  | (_, Ret r) => r
  | (_, Raise _) => {| ok := false; data := VNone; errors := []; trace := [] |}
  end.

Definition hello_result : Result :=
  Eval vm_compute in result_of (pipeline hello_request None None tt).

Definition no_action_result : Result :=
  Eval vm_compute in result_of (pipeline no_action_request None None tt).

Definition hello_d1 : dict :=
  Eval vm_compute in fst (Schemas.validate_dict hello_request).
Definition hello_d2 : dict :=
  Eval vm_compute in fst (Rules.check_rules_dict hello_d1).
Definition hello_d3 : dict :=
  Eval vm_compute in fst (Guardrails.check_guardrails_dict hello_d2).

(** A collaborator whose function returns a number. *)
Definition odd_module : pymodule unit :=
  {| mod_name := "odd";
     mod_attrs := [("validate", Callable (pure_fn (fun _ => Ret (VInt 5))))] |}.

Definition sample_raw_errors : list value :=
  [VStr "boom";
   VDict [("code", VInt 7); ("field", VStr "action"); ("message", VStr "bad")];
   VStr "boom";
   VDict [("details", VNone); ("extra", VInt 1)]].

Definition delete_d1 : dict :=
  Eval vm_compute in fst (Schemas.validate_dict delete_request).

(** A transform that counts its calls in the state and reports the count:
    not deterministic, and not free of effects. *)
Definition counting_ai : pyfun nat :=
  fun _ n => (S n, Ret (VDict [("calls", VInt (Z.of_nat n))])).

(** A collaborator whose function returns a tuple of three items. *)
Definition triple_module : pymodule unit :=
  {| mod_name := "odd";
     mod_attrs :=
       [("validate",
         Callable (pure_fn (fun payload => Ret (VTuple [payload; VList []; VNone]))))] |}.

(** A collaborator whose function returns the number of its errors in
    place of the errors. *)
Definition count_module : pymodule unit :=
  {| mod_name := "odd";
     mod_attrs :=
       [("validate",
         Callable (pure_fn (fun payload => Ret (VTuple [payload; VInt 3]))))] |}.

(** A collaborator whose function returns its three errors in a tuple. *)
Definition tuple_errors_module : pymodule unit :=
  {| mod_name := "odd";
     mod_attrs :=
       [("validate",
         Callable (pure_fn (fun _ => Ret (VTuple [VStr "a"; VStr "b"; VStr "c"]))))] |}.

(** A set of two errors: an object that is not a list and can be walked. *)
Definition set_of_errors : value :=
  VOther "set" "{'a', 'b'}" true (Some [VStr "a"; VStr "b"]).

Definition KeyboardInterrupt : exn := Exn "KeyboardInterrupt" false "".

(** A transform that is interrupted from the keyboard. *)
Definition interrupted_ai : pyfun unit := fun _ s => (s, Raise KeyboardInterrupt).

Definition admin_delete_request : dict :=
  [("role", VStr "admin"); ("action", VStr "delete")].

Definition padded_request : dict :=
  [("action", VStr "   READ   "); ("prompt", VStr "  hello  "); ("items", VInt 3)].

(** A request whose prompt has a banned word and more than 2000
    characters. *)
Definition long_request : dict :=
  [("action", VStr "read");
   ("prompt", VStr ("bomb " ++ string_of_list_ascii (repeat "a"%char 2000)))].

Definition lax_delete_result : Result :=
  Eval vm_compute in result_of (pipeline delete_request None lax_config tt).

(** ** A store *)

Module StoreDemo.
Import Store.

(** The caller's objects: a list, and the request that refers to it. *)
Definition caller_heap : heap :=
  [OList [RInt 1; RInt 2];
   ODict [("action", RStr "read"); ("items", RRef 0)]].

Definition request : ref_value := RRef 1.

(** A printer that stands for [str]. *)
Definition str_in (h : heap) (v : ref_value) : string :=
  match v with
  | RStr t => t
  | _ => class_name h v
  end.

(** A schema function that marks the dictionary it is handed, in place,
    and returns [None]. *)
Definition stamp : pyfun :=
  fun payload h =>
    match payload with
    | RRef l =>
        match nth_error h l with
        | Some (ODict kvs) =>
            (write l (ODict (dict_set "_seen" (RBool true) kvs)) h, Ret RNone)
        | _ => (h, Ret RNone)
        end
    | _ => (h, Ret RNone)
    end.

Definition stamping : pymodule :=
  {| mod_name := "stamping"; mod_attrs := [("validate", Callable stamp)] |}.

Definition nothing : pymodule := {| mod_name := "nothing"; mod_attrs := [] |}.

(** A transform that appends to the list under [items], in place, and
    returns the dictionary it was handed. *)
Definition append_item : pyfun :=
  fun payload h =>
    match lookup h payload with
    | Some (ODict kvs) =>
        match dict_find "items" kvs with
        | Some (RRef li) =>
            match nth_error h li with
            | Some (OList xs) => (write li (OList (xs ++ [RInt 3])) h, Ret payload)
            | _ => (h, Ret payload)
            end
        | _ => (h, Ret payload)
        end
    | _ => (h, Ret payload)
    end.

Definition stamped_run : heap * outcome Result :=
  run str_in stamping nothing nothing request None None caller_heap.

(** A transform that marks the dictionary it is handed, in place, and
    then fails. *)
Definition spoil : pyfun :=
  fun payload h =>
    let boom := Exn "RuntimeError" true "boom" in
    match payload with
    | RRef l =>
        match nth_error h l with
        | Some (ODict kvs) =>
            (write l (ODict (dict_set "x" (RInt 1) kvs)) h, Raise boom)
        | _ => (h, Raise boom)
        end
    | _ => (h, Raise boom)
    end.

(** A transform that is interrupted from the keyboard. *)
Definition interrupted : pyfun := fun _ h => (h, Raise KeyboardInterrupt).

(** The store when the AI stage is reached with collaborators that do
    nothing: the caller's objects and the copy of the request. *)
Definition copied_heap : heap :=
  Eval vm_compute in fst (copy request caller_heap).

(** The store [spoil] leaves. *)
Definition spoiled_heap : heap :=
  Eval vm_compute in fst (spoil (RRef 2) copied_heap).

Definition no_function : value :=
  VDict [("called", VNone); ("note", VStr "no matching function found")].

Definition reached_trace : list TraceEntry :=
  [_step_trace "schema" true no_function;
   _step_trace "rules" true no_function;
   _step_trace "guardrails" true no_function].

Definition spoiled_run : heap * outcome Result :=
  run str_in nothing nothing nothing request (Some spoil) ai_config caller_heap.

Definition interrupted_run : heap * outcome Result :=
  run str_in nothing nothing nothing request (Some interrupted) ai_config
    caller_heap.

End StoreDemo.

(* ------------------------------------------------------------------ *)
(** * Properties *)

Lemma block_with_eq c errs r :
  block_with c errs r =
  {| ok := ok r; data := data r;
     errors := (errors r ++ map (recode c) errs)%list; trace := trace r |}.
Proof.
  revert r. induction errs as [|e errs IH]; intros r; simpl.
  - rewrite app_nil_r. destruct r; reflexivity.
  - rewrite IH. simpl. rewrite <- app_assoc. reflexivity.
Qed.

Lemma nonempty_false {A : Type} (l : list A) : nonempty l = false -> l = [].
Proof. destruct l; simpl; congruence. Qed.

Lemma nonempty_true {A : Type} (l : list A) : nonempty l = true -> l <> [].
Proof. destruct l; simpl; congruence. Qed.

(** ** The error normalizer *)

Lemma append_loop {A B : Type} (f : A -> B) (xs : list A) (acc : list B) :
  fold_left (fun acc x => (acc ++ [f x])%list) xs acc = (acc ++ map f xs)%list.
Proof.
  revert acc. induction xs as [|x xs IH]; intros acc; simpl.
  - now rewrite app_nil_r.
  - rewrite IH, <- app_assoc. reflexivity.
Qed.

Lemma dict_set_fresh k v (d : dict) :
  ~ In k (dict_keys d) -> dict_set k v d = (d ++ [(k, v)])%list.
Proof.
  induction d as [|[k' v'] d IH]; simpl; intros N; [reflexivity|].
  destruct (String.eqb_spec k k') as [->|Hne].
  - exfalso. apply N. now left.
  - rewrite IH; [reflexivity|]. intros I. apply N. now right.
Qed.

Lemma keys_filter (keep : string * value -> bool) (d : dict) k :
  In k (dict_keys (filter keep d)) -> In k (dict_keys d).
Proof.
  unfold dict_keys. rewrite !in_map_iff. intros (kv & <- & I).
  apply filter_In in I. exists kv. tauto.
Qed.

Lemma other_keys_loop (d acc : dict) :
  NoDup (dict_keys d) ->
  (forall k, In k (dict_keys d) -> ~ In k (dict_keys acc)) ->
  fold_left
    (fun details kv =>
       if negb (PyText.mem (fst kv) ["code"; "message"])
       then dict_set (fst kv) (snd kv) details
       else details)
    d acc
  = (acc ++ filter (fun kv => negb (is_code_or_message (fst kv))) d)%list.
Proof.
  revert acc. induction d as [|[k v] d IH]; intros acc ND Fr;
    cbn [fold_left filter fst snd].
  - now rewrite app_nil_r.
  - inversion ND as [|? ? Hk ND']; subst.
    assert (M : PyText.mem k ["code"; "message"] = is_code_or_message k).
    { unfold PyText.mem, is_code_or_message. simpl. now rewrite orb_false_r. }
    rewrite M. destruct (is_code_or_message k); cbn [negb].
    + apply IH; [exact ND'|]. intros k' I. apply Fr. now right.
    + rewrite dict_set_fresh by (apply Fr; now left).
      rewrite IH; [now rewrite <- app_assoc|exact ND'|].
      intros k' I. unfold dict_keys. rewrite map_app, in_app_iff. simpl.
      intros [J|[<-|[]]]; [|exact (Hk I)].
      revert J. apply Fr. now right.
Qed.

Lemma other_keys_filter (d : dict) :
  NoDup (dict_keys d) ->
  other_keys d = filter (fun kv => negb (is_code_or_message (fst kv))) d.
Proof.
  intros ND. unfold other_keys. now rewrite other_keys_loop by (auto; intros ? ? []).
Qed.

Lemma normalize_one_spec default_code step_name e :
  raw_entry e ->
  spec_record default_code step_name e
  = Some (normalize_one default_code step_name e).
Proof.
  destruct e; simpl; try contradiction; intros W; [reflexivity|].
  unfold dict_get, dict_has. rewrite (@other_keys_filter kvs W).
  destruct (dict_find "details" kvs); reflexivity.
Qed.

(** C7.  On a sequence of raw errors the normalizer returns one record per
    element, in the same order and without merging equal ones; each record
    is the one the specification assigns to its element. *)
Theorem normalize_errors_spec xs default_code step_name :
  Forall raw_entry xs ->
  exists rs,
    _normalize_errors (VList xs) default_code step_name = Ret rs
    /\ List.length rs = List.length xs
    /\ Forall2 (fun e r => spec_record default_code step_name e = Some r) xs rs.
Proof.
  intros W. exists (map (normalize_one default_code step_name) xs).
  split; [|split].
  - unfold _normalize_errors. simpl. now rewrite append_loop.
  - apply length_map.
  - induction W as [|e xs We W IH]; simpl; constructor; auto.
    now apply normalize_one_spec.
Qed.

(** Absent raw errors give no record, and so does an empty sequence. *)
Lemma normalize_errors_absent default_code step_name :
  _normalize_errors VNone default_code step_name = Ret []
  /\ _normalize_errors (VList []) default_code step_name = Ret [].
Proof. split; reflexivity. Qed.

(** ** The stage invoker *)

Section CallLayer.

Variable S : Type.

Lemma call_layer_resolved (module : pymodule S) name rest fn payload s :
  getattr module name = Some (Callable fn) ->
  _call_layer module (name :: rest) payload s
  = bind (fn payload)
      (fun out =>
         let '(new_payload, raw_errors) := interpret_out module name out in
         bind (lift (_normalize_errors raw_errors "layer_error" name))
           (fun errs => ret (new_payload, errs, VDict [("called", VStr name)])))
      s.
Proof. intros G. simpl. rewrite G. reflexivity. Qed.

(** The invoker, once a name has resolved and its function has returned. *)
Lemma call_layer_invoked (module : pymodule S) name rest fn payload s s' out :
  getattr module name = Some (Callable fn) ->
  fn payload s = (s', Ret out) ->
  _call_layer module (name :: rest) payload s
  = let '(new_payload, raw_errors) := interpret_out module name out in
    match _normalize_errors raw_errors "layer_error" name with
    | Ret errs => (s', Ret (new_payload, errs, VDict [("called", VStr name)]))
    | Raise ex => (s', Raise ex)
    end.
Proof.
  intros G E. rewrite call_layer_resolved with (fn := fn) by exact G.
  unfold bind at 1. rewrite E. destruct (interpret_out module name out) as [np raw].
  unfold bind, lift, ret. destruct (_normalize_errors raw "layer_error" name);
    reflexivity.
Qed.

(** A value of none of the four accepted shapes. *)
Lemma call_layer_unexpected (module : pymodule S) name rest fn payload s s' out :
  getattr module name = Some (Callable fn) ->
  fn payload s = (s', Ret out) ->
  is_pair out = false -> is_list out = false -> is_dict out = false ->
  is_none out = false ->
  _call_layer module (name :: rest) payload s
  = (s', Ret (VNone, [unexpected_return (mod_name module) name out],
              VDict [("called", VStr name)])).
Proof.
  intros G E P L D N. rewrite call_layer_invoked with (fn := fn) (s' := s') (out := out)
    by assumption.
  destruct out as [| | | |xs|xs| |]; try discriminate; try reflexivity.
  destruct xs as [|a [|b [|c xs]]]; try discriminate; reflexivity.
Qed.

(** C4.  The value [out] returned by the resolved function is read under
    five shapes, in this order: a tuple of two items gives the new payload
    and the raw errors; a list is the raw errors, with no new payload; a
    dictionary is the new payload, with no errors; [None] gives neither;
    anything else gives no payload and one synthetic error naming the
    module, the function and the type of the value. *)
Theorem call_layer_shapes (module : pymodule S) name rest fn payload s s' out :
  getattr module name = Some (Callable fn) ->
  fn payload s = (s', Ret out) ->
  let meta := VDict [("called", VStr name)] in
  let invoked := _call_layer module (name :: rest) payload s in
  (forall a b, out = VTuple [a; b] ->
     invoked = match _normalize_errors b "layer_error" name with
               | Ret errs => (s', Ret (a, errs, meta))
               | Raise ex => (s', Raise ex)
               end)
  /\ (forall xs, out = VList xs ->
      invoked = (s', Ret (VNone, map (normalize_one "layer_error" name) xs, meta)))
  /\ (forall d, out = VDict d -> invoked = (s', Ret (VDict d, [], meta)))
  /\ (out = VNone -> invoked = (s', Ret (VNone, [], meta)))
  /\ (is_pair out = false -> is_list out = false -> is_dict out = false ->
      is_none out = false ->
      invoked
      = (s', Ret (VNone, [unexpected_return (mod_name module) name out], meta))).
Proof.
  intros G E meta invoked. subst meta invoked. repeat split.
  - intros a b ->.
    now rewrite call_layer_invoked with (fn := fn) (s' := s') (out := VTuple [a; b]).
  - intros xs ->.
    rewrite call_layer_invoked with (fn := fn) (s' := s') (out := VList xs)
      by assumption.
    cbn [interpret_out]. unfold _normalize_errors. cbn [is_none py_iter].
    now rewrite append_loop.
  - intros d ->.
    now rewrite call_layer_invoked with (fn := fn) (s' := s') (out := VDict d).
  - intros ->.
    now rewrite call_layer_invoked with (fn := fn) (s' := s') (out := VNone).
  - intros P L D N. now apply call_layer_unexpected with (fn := fn).
Qed.

(** X3.  A tuple that does not have exactly two items, or a string, is not
    walked as a list of errors: it is an unexpected return value. *)
Lemma call_layer_other_sequences (module : pymodule S) name rest fn payload s s' out :
  getattr module name = Some (Callable fn) ->
  fn payload s = (s', Ret out) ->
  (exists xs, out = VTuple xs /\ List.length xs <> 2) \/ (exists t, out = VStr t) ->
  _call_layer module (name :: rest) payload s
  = (s', Ret (VNone, [unexpected_return (mod_name module) name out],
              VDict [("called", VStr name)])).
Proof.
  intros G E H.
  eapply call_layer_unexpected; [exact G | exact E | ..];
    destruct H as [(xs & -> & L)|(t & ->)]; try reflexivity.
  destruct xs as [|a [|b [|c xs]]]; simpl in *; congruence.
Qed.

(** X2.  No candidate resolves: the stage passes without doing anything. *)
Lemma call_layer_no_match (module : pymodule S) names payload s :
  (forall n, In n names ->
     match getattr module n with Some (Callable _) => False | _ => True end) ->
  _call_layer module names payload s
  = (s, Ret (VNone, [],
             VDict [("called", VNone);
                    ("note", VStr "no matching function found")])).
Proof.
  induction names as [|n names IH]; intros H; simpl; [reflexivity|].
  pose proof (H n (or_introl eq_refl)) as Hn.
  destruct (getattr module n) as [[f|v]|]; try contradiction;
    apply IH; intros; apply H; now right.
Qed.

End CallLayer.

(** ** Determinism of the engine *)

Section Determinism.

Variable S : Type.

Lemma stateless_ret {A : Type} (a : A) : stateless (ret (S := S) a).
Proof. intros s1 s2. reflexivity. Qed.

Lemma stateless_raise {A : Type} (e : exn) : stateless (raise (S := S) (A := A) e).
Proof. intros s1 s2. reflexivity. Qed.

Lemma stateless_lift {A : Type} (o : outcome A) : stateless (lift (S := S) o).
Proof. intros s1 s2. reflexivity. Qed.

Lemma stateless_bind {A B : Type} (m : M S A) (k : A -> M S B) :
  stateless m -> (forall a, stateless (k a)) -> stateless (bind m k).
Proof.
  intros Hm Hk s1 s2. unfold bind.
  specialize (Hm s1 s2).
  destruct (m s1) as [s1' o1], (m s2) as [s2' o2]. simpl in Hm. subst o2.
  destruct o1; [apply Hk|reflexivity].
Qed.

Lemma stateless_try {A : Type} (m : M S A) (h : exn -> M S A) :
  stateless m -> (forall e, stateless (h e)) -> stateless (try_except m h).
Proof.
  intros Hm Hh s1 s2. unfold try_except.
  specialize (Hm s1 s2).
  destruct (m s1) as [s1' o1], (m s2) as [s2' o2]. simpl in Hm. subst o2.
  destruct o1 as [a|e]; [reflexivity|].
  destruct (exn_is_Exception e); [apply Hh|reflexivity].
Qed.

Lemma stateless_call_layer (module : pymodule S) names payload :
  module_functions deterministic module ->
  stateless (_call_layer module names payload).
Proof.
  intros Hm. induction names as [|n names IH]; simpl; [apply stateless_ret|].
  destruct (getattr module n) as [[f|v]|] eqn:G; try exact IH.
  apply stateless_bind; [exact (Hm _ _ G payload)|].
  intros out. destruct (interpret_out module n out) as [np raw].
  apply stateless_bind; [apply stateless_lift|]. intros errs. apply stateless_ret.
Qed.

Variables schemas rules guardrails : pymodule S.

Lemma stateless_run request ai_fn config :
  module_functions deterministic schemas ->
  module_functions deterministic rules ->
  module_functions deterministic guardrails ->
  transform_is deterministic ai_fn ->
  stateless (run schemas rules guardrails request ai_fn config).
Proof.
  intros H1 H2 H3 H4. unfold run.
  apply stateless_bind; [now apply stateless_call_layer|]. intros [[np1 e1] m1].
  destruct (nonempty e1); [apply stateless_ret|].
  apply stateless_bind; [now apply stateless_call_layer|]. intros [[np2 e2] m2].
  destruct (nonempty e2 && _); [apply stateless_ret|].
  apply stateless_bind; [now apply stateless_call_layer|]. intros [[np3 e3] m3].
  destruct (nonempty e3); [apply stateless_ret|].
  destruct (truthy _); [|apply stateless_ret].
  destruct ai_fn as [f|]; [|apply stateless_ret].
  apply stateless_try; [|intros; apply stateless_ret].
  apply stateless_bind; [apply H4|]. intros ai_out.
  destruct (negb (is_dict ai_out)); [apply stateless_raise|apply stateless_ret].
Qed.

Lemma preserving_ret {A : Type} (a : A) : preserving (ret (S := S) a).
Proof. intros s. reflexivity. Qed.

Lemma preserving_raise {A : Type} (e : exn) : preserving (raise (S := S) (A := A) e).
Proof. intros s. reflexivity. Qed.

Lemma preserving_lift {A : Type} (o : outcome A) : preserving (lift (S := S) o).
Proof. intros s. reflexivity. Qed.

Lemma preserving_bind {A B : Type} (m : M S A) (k : A -> M S B) :
  preserving m -> (forall a, preserving (k a)) -> preserving (bind m k).
Proof.
  intros Hm Hk s. unfold bind. specialize (Hm s).
  destruct (m s) as [s' o]. simpl in Hm. subst s'.
  destruct o; [apply Hk|reflexivity].
Qed.

Lemma preserving_try {A : Type} (m : M S A) (h : exn -> M S A) :
  preserving m -> (forall e, preserving (h e)) -> preserving (try_except m h).
Proof.
  intros Hm Hh s. unfold try_except. specialize (Hm s).
  destruct (m s) as [s' o]. simpl in Hm. subst s'.
  destruct o as [a|e]; [reflexivity|].
  destruct (exn_is_Exception e); [apply Hh|reflexivity].
Qed.

Lemma preserving_call_layer (module : pymodule S) names payload :
  module_functions effect_free module ->
  preserving (_call_layer module names payload).
Proof.
  intros Hm. induction names as [|n names IH]; simpl; [apply preserving_ret|].
  destruct (getattr module n) as [[f|v]|] eqn:G; try exact IH.
  apply preserving_bind; [exact (Hm _ _ G payload)|].
  intros out. destruct (interpret_out module n out) as [np raw].
  apply preserving_bind; [apply preserving_lift|]. intros errs. apply preserving_ret.
Qed.

Lemma preserving_run request ai_fn config :
  module_functions effect_free schemas ->
  module_functions effect_free rules ->
  module_functions effect_free guardrails ->
  transform_is effect_free ai_fn ->
  preserving (run schemas rules guardrails request ai_fn config).
Proof.
  intros H1 H2 H3 H4. unfold run.
  apply preserving_bind; [now apply preserving_call_layer|]. intros [[np1 e1] m1].
  destruct (nonempty e1); [apply preserving_ret|].
  apply preserving_bind; [now apply preserving_call_layer|]. intros [[np2 e2] m2].
  destruct (nonempty e2 && _); [apply preserving_ret|].
  apply preserving_bind; [now apply preserving_call_layer|]. intros [[np3 e3] m3].
  destruct (nonempty e3); [apply preserving_ret|].
  destruct (truthy _); [|apply preserving_ret].
  destruct ai_fn as [f|]; [|apply preserving_ret].
  apply preserving_try; [|intros; apply preserving_ret].
  apply preserving_bind; [apply H4|]. intros ai_out.
  destruct (negb (is_dict ai_out)); [apply preserving_raise|apply preserving_ret].
Qed.

(** C8.  With side-effect-free collaborator functions and transform, a
    second call of [run] with the same request, transform and
    configuration, made after the first, gives the same Result (or raises
    the same exception): the first call left nothing behind.  With
    deterministic ones, two calls give the same Result whatever the state
    each is made in. *)
Theorem run_twice_identical request ai_fn config :
  (module_functions effect_free schemas ->
   module_functions effect_free rules ->
   module_functions effect_free guardrails ->
   transform_is effect_free ai_fn ->
   forall s,
     let first := run schemas rules guardrails request ai_fn config s in
     let second := run schemas rules guardrails request ai_fn config (fst first) in
     second = first)
  /\ (module_functions deterministic schemas ->
      module_functions deterministic rules ->
      module_functions deterministic guardrails ->
      transform_is deterministic ai_fn ->
      forall s1 s2,
        snd (run schemas rules guardrails request ai_fn config s1)
        = snd (run schemas rules guardrails request ai_fn config s2)).
Proof.
  split.
  - intros H1 H2 H3 H4 s. cbv zeta.
    now rewrite (preserving_run request ai_fn config H1 H2 H3 H4 s).
  - intros H1 H2 H3 H4 s1 s2. now apply stateless_run.
Qed.

End Determinism.

Section PathProofs.

Variable S : Type.
Variables schemas rules guardrails : pymodule S.

Lemma passed1_intro request s s1 np1 m1 :
  _call_layer schemas SCHEMA_NAMES (VDict request) s = (s1, Ret (np1, [], m1)) ->
  passed1 schemas request s s1 (adopt (VDict request) np1) [entry "schema" [] m1].
Proof.
  intros E. exists m1. split; [|reflexivity]. exists np1. split; [exact E|reflexivity].
Qed.

Lemma run_complete request ai_fn config s s' o :
  run schemas rules guardrails request ai_fn config s = (s', o) ->
  run_path schemas rules guardrails request ai_fn config s s' o.
Proof.
  unfold run, bind.
  destruct (_call_layer schemas _ (VDict request) s) as [s1 [[[np1 e1] m1]|ex1]] eqn:E1.
  2:{ intros [= <- <-]. eapply SchemaRaised. exact E1. }
  destruct (nonempty e1) eqn:N1.
  { unfold ret. intros [= <- <-]. rewrite block_with_eq. simpl.
    eapply SchemaBlocked with (m1 := m1).
    - exists np1. split; [exact E1|reflexivity].
    - now apply nonempty_true. }
  apply nonempty_false in N1. subst e1.
  pose proof (passed1_intro _ _ E1) as P1.
  fold (adopt (VDict request) np1) in *. set (p1 := adopt (VDict request) np1) in *.
  destruct (_call_layer rules _ p1 s1) as [s2 [[[np2 e2] m2]|ex2]] eqn:E2.
  2:{ intros [= <- <-]. eapply RulesRaised; eauto. }
  fold (adopt p1 np2) in *. set (p2 := adopt p1 np2) in *.
  change (truthy (dict_get "strict" _ _)) with (strict config).
  destruct (nonempty e2 && strict config) eqn:N2.
  { apply andb_prop in N2. destruct N2 as [N2 St].
    unfold ret. intros [= <- <-]. rewrite block_with_eq. simpl.
    eapply RulesBlocked with (m2 := m2) (tr1 := [entry "schema" [] m1]); eauto.
    - exists np2. split; [exact E2|reflexivity].
    - now apply nonempty_true. }
  assert (P2 : passed2 schemas rules request config s s2 p2
                 ([entry "schema" [] m1] ++ [entry "rules" e2 m2])).
  { exists s1, p1, [entry "schema" [] m1], e2, m2. repeat split; auto.
    - exists np2. split; [exact E2|reflexivity].
    - apply andb_false_iff in N2. destruct N2 as [N2|N2]; [left|right; exact N2].
      now apply nonempty_false. }
  clear N2.
  destruct (_call_layer guardrails _ p2 s2) as [s3 [[[np3 e3] m3]|ex3]] eqn:E3.
  2:{ intros [= <- <-]. eapply GuardrailsRaised; eauto. }
  fold (adopt p2 np3) in *. set (p3 := adopt p2 np3) in *.
  destruct (nonempty e3) eqn:N3.
  { unfold ret. intros [= <- <-]. rewrite block_with_eq. simpl.
    eapply GuardrailsBlocked
      with (m3 := m3) (tr2 := ([entry "schema" [] m1] ++ [entry "rules" e2 m2])%list);
      eauto.
    - exists np3. split; [exact E3|reflexivity].
    - now apply nonempty_true. }
  apply nonempty_false in N3. subst e3.
  assert (P3 : passed3 schemas rules guardrails request config s s3 p3
                 (([entry "schema" [] m1] ++ [entry "rules" e2 m2])
                    ++ [entry "guardrails" [] m3])).
  { exists s2, p2, ([entry "schema" [] m1] ++ [entry "rules" e2 m2])%list, m3.
    repeat split; auto. exists np3. split; [exact E3|reflexivity]. }
  change (truthy (dict_get "enable_ai" _ _)) with (enable_ai config).
  destruct (enable_ai config) eqn:En.
  2:{ unfold ret. intros [= <- <-].
      eapply AiSkipped; [exact P3 | now left]. }
  destruct ai_fn as [f|].
  2:{ unfold ret. intros [= <- <-].
      eapply AiSkipped; [exact P3 | now right]. }
  unfold try_except, bind.
  destruct (f p3 s3) as [s4 [ai_out|ex]] eqn:E4.
  - destruct (is_dict ai_out) eqn:D; simpl.
    + unfold ret. intros [= <- <-].
      eapply AiSucceeded; [exact P3 | eauto ..].
    + unfold ret. intros [= <- <-].
      eapply AiWrongType; [exact P3 | eauto ..].
  - destruct (exn_is_Exception ex) eqn:Ex.
    + unfold ret. intros [= <- <-].
      eapply AiRaised; [exact P3 | eauto ..].
    + intros [= <- <-].
      eapply AiUncaught; [exact P3 | eauto ..].
Qed.

Ltac open_stage H :=
  let np := fresh "np" in
  let E := fresh "E" in
  let A := fresh "A" in
  destruct H as (np & E & A); subst.

Ltac open_passed :=
  repeat match goal with
  | H : passed3 _ _ _ _ _ _ _ _ _ |- _ =>
      let s2 := fresh "s2" in let p2 := fresh "p2" in
      let tr2 := fresh "tr2" in let m3 := fresh "m3" in
      let G := fresh "G" in
      destruct H as (s2 & p2 & tr2 & m3 & H & G & ->); open_stage G
  | H : passed2 _ _ _ _ _ _ _ _ |- _ =>
      let s1 := fresh "s1" in let p1 := fresh "p1" in
      let tr1 := fresh "tr1" in let e2 := fresh "e2" in
      let m2 := fresh "m2" in let G := fresh "G" in
      let St := fresh "St" in
      destruct H as (s1 & p1 & tr1 & e2 & m2 & H & G & St & ->); open_stage G
  | H : passed1 _ _ _ _ _ _ |- _ =>
      let m1 := fresh "m1" in let G := fresh "G" in
      destruct H as (m1 & G & ->); open_stage G
  end.

Lemma lax_rules (e2 : list ErrorRecord) (config : option dict) :
  e2 = [] \/ strict config = false -> nonempty e2 && strict config = false.
Proof.
  intros [->| ->]; [reflexivity|]. apply andb_false_r.
Qed.

Lemma nonempty_of {A : Type} (l : list A) : l <> [] -> nonempty l = true.
Proof. destruct l; simpl; congruence. Qed.

Lemma run_sound request ai_fn config s s' o :
  run_path schemas rules guardrails request ai_fn config s s' o ->
  run schemas rules guardrails request ai_fn config s = (s', o).
Proof.
  intros P. unfold run, bind, try_except, ret, raise.
  change (truthy (dict_get "strict" _ _)) with (strict config).
  change (truthy (dict_get "enable_ai" _ _)) with (enable_ai config).
  destruct P; open_passed;
    repeat match goal with
    | H : stage_returns _ _ _ _ _ _ _ _ |- _ => open_stage H
    | H : stage_raises _ _ _ _ _ _ |- _ => unfold stage_raises in H
    end;
    unfold SCHEMA_NAMES, RULES_NAMES, GUARDRAILS_NAMES, adopt in *;
    repeat match goal with
    | E : _call_layer _ _ _ _ = _ |- _ =>
        rewrite E; clear E; cbv beta match;
        try change (@nonempty ErrorRecord []) with false; cbv beta match
    | H : _ \/ strict _ = false |- _ => apply lax_rules in H; rewrite H
    | H : ?e <> [] |- _ => rewrite (nonempty_of H); clear H
    | H : strict _ = true |- _ => rewrite H; clear H
    | H : enable_ai _ = true |- _ => rewrite H; clear H
    | H : ?f _ _ = (_, _) |- _ => rewrite H; clear H
    | H : is_dict _ = _ |- _ => rewrite H; clear H
    | H : exn_is_Exception _ = _ |- _ => rewrite H; clear H
    | H : ?a = Some _ |- _ => subst a
    | |- context [block_with _ _ _] => rewrite block_with_eq
    end;
    simpl; try reflexivity.
  destruct H0 as [-> | ->]; [reflexivity|]. destruct (enable_ai config); reflexivity.
Qed.

Lemma run_path_iff request ai_fn config s s' o :
  run schemas rules guardrails request ai_fn config s = (s', o) <->
  run_path schemas rules guardrails request ai_fn config s s' o.
Proof. split; [apply run_complete | apply run_sound]. Qed.

Lemma passed1_steps request s s1 p1 tr :
  passed1 schemas request s s1 p1 tr -> map step tr = ["schema"].
Proof. intros (m1 & _ & ->). reflexivity. Qed.

Lemma passed2_steps request config s s2 p2 tr :
  passed2 schemas rules request config s s2 p2 tr ->
  map step tr = ["schema"; "rules"].
Proof.
  intros (s1 & p1 & tr1 & e2 & m2 & P1 & _ & _ & ->).
  rewrite map_app, (passed1_steps P1). reflexivity.
Qed.

Lemma passed3_steps request config s s3 p3 tr :
  passed3 schemas rules guardrails request config s s3 p3 tr ->
  map step tr = ["schema"; "rules"; "guardrails"].
Proof.
  intros (s2 & p2 & tr2 & m3 & P2 & _ & ->).
  rewrite map_app, (passed2_steps P2). reflexivity.
Qed.

Lemma last_entry_app (r : Result) tr t :
  trace r = (tr ++ [t])%list -> last_entry r = Some t.
Proof.
  intros E. unfold last_entry. rewrite E, map_app. simpl. apply last_last.
Qed.


Lemma recode_code_nth c errs k :
  nth_error STAGE_CODES k = Some c ->
  Forall (fun e => Some (code e) = nth_error STAGE_CODES k) (map (recode c) errs).
Proof. intros ->. induction errs; simpl; constructor; auto. Qed.

Lemma recode_nonempty c (errs : list ErrorRecord) :
  errs <> [] -> map (recode c) errs <> [].
Proof. destruct errs; simpl; congruence. Qed.

Ltac path_cases H :=
  apply run_complete in H; inversion H; subst; clear H.

Ltac steps_of_passed :=
  repeat match goal with
  | P : passed1 _ _ _ _ _ _ |- _ =>
      let E := fresh "Tr" in pose proof (passed1_steps P) as E; revert P
  | P : passed2 _ _ _ _ _ _ _ _ |- _ =>
      let E := fresh "Tr" in pose proof (passed2_steps P) as E; revert P
  | P : passed3 _ _ _ _ _ _ _ _ _ |- _ =>
      let E := fresh "Tr" in pose proof (passed3_steps P) as E; revert P
  end; intros.

(** C1.  Whatever the request, the transform and the configuration, a
    Result returned by [run] has [ok] true exactly when its error list is
    empty and all four stages were attempted with none blocking; and its
    [data] is the payload the engine held when it stopped. *)
Theorem run_result_invariant request ai_fn config s s' r :
  run schemas rules guardrails request ai_fn config s = (s', Ret r) ->
  (ok r = true <-> errors r = [] /\ ran_to_completion r)
  /\ exit_payload schemas rules guardrails request ai_fn config s (data r).
Proof.
  intros H. path_cases H; steps_of_passed; unfold blocked, ai_failed, succeeded;
    cbn [ok data errors trace].
  - split.
    + split; [discriminate|]. intros [E _]. apply map_eq_nil in E. congruence.
    + eapply ExitSchema; eauto.
  - split.
    + split; [discriminate|]. intros [E _]. apply map_eq_nil in E. congruence.
    + eapply ExitRules; eauto.
  - split.
    + split; [discriminate|]. intros [E _]. apply map_eq_nil in E. congruence.
    + eapply ExitGuardrails; eauto.
  - split.
    + split; [|reflexivity]. intros _. split; [reflexivity|]. split.
      * unfold steps. cbn [trace]. rewrite map_app, Tr. reflexivity.
      * exists (ai_entry true false). split; [|split; reflexivity].
        eapply last_entry_app. reflexivity.
    + eapply ExitAiSkipped; eauto.
  - split.
    + split; [|reflexivity]. intros _. split; [reflexivity|]. split.
      * unfold steps. cbn [trace]. rewrite map_app, Tr. reflexivity.
      * exists (ai_entry true true). split; [|split; reflexivity].
        eapply last_entry_app. reflexivity.
    + eapply ExitAiDone; eauto.
  - split.
    + split; [discriminate|]. intros [E _]. discriminate.
    + eapply ExitAiFailed; eauto; simpl; auto.
  - split.
    + split; [discriminate|]. intros [E _]. discriminate.
    + eapply ExitAiFailed; eauto; simpl; auto.
Qed.

(** X9.  A Result is a success exactly when it carries no error. *)
Lemma ok_iff_no_errors request ai_fn config s s' r :
  run schemas rules guardrails request ai_fn config s = (s', Ret r) ->
  ok r = true <-> errors r = [].
Proof.
  intros H. path_cases H; unfold blocked, ai_failed, succeeded;
    cbn [ok errors]; split; try discriminate; try reflexivity;
    intros E; apply map_eq_nil in E; congruence.
Qed.

(** C2.  The step names of the trace are a prefix of the four stages, one
    entry per stage attempted; a successful run has all four, and a
    blocked run stops at the stage that blocked: its last entry reports
    the failure and the errors carry that stage's code. *)
Theorem trace_is_stage_prefix request ai_fn config s s' r :
  run schemas rules guardrails request ai_fn config s = (s', Ret r) ->
  exists n,
    1 <= n <= 4
    /\ List.length (trace r) = n
    /\ steps r = firstn n STAGES
    /\ (ok r = true -> n = 4)
    /\ (ok r = false ->
        ends_in_failure r
        /\ errors r <> []
        /\ Forall (fun e => Some (code e) = nth_error STAGE_CODES (n - 1)) (errors r)).
Proof.
  intros H. path_cases H; steps_of_passed; unfold blocked, ai_failed, succeeded, steps;
    cbn [ok data errors trace].
  - exists 1. repeat split; try lia; try discriminate.
    + eexists. split; [reflexivity|]. simpl. destruct e1; [congruence|reflexivity].
    + now apply recode_nonempty.
    + apply recode_code_nth. reflexivity.
  - exists 2. rewrite length_app, map_app, Tr, <- (length_map step tr1), Tr.
    repeat split; try lia; try discriminate.
    + eexists. split; [eapply last_entry_app; reflexivity|].
      simpl. destruct e2; [congruence|reflexivity].
    + now apply recode_nonempty.
    + apply recode_code_nth. reflexivity.
  - exists 3. rewrite length_app, map_app, Tr, <- (length_map step tr2), Tr.
    repeat split; try lia; try discriminate.
    + eexists. split; [eapply last_entry_app; reflexivity|].
      simpl. destruct e3; [congruence|reflexivity].
    + now apply recode_nonempty.
    + apply recode_code_nth. reflexivity.
  - exists 4. rewrite length_app, map_app, Tr, <- (length_map step tr3), Tr.
    repeat split; try lia; try discriminate.
  - exists 4. rewrite length_app, map_app, Tr, <- (length_map step tr3), Tr.
    repeat split; try lia; try discriminate.
  - exists 4. rewrite length_app, map_app, Tr, <- (length_map step tr3), Tr.
    repeat split; try lia; try discriminate.
    + eexists. split; [eapply last_entry_app; reflexivity|reflexivity].
    + repeat constructor.
  - exists 4. rewrite length_app, map_app, Tr, <- (length_map step tr3), Tr.
    repeat split; try lia; try discriminate.
    + eexists. split; [eapply last_entry_app; reflexivity|reflexivity].
    + repeat constructor.
Qed.


(** X10.  An object raised by the transform that is not an [Exception] is not
    caught by the engine's [except Exception]. *)
Lemma ai_uncaught_propagates request f config s s3 p3 tr3 s4 ex :
  enable_ai config = true ->
  passed3 schemas rules guardrails request config s s3 p3 tr3 ->
  f p3 s3 = (s4, Raise ex) ->
  exn_is_Exception ex = false ->
  run schemas rules guardrails request (Some f) config s = (s4, Raise ex).
Proof. intros. apply run_sound. eapply AiUncaught; eauto. Qed.


(** ** The payload is never [None] *)

Lemma adopt_not_none payload new_payload :
  payload <> VNone -> adopt payload new_payload <> VNone.
Proof. unfold adopt. destruct new_payload; simpl; congruence. Qed.

Lemma stage_returns_not_none (module : pymodule S) names payload s s' p e m :
  stage_returns module names payload s s' p e m -> payload <> VNone -> p <> VNone.
Proof. intros (np & _ & ->). apply adopt_not_none. Qed.

Lemma passed1_not_none request s s1 p1 tr :
  passed1 schemas request s s1 p1 tr -> p1 <> VNone.
Proof.
  intros (m1 & R & _). apply (stage_returns_not_none R). discriminate.
Qed.

Lemma passed2_not_none request config s s2 p2 tr :
  passed2 schemas rules request config s s2 p2 tr -> p2 <> VNone.
Proof.
  intros (s1 & p1 & tr1 & e2 & m2 & P1 & R & _).
  apply (stage_returns_not_none R). exact (passed1_not_none P1).
Qed.

Lemma passed3_not_none request config s s3 p3 tr :
  passed3 schemas rules guardrails request config s s3 p3 tr -> p3 <> VNone.
Proof.
  intros (s2 & p2 & tr2 & m3 & P2 & R & _).
  apply (stage_returns_not_none R). exact (passed2_not_none P2).
Qed.

(** Whatever the collaborators return, the [data] of a Result is not
    [None]: the payload starts as the copy of the request and only a value
    other than [None] replaces it. *)
Lemma data_is_never_none request ai_fn config s s' r :
  run schemas rules guardrails request ai_fn config s = (s', Ret r) ->
  data r <> VNone.
Proof.
  intros H. path_cases H; unfold blocked, ai_failed, succeeded; cbn [data];
    try (eapply passed3_not_none; eassumption).
  - eapply stage_returns_not_none; [eassumption|discriminate].
  - eapply stage_returns_not_none; [eassumption|].
    eapply passed1_not_none; eassumption.
  - eapply stage_returns_not_none; [eassumption|].
    eapply passed2_not_none; eassumption.
  - destruct ai_out; discriminate.
Qed.

End PathProofs.

(** ** The shipped pipeline *)

Section Shipped.

Variable S : Type.

Lemma normalize_list (errs : list value) name :
  _normalize_errors (VList errs) "layer_error" name
  = Ret (map (normalize_one "layer_error" name) errs).
Proof. unfold _normalize_errors. simpl. now rewrite append_loop. Qed.

Lemma schema_stage (request : dict) (s : S) :
  _call_layer (Schemas.module S) SCHEMA_NAMES (VDict request) s
  = (s, Ret (VDict (fst (Schemas.validate_dict request)),
             map (normalize_one "layer_error" "validate_request")
               (snd (Schemas.validate_dict request)),
             VDict [("called", VStr "validate_request")])).
Proof.
  cbn [_call_layer SCHEMA_NAMES getattr getattr_in Schemas.module mod_attrs
         String.eqb Ascii.eqb Bool.eqb].
  unfold bind, pure_fn. cbn [Schemas.validate_request].
  destruct (Schemas.validate_dict request) as [n errs].
  cbn [interpret_out fst snd]. unfold lift. now rewrite normalize_list.
Qed.

Lemma rules_stage (payload : dict) (s : S) :
  _call_layer (Rules.module S) RULES_NAMES (VDict payload) s
  = (s, Ret (VDict (fst (Rules.check_rules_dict payload)),
             map (normalize_one "layer_error" "check_rules")
               (snd (Rules.check_rules_dict payload)),
             VDict [("called", VStr "check_rules")])).
Proof.
  cbn [_call_layer RULES_NAMES getattr getattr_in Rules.module mod_attrs
         String.eqb Ascii.eqb Bool.eqb].
  unfold bind, pure_fn. cbn [Rules.check_rules].
  destruct (Rules.check_rules_dict payload) as [n errs].
  cbn [interpret_out fst snd]. unfold lift. now rewrite normalize_list.
Qed.

Lemma guardrails_stage (payload : dict) (s : S) :
  _call_layer (Guardrails.module S) GUARDRAILS_NAMES (VDict payload) s
  = (s, Ret (VDict (fst (Guardrails.check_guardrails_dict payload)),
             map (normalize_one "layer_error" "check_guardrails")
               (snd (Guardrails.check_guardrails_dict payload)),
             VDict [("called", VStr "check_guardrails")])).
Proof.
  cbn [_call_layer GUARDRAILS_NAMES getattr getattr_in Guardrails.module mod_attrs
         String.eqb Ascii.eqb Bool.eqb].
  unfold bind, pure_fn. cbn [Guardrails.check_guardrails].
  destruct (Guardrails.check_guardrails_dict payload) as [n errs].
  cbn [interpret_out fst snd]. unfold lift. now rewrite normalize_list.
Qed.

Lemma stage_returns_of_eq (module : pymodule S) names payload (s s0 : S) d errs meta
  s' p e m :
  _call_layer module names payload s = (s0, Ret (VDict d, errs, meta)) ->
  stage_returns module names payload s s' p e m ->
  s' = s0 /\ p = VDict d /\ e = errs /\ m = meta.
Proof.
  intros E (np & E' & ->). rewrite E in E'. injection E' as <- <- <- <-.
  repeat split; reflexivity.
Qed.

Lemma schema_returns_dict request (s s' : S) p e m :
  stage_returns (Schemas.module S) SCHEMA_NAMES (VDict request) s s' p e m ->
  s' = s /\ exists d, p = VDict d.
Proof.
  intros R. destruct (stage_returns_of_eq (schema_stage request s) R) as (-> & -> & _).
  split; [reflexivity|]. eexists. reflexivity.
Qed.

Lemma rules_returns_dict payload (s s' : S) p e m :
  stage_returns (Rules.module S) RULES_NAMES (VDict payload) s s' p e m ->
  s' = s /\ exists d, p = VDict d.
Proof.
  intros R. destruct (stage_returns_of_eq (rules_stage payload s) R) as (-> & -> & _).
  split; [reflexivity|]. eexists. reflexivity.
Qed.

Lemma guardrails_returns_dict payload (s s' : S) p e m :
  stage_returns (Guardrails.module S) GUARDRAILS_NAMES (VDict payload) s s' p e m ->
  s' = s /\ exists d, p = VDict d.
Proof.
  intros R.
  destruct (stage_returns_of_eq (guardrails_stage payload s) R) as (-> & -> & _).
  split; [reflexivity|]. eexists. reflexivity.
Qed.

Lemma passed1_dict request (s s1 : S) p1 tr :
  passed1 (Schemas.module S) request s s1 p1 tr -> s1 = s /\ exists d, p1 = VDict d.
Proof. intros (m1 & R & _). exact (schema_returns_dict R). Qed.

Lemma passed2_dict request config (s s2 : S) p2 tr :
  passed2 (Schemas.module S) (Rules.module S) request config s s2 p2 tr ->
  s2 = s /\ exists d, p2 = VDict d.
Proof.
  intros (s1 & p1 & tr1 & e2 & m2 & P1 & R & _).
  destruct (passed1_dict P1) as (-> & d1 & ->).
  exact (rules_returns_dict R).
Qed.

Lemma passed3_dict request config (s s3 : S) p3 tr :
  passed3 (Schemas.module S) (Rules.module S) (Guardrails.module S) request config s s3 p3 tr ->
  s3 = s /\ exists d, p3 = VDict d.
Proof.
  intros (s2 & p2 & tr2 & m3 & P2 & R & _).
  destruct (passed2_dict P2) as (-> & d2 & ->).
  exact (guardrails_returns_dict R).
Qed.

(** The stages of the shipped pipeline, read off the three policy
    functions. *)
Lemma shipped_schema_returns request (s : S) d1 v1 :
  Schemas.validate_dict request = (d1, v1) ->
  stage_returns (Schemas.module S) SCHEMA_NAMES (VDict request) s s (VDict d1)
    (map (normalize_one "layer_error" "validate_request") v1)
    (VDict [("called", VStr "validate_request")]).
Proof.
  intros V. pose proof (schema_stage request s) as E. rewrite V in E.
  eexists. split; [exact E|reflexivity].
Qed.

Lemma shipped_rules_returns payload (s : S) d2 v2 :
  Rules.check_rules_dict payload = (d2, v2) ->
  stage_returns (Rules.module S) RULES_NAMES (VDict payload) s s (VDict d2)
    (map (normalize_one "layer_error" "check_rules") v2)
    (VDict [("called", VStr "check_rules")]).
Proof.
  intros V. pose proof (rules_stage payload s) as E. rewrite V in E.
  eexists. split; [exact E|reflexivity].
Qed.

Lemma shipped_guardrails_returns payload (s : S) d3 v3 :
  Guardrails.check_guardrails_dict payload = (d3, v3) ->
  stage_returns (Guardrails.module S) GUARDRAILS_NAMES (VDict payload) s s (VDict d3)
    (map (normalize_one "layer_error" "check_guardrails") v3)
    (VDict [("called", VStr "check_guardrails")]).
Proof.
  intros V. pose proof (guardrails_stage payload s) as E. rewrite V in E.
  eexists. split; [exact E|reflexivity].
Qed.

Lemma shipped_passed1 request (s : S) d1 :
  Schemas.validate_dict request = (d1, []) ->
  passed1 (Schemas.module S) request s s (VDict d1) shipped_trace1.
Proof.
  intros V. eexists. split; [|reflexivity].
  apply shipped_schema_returns with (v1 := []). exact V.
Qed.

Lemma shipped_passed2 request config (s : S) d1 d2 v2 :
  Schemas.validate_dict request = (d1, []) ->
  Rules.check_rules_dict d1 = (d2, v2) ->
  v2 = [] \/ strict config = false ->
  passed2 (Schemas.module S) (Rules.module S) request config s s (VDict d2)
    (shipped_trace2 v2).
Proof.
  intros V1 V2 L. exists s, (VDict d1), shipped_trace1. do 2 eexists.
  split; [apply shipped_passed1; exact V1|].
  split; [apply shipped_rules_returns; exact V2|].
  split; [|reflexivity]. destruct L as [->|L]; [now left|now right].
Qed.

Lemma shipped_passed3 request config (s : S) d1 d2 v2 d3 :
  Schemas.validate_dict request = (d1, []) ->
  Rules.check_rules_dict d1 = (d2, v2) ->
  v2 = [] \/ strict config = false ->
  Guardrails.check_guardrails_dict d2 = (d3, []) ->
  passed3 (Schemas.module S) (Rules.module S) (Guardrails.module S) request config
    s s (VDict d3) (shipped_trace3 v2).
Proof.
  intros V1 V2 L V3. exists s, (VDict d2), (shipped_trace2 v2). eexists.
  split; [eapply shipped_passed2; eassumption|].
  split; [|reflexivity]. apply shipped_guardrails_returns with (v3 := []). exact V3.
Qed.

(** On every request the shipped pipeline returns a Result, provided the
    transform raises nothing that [except Exception] lets through. *)
Lemma pipeline_returns request (ai_fn : option (pyfun S)) config (s : S) :
  raises_only_Exception ai_fn ->
  exists s' r, pipeline request ai_fn config s = (s', Ret r).
Proof.
  intros Hex. unfold pipeline.
  pose proof (schema_stage request s) as E1.
  destruct (Schemas.validate_dict request) as [d1 v1] eqn:V1. cbn [fst snd] in E1.
  set (e1 := map (normalize_one "layer_error" "validate_request") v1) in *.
  assert (R1 : stage_returns (Schemas.module S) SCHEMA_NAMES (VDict request) s s
                 (VDict d1) e1 (VDict [("called", VStr "validate_request")])).
  { eexists. split; [exact E1|reflexivity]. }
  destruct e1 as [|x1 e1'] eqn:Ee1.
  2:{ do 2 eexists. apply run_sound. eapply SchemaBlocked; [exact R1|discriminate]. }
  assert (P1 : passed1 (Schemas.module S) request s s (VDict d1)
                 [entry "schema" [] (VDict [("called", VStr "validate_request")])]).
  { eexists. split; [exact R1|reflexivity]. }
  pose proof (rules_stage d1 s) as E2.
  destruct (Rules.check_rules_dict d1) as [d2 v2] eqn:V2. cbn [fst snd] in E2.
  set (e2 := map (normalize_one "layer_error" "check_rules") v2) in *.
  assert (R2 : stage_returns (Rules.module S) RULES_NAMES (VDict d1) s s
                 (VDict d2) e2 (VDict [("called", VStr "check_rules")])).
  { eexists. split; [exact E2|reflexivity]. }
  destruct (nonempty e2 && strict config) eqn:B2.
  { apply andb_prop in B2. destruct B2 as [N2 St].
    do 2 eexists. apply run_sound.
    eapply RulesBlocked; [exact P1|exact R2|now apply nonempty_true|exact St]. }
  assert (P2 : passed2 (Schemas.module S) (Rules.module S) request config s s (VDict d2)
                 ([entry "schema" [] (VDict [("called", VStr "validate_request")])]
                    ++ [entry "rules" e2 (VDict [("called", VStr "check_rules")])])).
  { do 5 eexists. split; [exact P1|]. split; [exact R2|]. split; [|reflexivity].
    apply andb_false_iff in B2. destruct B2 as [B2|B2]; [left|right; exact B2].
    now apply nonempty_false. }
  pose proof (guardrails_stage d2 s) as E3.
  destruct (Guardrails.check_guardrails_dict d2) as [d3 v3] eqn:V3. cbn [fst snd] in E3.
  set (e3 := map (normalize_one "layer_error" "check_guardrails") v3) in *.
  assert (R3 : stage_returns (Guardrails.module S) GUARDRAILS_NAMES (VDict d2) s s
                 (VDict d3) e3 (VDict [("called", VStr "check_guardrails")])).
  { eexists. split; [exact E3|reflexivity]. }
  destruct e3 as [|x3 e3'] eqn:Ee3.
  2:{ do 2 eexists. apply run_sound.
      eapply GuardrailsBlocked; [exact P2|exact R3|discriminate]. }
  assert (P3 : passed3 (Schemas.module S) (Rules.module S) (Guardrails.module S) request
                 config s s (VDict d3)
                 (([entry "schema" [] (VDict [("called", VStr "validate_request")])]
                     ++ [entry "rules" e2 (VDict [("called", VStr "check_rules")])])
                    ++ [entry "guardrails" []
                          (VDict [("called", VStr "check_guardrails")])])).
  { do 4 eexists. split; [exact P2|]. split; [exact R3|reflexivity]. }
  destruct (enable_ai config) eqn:En.
  2:{ do 2 eexists. apply run_sound. eapply AiSkipped; [exact P3|now left]. }
  destruct ai_fn as [f|].
  2:{ do 2 eexists. apply run_sound. eapply AiSkipped; [exact P3|now right]. }
  destruct (f (VDict d3) s) as [s4 [ai_out|ex]] eqn:E4.
  - destruct (is_dict ai_out) eqn:D; do 2 eexists; apply run_sound.
    + eapply AiSucceeded; eauto.
    + eapply AiWrongType; eauto.
  - do 2 eexists. apply run_sound. eapply AiRaised; eauto.
Qed.

(** C9.  The [data] of a Result returned by the shipped pipeline is a
    dictionary, never [None], on blocked runs too; and the pipeline does
    return a Result on every request. *)
Theorem data_is_a_mapping request (ai_fn : option (pyfun S)) config (s : S) :
  (forall s' r,
     pipeline request ai_fn config s = (s', Ret r) ->
     data r <> VNone /\ exists d, data r = VDict d)
  /\ (raises_only_Exception ai_fn ->
      exists s' r, pipeline request ai_fn config s = (s', Ret r)).
Proof.
  split; [|apply pipeline_returns].
  intros s' r H. split; [exact (data_is_never_none _ _ _ _ _ _ _ H)|]. revert s' r H.
  intros s' r H. unfold pipeline in H.
  apply run_complete in H. inversion H; subst; clear H;
    unfold blocked, ai_failed, succeeded; cbn [data];
    repeat match goal with
    | P : passed1 _ _ _ _ _ _ |- _ =>
        destruct (passed1_dict P) as (-> & ? & ->); clear P
    | P : passed2 _ _ _ _ _ _ _ _ |- _ =>
        destruct (passed2_dict P) as (-> & ? & ->); clear P
    | P : passed3 _ _ _ _ _ _ _ _ _ |- _ =>
        destruct (passed3_dict P) as (-> & ? & ->); clear P
    end.
  - now apply schema_returns_dict in H1.
  - now apply rules_returns_dict in H2.
  - now apply guardrails_returns_dict in H2.
  - eexists; reflexivity.
  - destruct ai_out; try discriminate. eexists; reflexivity.
  - eexists; reflexivity.
  - eexists; reflexivity.
Qed.

End Shipped.

(* ------------------------------------------------------------------ *)
(** * Concrete runs *)

Lemma run_result_invariant_witness :
  pipeline hello_request None None tt = (tt, Ret hello_result)
  /\ (ok hello_result = true <->
      errors hello_result = [] /\ ran_to_completion hello_result)
  /\ exit_payload (Schemas.module unit) (Rules.module unit) (Guardrails.module unit)
       hello_request None None tt (data hello_result).
Proof.
  assert (E : pipeline hello_request None None tt = (tt, Ret hello_result))
    by (vm_compute; reflexivity).
  split; [exact E|].
  exact (@run_result_invariant unit _ _ _ hello_request None None tt tt hello_result E).
Defined.

Lemma trace_is_stage_prefix_witness :
  pipeline no_action_request None None tt = (tt, Ret no_action_result)
  /\ exists n,
       1 <= n <= 4
       /\ List.length (trace no_action_result) = n
       /\ steps no_action_result = firstn n STAGES
       /\ (ok no_action_result = true -> n = 4)
       /\ (ok no_action_result = false ->
           ends_in_failure no_action_result
           /\ errors no_action_result <> []
           /\ Forall (fun e => Some (code e) = nth_error STAGE_CODES (n - 1))
                (errors no_action_result)).
Proof.
  assert (E : pipeline no_action_request None None tt = (tt, Ret no_action_result))
    by (vm_compute; reflexivity).
  split; [exact E|].
  exact (@trace_is_stage_prefix unit _ _ _ no_action_request None None tt tt
           no_action_result E).
Defined.


Lemma hello_passed3 (config : option dict) :
  passed3 (Schemas.module unit) (Rules.module unit) (Guardrails.module unit)
    hello_request config tt tt (VDict hello_d3) (shipped_trace3 []).
Proof.
  apply (@shipped_passed3 unit hello_request config tt hello_d1 hello_d2 [] hello_d3).
  - vm_compute; reflexivity.
  - vm_compute; reflexivity.
  - now left.
  - vm_compute; reflexivity.
Qed.

Lemma call_layer_shapes_witness :
  _call_layer odd_module ["validate"] (VDict []) tt
  = (tt, Ret (VNone,
              [{| code := "layer_error";
                  message := "Unexpected return type from odd.validate: <class 'int'>";
                  details := VDict [("step", VStr "validate")] |}],
              VDict [("called", VStr "validate")])).
Proof.
  exact (proj2 (proj2 (proj2 (proj2
           (@call_layer_shapes unit odd_module "validate" [] _ (VDict []) tt tt
              (VInt 5) eq_refl eq_refl))))
           eq_refl eq_refl eq_refl eq_refl).
Defined.

(** C4, as the claim words it, fails: a tuple of three items is a sequence
    that is not a two-element pair, yet it is not walked as raw errors,
    which would give the three records of the first line; the invoker
    reports the one error about the type of the return value. *)
Lemma tuple_of_three_is_not_raw_errors :
  _normalize_errors (VTuple [VStr "a"; VStr "b"; VStr "c"]) "layer_error" "validate"
  = Ret (map (fun t => {| code := "layer_error"; message := t;
                          details := VDict [("step", VStr "validate")] |})
           ["a"; "b"; "c"])
  /\ _call_layer tuple_errors_module ["validate"] (VDict []) tt
     = (tt, Ret (VNone,
                 [{| code := "layer_error";
                     message := "Unexpected return type from odd.validate: <class 'tuple'>";
                     details := VDict [("step", VStr "validate")] |}],
                 VDict [("called", VStr "validate")]))
  /\ _call_layer tuple_errors_module ["validate"] (VDict []) tt
     <> (tt, Ret (VNone,
                  map (fun t => {| code := "layer_error"; message := t;
                                   details := VDict [("step", VStr "validate")] |})
                    ["a"; "b"; "c"],
                  VDict [("called", VStr "validate")])).
Proof.
  split; [vm_compute; reflexivity|]. split; [vm_compute; reflexivity|].
  vm_compute. discriminate.
Qed.

Lemma sample_raw_errors_ok : Forall raw_entry sample_raw_errors.
Proof.
  repeat constructor; simpl; intuition discriminate.
Qed.

Lemma normalize_errors_spec_witness :
  exists rs,
    _normalize_errors (VList sample_raw_errors) "layer_error" "check" = Ret rs
    /\ List.length rs = List.length sample_raw_errors
    /\ Forall2 (fun e r => spec_record "layer_error" "check" e = Some r)
         sample_raw_errors rs.
Proof.
  exact (@normalize_errors_spec sample_raw_errors "layer_error" "check"
           sample_raw_errors_ok).
Defined.


Lemma data_is_a_mapping_witness :
  pipeline no_action_request None None tt = (tt, Ret no_action_result)
  /\ data no_action_result <> VNone
  /\ exists d, data no_action_result = VDict d.
Proof.
  assert (E : pipeline no_action_request None None tt = (tt, Ret no_action_result))
    by (vm_compute; reflexivity).
  split; [exact E|].
  exact (proj1 (@data_is_a_mapping unit no_action_request None None tt)
           tt no_action_result E).
Defined.

(** ** The shipped functions are deterministic and side-effect-free *)

Lemma pure_fn_deterministic (S : Type) (f : value -> outcome value) :
  deterministic (pure_fn (S := S) f).
Proof. intros payload s1 s2. reflexivity. Qed.

Lemma pure_fn_effect_free (S : Type) (f : value -> outcome value) :
  effect_free (pure_fn (S := S) f).
Proof. intros payload s. reflexivity. Qed.

Lemma module_functions_all (S : Type) (P : pyfun S -> Prop) (m : pymodule S) :
  Forall (fun na => match snd na with Callable f => P f | Plain _ => True end)
    (mod_attrs m) ->
  module_functions P m.
Proof.
  unfold module_functions, getattr. induction 1 as [|[n a] attrs Ha _ IH];
    intros name f G; simpl in G; [discriminate|].
  destruct (String.eqb name n).
  - injection G as ->. exact Ha.
  - exact (IH name f G).
Qed.

Lemma shipped_modules_pure (S : Type) :
  (module_functions effect_free (Schemas.module S)
   /\ module_functions effect_free (Rules.module S)
   /\ module_functions effect_free (Guardrails.module S))
  /\ (module_functions deterministic (Schemas.module S)
      /\ module_functions deterministic (Rules.module S)
      /\ module_functions deterministic (Guardrails.module S)).
Proof.
  repeat split; apply module_functions_all; simpl;
    repeat constructor; try apply pure_fn_effect_free; apply pure_fn_deterministic.
Qed.

Lemma run_twice_identical_witness :
  let first := pipeline hello_request (Some simple_ai) ai_config tt in
  pipeline hello_request (Some simple_ai) ai_config (fst first) = first.
Proof.
  exact (proj1 (@run_twice_identical unit _ _ _ hello_request (Some simple_ai)
                  ai_config)
           (proj1 (proj1 (shipped_modules_pure unit)))
           (proj1 (proj2 (proj1 (shipped_modules_pure unit))))
           (proj2 (proj2 (proj1 (shipped_modules_pure unit))))
           (@pure_fn_effect_free unit _) tt).
Defined.

(** With it, two calls of [run] in a row give different Results. *)
Lemma stateful_transform_differs :
  let first := pipeline hello_request (Some counting_ai) ai_config 0 in
  let second := pipeline hello_request (Some counting_ai) ai_config (fst first) in
  snd second <> snd first.
Proof. vm_compute. discriminate. Qed.

(* ------------------------------------------------------------------ *)
(** * The caller's objects *)

Module StoreProofs.
Import Store.

Lemma agree_refl n h : agree n h h.
Proof. reflexivity. Qed.

Lemma agree_trans n h1 h2 h3 : agree n h1 h2 -> agree n h2 h3 -> agree n h1 h3.
Proof. unfold agree. congruence. Qed.

Lemma agree_length n h h' : n <= List.length h -> agree n h h' -> n <= List.length h'.
Proof.
  unfold agree. intros L E.
  assert (E' : List.length (firstn n h') = List.length (firstn n h)) by now rewrite E.
  rewrite !length_firstn in E'. lia.
Qed.

Lemma agree_alloc n h (o : object) : n <= List.length h -> agree n h (h ++ [o])%list.
Proof.
  intros L. unfold agree. rewrite firstn_app.
  replace (n - List.length h) with 0 by lia. simpl. apply app_nil_r.
Qed.

Lemma keeps_ret {A : Type} n (P : heap -> Prop) (a : A) (Q : heap -> A -> Prop) :
  (forall h, P h -> Q h a) -> keeps n P (ret a) Q.
Proof.
  intros HQ h h' o L HP [= <- <-]. split; [apply agree_refl|auto].
Qed.

Lemma keeps_raise {A : Type} n P (e : exn) (Q : heap -> A -> Prop) :
  keeps n P (raise e) Q.
Proof. intros h h' o L HP [= <- <-]. split; [apply agree_refl|exact I]. Qed.

Lemma keeps_read {A : Type} n (P : heap -> Prop) (f : heap -> A)
  (Q : heap -> A -> Prop) :
  (forall h, P h -> Q h (f h)) -> keeps n P (read f) Q.
Proof.
  intros HQ h h' o L HP [= <- <-]. split; [apply agree_refl|auto].
Qed.

Lemma keeps_alloc n (P : heap -> Prop) (ob : object) (Q : heap -> ref_value -> Prop) :
  (forall h, n <= List.length h -> P h -> Q (h ++ [ob])%list (RRef (List.length h))) ->
  keeps n P (alloc ob) Q.
Proof.
  intros HQ h h' o L HP [= <- <-]. split; [now apply agree_alloc|auto].
Qed.

Lemma keeps_bind {A B : Type} n P (m : M heap A) (k : A -> M heap B) Q R :
  keeps n P m Q ->
  (forall a, keeps n (fun h => Q h a) (k a) R) ->
  keeps n P (bind m k) R.
Proof.
  intros Hm Hk h h' o L HP. unfold bind.
  destruct (m h) as [h1 [a|e]] eqn:E.
  - destruct (Hm _ _ _ L HP E) as [A1 Q1]. intros E2.
    destruct (Hk a _ _ _ (agree_length L A1) Q1 E2) as [A2 R2].
    split; [eapply agree_trans; eassumption|exact R2].
  - intros [= <- <-]. destruct (Hm _ _ _ L HP E) as [A1 _]. split; [exact A1|exact I].
Qed.

Lemma keeps_try {A : Type} n P (m : M heap A) (hd : exn -> M heap A) Q :
  keeps n P m Q ->
  (forall e, keeps n any_heap (hd e) Q) ->
  keeps n P (try_except m hd) Q.
Proof.
  intros Hm Hh h h' o L HP. unfold try_except.
  destruct (m h) as [h1 [a|e]] eqn:E.
  - intros [= <- <-]. exact (Hm _ _ _ L HP E).
  - destruct (Hm _ _ _ L HP E) as [A1 _].
    destruct (exn_is_Exception e).
    + intros E2. destruct (Hh e _ _ _ (agree_length L A1) I E2) as [A2 Q2].
      split; [eapply agree_trans; eassumption|exact Q2].
    + intros [= <- <-]. split; [exact A1|exact I].
Qed.

Lemma keeps_weaken {A : Type} n (P P' : heap -> Prop) (m : M heap A)
  (Q Q' : heap -> A -> Prop) :
  keeps n P' m Q' ->
  (forall h, P h -> P' h) -> (forall h a, Q' h a -> Q h a) ->
  keeps n P m Q.
Proof.
  intros Hm HP HQ h h' o L Ph E. destruct (Hm _ _ _ L (HP _ Ph) E) as [A1 Q1].
  split; [exact A1|]. destruct o; auto.
Qed.

Lemma keeps_bind_pure {A B : Type} n P (m : M heap A) (k : A -> M heap B)
  (Q0 : A -> Prop) R :
  keeps n P m (fun _ a => Q0 a) ->
  (forall a, Q0 a -> keeps n any_heap (k a) R) ->
  keeps n P (bind m k) R.
Proof.
  intros Hm Hk. eapply keeps_bind; [exact Hm|].
  intros a h h' o L Ha E. exact (Hk a Ha h h' o L I E).
Qed.

Section Frame.

Variable str_in : heap -> ref_value -> string.
Variable n : nat.

Lemma keeps_normalize_one default_code step_name e :
  keeps n any_heap (normalize_one str_in default_code step_name e) anything.
Proof.
  unfold normalize_one.
  eapply keeps_bind; [apply keeps_read with (Q := anything); easy|].
  intros [[d|xs|xs|c]|];
    repeat first
      [ apply keeps_ret; easy
      | eapply keeps_bind;
          [ first [ apply keeps_read with (Q := anything); easy
                  | apply keeps_alloc with (Q := anything); easy
                  | destruct (negb (dict_has "details" d));
                      [ apply keeps_alloc with (Q := anything); easy
                      | apply keeps_ret with (Q := anything); easy ] ]
          | intros ? ] ].
Qed.

Lemma keeps_normalize_loop default_code step_name es normalized :
  keeps n any_heap (normalize_loop str_in default_code step_name es normalized)
    anything.
Proof.
  revert normalized. induction es as [|e es IH]; intros normalized; simpl.
  - apply keeps_ret. easy.
  - eapply keeps_bind; [apply keeps_normalize_one|]. intros r.
    eapply keeps_weaken; [apply IH|easy|easy].
Qed.

Lemma keeps_normalize_errors raw default_code step_name :
  keeps n any_heap (_normalize_errors str_in raw default_code step_name) anything.
Proof.
  unfold _normalize_errors. destruct (is_none raw); [apply keeps_ret; easy|].
  eapply keeps_bind; [apply keeps_read with (Q := anything); easy|].
  intros [es|].
  - eapply keeps_weaken; [apply keeps_normalize_loop|easy|easy].
  - eapply keeps_bind; [apply keeps_read with (Q := anything); easy|].
    intros c. apply keeps_raise.
Qed.

(** What [interpret_out] gives as the new payload is what [proposed]
    reads off the returned value. *)
Lemma keeps_interpret_out module name out :
  keeps n (fun h => beyond n (proposed h out)) (interpret_out module name out)
    (fun _ pr => beyond n (fst pr)).
Proof.
  unfold interpret_out.
  eapply keeps_bind.
  { apply keeps_read
      with (Q := fun _ o =>
                   beyond n match o with
                            | Some (OTuple [a; _]) => a
                            | Some (ODict _) => out
                            | _ => RNone
                            end).
    intros h Hb. exact Hb. }
  intros o.
  eapply keeps_bind.
  { apply keeps_alloc
      with (Q := fun _ _ =>
                   beyond n match o with
                            | Some (OTuple [a; _]) => a
                            | Some (ODict _) => out
                            | _ => RNone
                            end).
    intros h _ Hb. exact Hb. }
  intros raw.
  assert (Hnone : keeps n (fun _ : heap => True)
            (if is_none out then ret (RNone, raw)
             else bind (read (fun h => class_name h out))
                    (fun c =>
                       bind (alloc (OList [RStr ("Unexpected return type from "
                                                 ++ mod_name module ++ "." ++ name
                                                 ++ ": <class '" ++ c ++ "'>")]))
                         (fun raw_errors => ret (RNone, raw_errors))))
            (fun _ pr => beyond n (fst pr))).
  { destruct (is_none out); [apply keeps_ret; easy|].
    eapply keeps_bind; [apply keeps_read with (Q := anything); easy|]. intros c.
    eapply keeps_bind; [apply keeps_alloc with (Q := anything); easy|]. intros r.
    apply keeps_ret. easy. }
  destruct o as [[d|xs|xs|c]|];
    try (eapply keeps_weaken; [exact Hnone|easy|easy]).
  - apply keeps_ret. intros h Hb. exact Hb.
  - apply keeps_ret. easy.
  - destruct xs as [|a [|b [|c xs]]];
      try (eapply keeps_weaken; [exact Hnone|easy|easy]).
    apply keeps_ret. intros h Hb. exact Hb.
Qed.

Lemma keeps_call_layer module names payload :
  confined_module n module ->
  beyond n payload ->
  keeps n any_heap (_call_layer str_in module names payload)
    (fun _ r => beyond n (fst (fst r))).
Proof.
  intros Hm Hp. induction names as [|name names IH]; simpl.
  - apply keeps_ret. easy.
  - destruct (getattr module name) as [[f|v]|] eqn:G; try exact IH.
    eapply keeps_bind with (Q := fun h out => beyond n (proposed h out)).
    { intros h h' o L _ E. exact (Hm _ _ G payload h h' o L Hp E). }
    intros out.
    eapply keeps_bind; [apply keeps_interpret_out|].
    intros [np raw]. simpl.
    eapply keeps_bind.
    { eapply keeps_weaken with (Q := fun _ _ => beyond n np)
                               (P' := fun _ => beyond n np).
      - intros h h' o L Hb E.
        destruct (@keeps_normalize_errors raw "layer_error" name h h' o L I E)
          as [A _].
        split; [exact A|]. destruct o; [exact Hb|exact I].
      - easy.
      - easy. }
    intros errs. apply keeps_ret. easy.
Qed.

Lemma keeps_copy v :
  keeps n any_heap (copy v) (fun _ payload => beyond n payload).
Proof.
  unfold copy.
  eapply keeps_bind; [apply keeps_read with (Q := anything); easy|].
  intros [[d|xs|xs|c]|];
    try (apply keeps_alloc; intros h L _; exact L);
    (eapply keeps_bind; [apply keeps_read with (Q := anything); easy|];
     intros ?; apply keeps_raise).
Qed.

Variables schemas rules guardrails : pymodule.

Lemma beyond_adopt (np p : ref_value) :
  beyond n np -> beyond n p -> beyond n (if negb (is_none np) then np else p).
Proof. intros; destruct (negb (is_none np)); assumption. Qed.

Lemma keeps_run request ai_fn config :
  confined_module n schemas ->
  confined_module n rules ->
  confined_module n guardrails ->
  confined_transform n ai_fn ->
  keeps n any_heap (run str_in schemas rules guardrails request ai_fn config)
    anything.
Proof.
  intros H1 H2 H3 H4. unfold run.
  eapply keeps_bind_pure; [apply keeps_copy|]. intros p0 Hp0.
  eapply keeps_bind_pure; [now apply keeps_call_layer|].
  intros [[np1 e1] m1] Hn1. cbn [fst] in Hn1.
  pose proof (@beyond_adopt np1 p0 Hn1 Hp0) as Hp1.
  destruct (nonempty e1); [apply keeps_ret; easy|].
  eapply keeps_bind_pure; [now apply keeps_call_layer|].
  intros [[np2 e2] m2] Hn2. cbn [fst] in Hn2.
  pose proof (@beyond_adopt np2 _ Hn2 Hp1) as Hp2.
  destruct (nonempty e2 && _); [apply keeps_ret; easy|].
  eapply keeps_bind_pure; [now apply keeps_call_layer|].
  intros [[np3 e3] m3] Hn3. cbn [fst] in Hn3.
  pose proof (@beyond_adopt np3 _ Hn3 Hp2) as Hp3.
  destruct (nonempty e3); [apply keeps_ret; easy|].
  destruct (truthy _); [|apply keeps_ret; easy].
  destruct ai_fn as [f|]; [|apply keeps_ret; easy].
  apply keeps_try.
  - eapply keeps_bind with (Q := anything).
    + intros h h' o L _ E. destruct (H4 _ h h' o L Hp3 E) as [A _].
      split; [exact A|]. destruct o; exact I.
    + intros ai_out.
      eapply keeps_bind; [apply keeps_read with (Q := anything); easy|].
      intros b. destruct (negb b); [apply keeps_raise|apply keeps_ret; easy].
  - intros ex.
    eapply keeps_bind; [apply keeps_alloc with (Q := anything); easy|].
    intros d. apply keeps_ret. easy.
Qed.

End Frame.

(** C6.  Whatever the store and the request, when [run] is over every
    object that was in the store before the call, the request dictionary
    among them, is as it was: the engine writes to nothing but objects it
    has created, and the collaborator functions and the transform work on
    the copy.  They are taken to be confined: each writes only to the
    dictionary it is handed and to objects it creates. *)
Theorem run_keeps_caller_objects str_in schemas rules guardrails request ai_fn config
  h h' o :
  confined_module (List.length h) schemas ->
  confined_module (List.length h) rules ->
  confined_module (List.length h) guardrails ->
  confined_transform (List.length h) ai_fn ->
  run str_in schemas rules guardrails request ai_fn config h = (h', o) ->
  firstn (List.length h) h' = h
  /\ lookup h' request = lookup h request.
Proof.
  intros H1 H2 H3 H4 E.
  destruct (@keeps_run str_in (List.length h) schemas rules guardrails request
              ai_fn config H1 H2 H3 H4 h h' o (le_n _) I E) as [A _].
  unfold agree in A. rewrite firstn_all in A. split; [exact A|].
  destruct request as [| | | |l]; try reflexivity. simpl.
  destruct (Nat.lt_ge_cases l (List.length h)) as [Hl|Hl].
  - transitivity (nth_error (firstn (List.length h) h') l); [|now rewrite A].
    now rewrite nth_error_firstn, (proj2 (Nat.ltb_lt _ _) Hl).
  - assert (Hn : lookup h (RRef l) = None) by (apply nth_error_None; exact Hl).
    revert E. cbv beta iota zeta delta [run bind copy read]. rewrite Hn.
    cbv beta iota delta [bind read raise]. intros [= <- _]. reflexivity.
Qed.

End StoreProofs.

(** ** A run over a store *)

Module StoreDemoProofs.
Import Store StoreDemo.

Lemma agree_write n l o h : n <= l -> agree n h (write l o h).
Proof.
  unfold agree. revert n l. induction h as [|x h IH]; intros n l L; simpl.
  - reflexivity.
  - destruct l as [|l]; [now replace n with 0 by lia|].
    destruct n as [|n]; [reflexivity|]. simpl. f_equal. apply IH. lia.
Qed.

Lemma stamp_confined n : confined proposed n stamp.
Proof.
  intros payload h h' o L Hb. unfold stamp.
  destruct payload as [| | | |l]; try (intros [= <- <-]; split; [reflexivity|exact I]).
  destruct (nth_error h l) as [[kvs|xs|xs|c]|];
    intros [= <- <-]; (split; [|exact I]); try reflexivity.
  apply agree_write. exact Hb.
Qed.

Lemma stamping_confined n : confined_module n stamping.
Proof.
  intros name f. unfold getattr. simpl.
  destruct (String.eqb name "validate"); [|discriminate].
  intros [= <-]. apply stamp_confined.
Qed.

Lemma nothing_confined n : confined_module n nothing.
Proof. intros name f. discriminate. Qed.

Lemma run_keeps_caller_objects_witness :
  firstn (List.length caller_heap) (fst stamped_run) = caller_heap
  /\ lookup (fst stamped_run) request = lookup caller_heap request.
Proof.
  exact (@StoreProofs.run_keeps_caller_objects str_in stamping nothing nothing
           request None None caller_heap (fst stamped_run) (snd stamped_run)
           (@stamping_confined _) (@nothing_confined _) (@nothing_confined _) I
           (surjective_pairing stamped_run)).
Defined.

(** The mark went to the copy, which is the [data] of the Result. *)
Example stamp_lands_on_the_copy :
  nth_error (fst stamped_run) 2
  = Some (ODict [("action", RStr "read"); ("items", RRef 0); ("_seen", RBool true)])
  /\ match snd stamped_run with
     | Ret r => data r = RRef 2 /\ ok r = true
     | Raise _ => False
     end.
Proof. vm_compute. auto. Qed.

(** The copy is shallow: the list under [items] is one object, shared by
    the request and the working payload.  A transform that appends to it
    in place is not confined, and the caller sees the new item. *)
Example shared_list_is_not_protected :
  let h' := fst (run str_in nothing nothing nothing request (Some append_item)
                   (Some [("enable_ai", VBool true)]) caller_heap) in
  lookup h' request = lookup caller_heap request
  /\ nth_error caller_heap 0 = Some (OList [RInt 1; RInt 2])
  /\ nth_error h' 0 = Some (OList [RInt 1; RInt 2; RInt 3]).
Proof. vm_compute. auto. Qed.

End StoreDemoProofs.

(* ------------------------------------------------------------------ *)
(** * The text helpers and the test suite, replayed *)

Example strip_READ : PyText.lower (PyText.strip "   READ   ") = "read".
Proof. reflexivity. Qed.

Example split_words :
  PyText.split "  how to  make a bomb " = ["how"; "to"; "make"; "a"; "bomb"].
Proof. reflexivity. Qed.

Example contains_phrase : PyText.contains "make a bomb" "how to make a bomb" = true.
Proof. reflexivity. Qed.

Example str_of_a_list :
  py_str (VList [VInt 1; VStr "a'b"; VTuple [VNone]; VDict [("k", VBool true)]])
  = "[1, " ++ String dquote "a'b" ++ String dquote ", (None,), {'k': True}]".
Proof. reflexivity. Qed.

(** [test_valid_request_passes] *)
Example test_valid_request_passes :
  match pipeline hello_request None None tt with
  | (_, Ret r) =>
      ok r = true /\ is_dict (data r) = true /\ errors r = []
      /\ steps r = ["schema"; "rules"; "guardrails"; "ai"]
      /\ forallb step_ok (trace r) = true
  | _ => False
  end.
Proof. vm_compute. auto. Qed.

(** [test_missing_action_fails_schema] *)
Example test_missing_action_fails_schema :
  match pipeline no_action_request None None tt with
  | (_, Ret r) => ok r = false /\ codes r = ["schema_error"] /\ steps r = ["schema"]
  | _ => False
  end.
Proof. vm_compute. auto. Qed.

(** [test_rules_violation_blocks_when_strict] *)
Example test_rules_violation_blocks_when_strict :
  match pipeline delete_request None (Some [("strict", VBool true)]) tt with
  | (_, Ret r) =>
      ok r = false /\ codes r = ["rule_violation"] /\ steps r = ["schema"; "rules"]
  | _ => False
  end.
Proof. vm_compute. auto. Qed.

(** [test_rules_violation_does_not_block_when_not_strict] *)
Example test_rules_violation_does_not_block_when_not_strict :
  match pipeline delete_request None lax_config tt with
  | (_, Ret r) =>
      ok r = true /\ errors r = []
      /\ steps r = ["schema"; "rules"; "guardrails"; "ai"]
  | _ => False
  end.
Proof. vm_compute. auto. Qed.

(** [test_guardrails_block_banned_content] *)
Example test_guardrails_block_banned_content :
  match pipeline
          [("role", VStr "user"); ("action", VStr "read");
           ("prompt", VStr "how to make a bomb")] None None tt with
  | (_, Ret r) =>
      ok r = false /\ codes r = ["guardrail_block"]
      /\ steps r = ["schema"; "rules"; "guardrails"]
  | _ => False
  end.
Proof. vm_compute. auto. Qed.

(** [test_ai_error_when_ai_fn_returns_wrong_type] *)
Example test_ai_error_when_ai_fn_returns_wrong_type :
  match pipeline hello_request (Some bad_ai_fn) ai_config tt with
  | (_, Ret r) =>
      ok r = false /\ codes r = ["ai_error"]
      /\ steps r = ["schema"; "rules"; "guardrails"; "ai"]
      /\ option_map step_ok (last_entry r) = Some false
  | _ => False
  end.
Proof. vm_compute. auto. Qed.

(** [test_action_whitespace_normalized] *)
Example test_action_whitespace_normalized :
  match pipeline
          [("role", VStr "user"); ("action", VStr "   READ   ");
           ("prompt", VStr "hello")] None None tt with
  | (_, Ret r) =>
      ok r = true
      /\ match data r with
         | VDict d => dict_find "action" d = Some (VStr "read")
         | _ => False
         end
  | _ => False
  end.
Proof. vm_compute. auto. Qed.

(** [test_guardrails_blocks_too_many_items] *)
Example test_guardrails_blocks_too_many_items :
  match pipeline
          [("role", VStr "user"); ("action", VStr "read");
           ("items", VList (map (fun n => VInt (Z.of_nat n)) (seq 0 60)));
           ("prompt", VStr "hello")] None None tt with
  | (_, Ret r) => ok r = false /\ codes r = ["guardrail_block"]
  | _ => False
  end.
Proof. vm_compute. auto. Qed.

(** [main.py]: the reply of [simple_ai] is in the data. *)
Example main_py :
  match pipeline hello_request (Some simple_ai) ai_config tt with
  | (_, Ret r) =>
      ok r = true
      /\ match data r with
         | VDict d => dict_find "assistant_reply" d = Some (VStr "You said: hello")
         | _ => False
         end
  | _ => False
  end.
Proof. vm_compute. auto. Qed.


(* ------------------------------------------------------------------ *)
(** * More of the engine *)

Section EngineMore.

Variable S : Type.

Lemma call_layer_skip (module : pymodule S) name rest payload :
  not_callable module name ->
  _call_layer module (name :: rest) payload = _call_layer module rest payload.
Proof.
  unfold not_callable. intros H. simpl.
  destruct (getattr module name) as [[f|v]|]; [contradiction|reflexivity|reflexivity].
Qed.

(** X1.  Only the first candidate that resolves to a callable is used: the
    names before it are passed over, the names after it are never tried. *)
Theorem call_layer_first_callable (module : pymodule S) before name after fn payload :
  (forall n, In n before -> not_callable module n) ->
  getattr module name = Some (Callable fn) ->
  _call_layer module (before ++ name :: after) payload
  = _call_layer module [name] payload.
Proof.
  intros Hb G. induction before as [|b before IH]; simpl app.
  - simpl. rewrite G. reflexivity.
  - rewrite call_layer_skip by (apply Hb; now left).
    apply IH. intros n I. apply Hb. now right.
Qed.

(** X4.  Raw errors that are a string are walked character by character, and a
    dictionary key by key: each character, or key, becomes the message of
    a record of its own. *)
Theorem normalize_errors_walks_text_and_keys default_code step_name :
  (forall t,
     _normalize_errors (VStr t) default_code step_name
     = Ret (map (fun c => {| code := default_code; message := String c "";
                             details := VDict [("step", VStr step_name)] |})
              (list_ascii_of_string t)))
  /\ (forall d,
        _normalize_errors (VDict d) default_code step_name
        = Ret (map (fun kv => {| code := default_code; message := fst kv;
                                 details := VDict [("step", VStr step_name)] |})
                 d)).
Proof.
  split; intros x; unfold _normalize_errors; cbn [is_none py_iter];
    rewrite append_loop, map_map; reflexivity.
Qed.

(** X5.  Raw errors that cannot be walked (a number, a boolean, an object
    that is not iterable), returned as the second item of a pair, make the
    invoker raise a [TypeError]: nothing is returned for the stage. *)
Theorem call_layer_raises_on_unwalkable_errors (module : pymodule S) name rest fn
  payload s s' a b :
  getattr module name = Some (Callable fn) ->
  fn payload s = (s', Ret (VTuple [a; b])) ->
  is_none b = false -> py_iter b = None ->
  _call_layer module (name :: rest) payload s = (s', Raise (not_iterable b)).
Proof.
  intros G E N I.
  rewrite call_layer_invoked with (fn := fn) (s' := s') (out := VTuple [a; b])
    by assumption.
  cbn [interpret_out]. unfold _normalize_errors. rewrite N, I. reflexivity.
Qed.

Variables schemas rules guardrails : pymodule S.

(** X6.  An exception at a collaborator stage is not caught: [run] raises it,
    whatever its class, and no Result is built. *)
Theorem collaborator_exceptions_propagate request ai_fn config s :
  (forall s1 ex,
     stage_raises schemas SCHEMA_NAMES (VDict request) s s1 ex ->
     run schemas rules guardrails request ai_fn config s = (s1, Raise ex))
  /\ (forall s1 p1 tr1 s2 ex,
        passed1 schemas request s s1 p1 tr1 ->
        stage_raises rules RULES_NAMES p1 s1 s2 ex ->
        run schemas rules guardrails request ai_fn config s = (s2, Raise ex))
  /\ (forall s2 p2 tr2 s3 ex,
        passed2 schemas rules request config s s2 p2 tr2 ->
        stage_raises guardrails GUARDRAILS_NAMES p2 s2 s3 ex ->
        run schemas rules guardrails request ai_fn config s = (s3, Raise ex)).
Proof.
  repeat split; intros; apply run_sound.
  - eapply SchemaRaised; eassumption.
  - eapply RulesRaised; eassumption.
  - eapply GuardrailsRaised; eassumption.
Qed.

Lemma passed3_entries request config s s3 p3 tr :
  passed3 schemas rules guardrails request config s s3 p3 tr ->
  exists m1 e2 m2 m3,
    tr = [entry "schema" [] m1; entry "rules" e2 m2; entry "guardrails" [] m3]
    /\ (e2 = [] \/ strict config = false).
Proof.
  intros (s2 & p2 & tr2 & m3 & (s1 & p1 & tr1 & e2 & m2 & (m1 & _ & ->) & _ & L & ->)
          & _ & ->).
  exists m1, e2, m2, m3. split; [reflexivity|exact L].
Qed.

(** X7.  In a successful run the only trace entry that can report a failure is
    the one of the rules stage, and only when [strict] is off; with
    [strict] on every entry of a successful run is ok. *)
Theorem success_trace_flags request ai_fn config s s' r :
  run schemas rules guardrails request ai_fn config s = (s', Ret r) ->
  ok r = true ->
  (forall t, In t (trace r) -> step_ok t = false ->
     step t = "rules" /\ strict config = false)
  /\ (strict config = true -> forallb step_ok (trace r) = true).
Proof.
  intros H Hok. apply run_complete in H. inversion H; subst; clear H;
    try discriminate Hok;
    match goal with
    | P : passed3 _ _ _ _ _ _ _ _ _ |- _ =>
        destruct (passed3_entries P) as (m1 & e2 & m2 & m3 & -> & L)
    end;
    unfold succeeded; cbn [trace app].
  all: split.
  all: try (intros t [<-|[<-|[<-|[<-|[]]]]] F; try discriminate F;
            split; [reflexivity|];
              destruct L as [->|L]; [discriminate F|exact L]).
  all: intros St; destruct L as [->|L]; [reflexivity|congruence].
Qed.

(** X8.  With [enable_ai] off, a transform that was supplied is never called:
    the run is the run without a transform. *)
Theorem transform_needs_enable_ai request f config s :
  enable_ai config = false ->
  run schemas rules guardrails request (Some f) config s
  = run schemas rules guardrails request None config s.
Proof.
  intros En. unfold run.
  change (truthy (dict_get "enable_ai" _ _)) with (enable_ai config).
  rewrite En. reflexivity.
Qed.

End EngineMore.

(* ------------------------------------------------------------------ *)
(** * rules.py: what [check_rules] decides *)

Lemma in_strs_In v l : in_strs v l = true <-> exists t, v = VStr t /\ In t l.
Proof.
  unfold in_strs. rewrite existsb_exists. split.
  - intros (t & I & E). destruct v; try discriminate. simpl in E.
    apply String.eqb_eq in E. subst. eauto.
  - intros (t & -> & I). exists t. split; [exact I|]. simpl. apply String.eqb_refl.
Qed.

Lemma eq_str_true v t : eq_str v t = true <-> v = VStr t.
Proof.
  destruct v; simpl; split; try discriminate.
  - intros E. apply String.eqb_eq in E. now subst.
  - intros [= ->]. apply String.eqb_refl.
Qed.

(** Rules 4 and 5 of [check_rules] are never reached with a true
    condition: [check_rules] is the function made of its first three
    rules. *)
Lemma check_rules_three_rules (payload : dict) :
  Rules.check_rules_dict payload
  = let role := dict_get "role" VNone payload in
    let action := dict_get "action" VNone payload in
    if negb (is_none role) && negb (in_strs role Rules.ALLOWED_ROLES) then
      (payload,
       [Rules._err "invalid_role" "Role is not allowed."
          (VDict [("role", role);
                  ("allowed_roles", strs Rules.ALLOWED_ROLES)])])
    else
    let role := effective_role payload in
    if is_none action then
      (payload,
       [Rules._err "missing_action" "Missing required field: action"
          (VDict [("required", strs ["action"]); ("example", VStr "read")])])
    else
    let allowed_actions :=
      match role with
      | VStr r => Rules.role_actions_in Rules.ROLE_ACTIONS r
      | _ => []
      end in
    if negb (in_strs action allowed_actions) then
      (payload,
       [Rules._err "action_not_allowed" "Action is not allowed for this role."
          (VDict [("role", role); ("action", action);
                  ("allowed_actions", strs allowed_actions)])])
    else
      (dict_set "_rules"
         (VDict [("checked", VBool true); ("role", role); ("action", action)])
         (dict_set "role" role payload),
       []).
Proof.
  unfold Rules.check_rules_dict, effective_role. cbv zeta.
  set (role0 := dict_get "role" VNone payload).
  set (action := dict_get "action" VNone payload).
  set (resource := dict_get "resource" VNone payload).
  destruct (negb (is_none role0) && negb (in_strs role0 Rules.ALLOWED_ROLES)) eqn:B1;
    [reflexivity|].
  destruct (is_none action) eqn:B2; [reflexivity|].
  set (role := if is_none role0 then VStr "user" else role0).
  assert (Hr : exists r, role = VStr r /\ In r Rules.ALLOWED_ROLES).
  { subst role. destruct (is_none role0) eqn:N.
    - exists "user". split; [reflexivity|now left].
    - try rewrite N in B1. cbn [negb andb] in B1.
      apply negb_false_iff in B1. now apply in_strs_In in B1. }
  destruct Hr as (r & Er & Ir). rewrite Er.
  destruct (negb (in_strs action (Rules.role_actions_in Rules.ROLE_ACTIONS r))) eqn:B3;
    [reflexivity|].
  apply negb_false_iff, in_strs_In in B3. destruct B3 as (a & Ea & Ia).
  rewrite Ea.
  assert (D4 : eq_str (VStr a) "delete" && negb (eq_str (VStr r) "admin") = false).
  { apply andb_false_iff.
    destruct (eq_str (VStr a) "delete") eqn:Ed; [right|now left].
    apply eq_str_true in Ed. injection Ed as ->.
    simpl in Ir. destruct Ir as [<-|[<-|[<-|[]]]]; simpl in Ia;
      try reflexivity; intuition discriminate. }
  rewrite D4.
  assert (D5 : eq_str (VStr a) "write" && eq_str (VStr r) "user"
               && eq_str resource "system_config" = false).
  { destruct (eq_str (VStr a) "write") eqn:Ew; [|reflexivity].
    destruct (eq_str (VStr r) "user") eqn:Eu; [|reflexivity].
    apply eq_str_true in Ew, Eu. injection Ew as ->. injection Eu as ->.
    simpl in Ia. intuition discriminate. }
  rewrite D5. reflexivity.
Qed.

(** X11.  [check_rules] never reports [delete_requires_admin] nor
    [protected_resource]: by the time these two rules are reached the
    table of rule 3 has already refused what they would refuse. *)
Theorem delete_and_resource_rules_never_fire (payload : dict) :
  Forall (fun e => error_code e <> Some (VStr "delete_requires_admin")
                   /\ error_code e <> Some (VStr "protected_resource"))
    (snd (Rules.check_rules_dict payload)).
Proof.
  rewrite check_rules_three_rules. cbv zeta.
  repeat match goal with
  | |- context [if ?c then _ else _] => destruct c
  end; cbn [snd]; repeat constructor; simpl; discriminate.
Qed.

(** X12.  A refusal stops [check_rules] at once: the payload comes back as it
    was given, with exactly one error. *)
Theorem check_rules_fails_fast (payload : dict) :
  snd (Rules.check_rules_dict payload) = []
  \/ (fst (Rules.check_rules_dict payload) = payload
      /\ exists e, snd (Rules.check_rules_dict payload) = [e]).
Proof.
  rewrite check_rules_three_rules. cbv zeta.
  repeat match goal with
  | |- context [if ?c then _ else _] => destruct c
  end; cbn [fst snd]; eauto.
Qed.

(** The acceptance condition of [check_rules], for the two statements
    below. *)
Lemma check_rules_accepts (payload : dict) :
  (snd (Rules.check_rules_dict payload) = [] <-> permitted payload)
  /\ (snd (Rules.check_rules_dict payload) = [] ->
      fst (Rules.check_rules_dict payload)
      = dict_set "_rules"
          (VDict [("checked", VBool true); ("role", effective_role payload);
                  ("action", dict_get "action" VNone payload)])
          (dict_set "role" (effective_role payload) payload)).
Proof.
  rewrite check_rules_three_rules. cbv zeta. unfold permitted.
  set (role0 := dict_get "role" VNone payload).
  set (action := dict_get "action" VNone payload).
  destruct (negb (is_none role0) && negb (in_strs role0 Rules.ALLOWED_ROLES)) eqn:B1.
  { cbn [fst snd]. split; [|discriminate]. split; [discriminate|].
    intros (r & a & Er & Ir & _). exfalso.
    apply andb_prop in B1. destruct B1 as [N B1].
    apply negb_true_iff in N, B1. unfold effective_role in Er. fold role0 in Er.
    rewrite N in Er.
    assert (in_strs role0 Rules.ALLOWED_ROLES = true) by (apply in_strs_In; eauto).
    congruence. }
  destruct (is_none action) eqn:B2.
  { cbn [fst snd]. split; [|discriminate]. split; [discriminate|].
    intros (r & a & _ & _ & Ea & _). rewrite Ea in B2. discriminate. }
  assert (Hr : exists r, effective_role payload = VStr r /\ In r Rules.ALLOWED_ROLES).
  { unfold effective_role. fold role0. destruct (is_none role0) eqn:N.
    - exists "user". split; [reflexivity|now left].
    - try rewrite N in B1. cbn [negb andb] in B1.
      apply negb_false_iff in B1. now apply in_strs_In in B1. }
  destruct Hr as (r & Er & Ir). rewrite Er.
  destruct (negb (in_strs action (Rules.role_actions_in Rules.ROLE_ACTIONS r))) eqn:B3.
  { cbn [fst snd]. split; [|discriminate]. split; [discriminate|].
    intros (r' & a & [= <-] & _ & Ea & Ia). apply negb_true_iff in B3.
    assert (in_strs action (Rules.role_actions_in Rules.ROLE_ACTIONS r) = true)
      by (apply in_strs_In; eauto).
    congruence. }
  cbn [fst snd]. split; [|reflexivity]. split; [|reflexivity]. intros _.
  apply negb_false_iff, in_strs_In in B3. destruct B3 as (a & Ea & Ia).
  exists r, a. auto.
Qed.

(** X13.  [check_rules] accepts exactly the payloads whose role (or "user", when
    there is none) is allowed and has the action in its row of the table;
    what it returns then is the payload with the role filled in and the
    [_rules] record added. *)
Theorem check_rules_accepts_iff (payload : dict) :
  (snd (Rules.check_rules_dict payload) = [] <-> permitted payload)
  /\ (snd (Rules.check_rules_dict payload) = [] ->
      fst (Rules.check_rules_dict payload)
      = dict_set "_rules"
          (VDict [("checked", VBool true); ("role", effective_role payload);
                  ("action", dict_get "action" VNone payload)])
          (dict_set "role" (effective_role payload) payload)).
Proof. exact (check_rules_accepts payload). Qed.

(** X14.  Only an admin gets [write] or [delete] through, and nobody gets
    [export] through, although the schema recognizes it. *)
Theorem only_admin_writes_and_deletes (payload : dict) :
  snd (Rules.check_rules_dict payload) = [] ->
  let action := dict_get "action" VNone payload in
  action <> VStr "export"
  /\ (action = VStr "write" \/ action = VStr "delete" ->
      dict_find "role" payload = Some (VStr "admin")).
Proof.
  intros H. apply (proj1 (proj1 (check_rules_accepts payload))) in H.
  destruct H as (r & a & Er & Ir & Ea & Ia). cbv zeta. rewrite Ea.
  assert (Hrole : r <> "user" -> dict_find "role" payload = Some (VStr r)).
  { intros Hu. unfold effective_role, dict_get in Er.
    destruct (dict_find "role" payload) as [v|]; simpl in Er.
    - destruct v; simpl in Er; congruence.
    - congruence. }
  simpl in Ir. destruct Ir as [<-|[<-|[<-|[]]]]; simpl in Ia; split;
    try (intros [= ->]; intuition discriminate);
    try (intros [[= ->]|[= ->]]; intuition discriminate).
Qed.

(* ------------------------------------------------------------------ *)
(** * Dictionaries: assignment and lookup *)

Section DictFacts.

Variable V : Type.
Implicit Types (d : list (string * V)) (k : string) (v : V).

Lemma dict_find_set_same k v d : dict_find k (dict_set k v d) = Some v.
Proof.
  induction d as [|[k' v'] d IH]; simpl.
  - now rewrite String.eqb_refl.
  - destruct (String.eqb k k') eqn:E; simpl.
    + now rewrite String.eqb_refl.
    + now rewrite E.
Qed.

Lemma dict_find_set_other k k' v d :
  k <> k' -> dict_find k (dict_set k' v d) = dict_find k d.
Proof.
  intros N. induction d as [|[k0 v0] d IH]; simpl.
  - destruct (String.eqb_spec k k'); [contradiction|reflexivity].
  - destruct (String.eqb_spec k' k0) as [->|N0]; simpl.
    + destruct (String.eqb_spec k k0); [contradiction|reflexivity].
    + destruct (String.eqb k k0); [reflexivity|exact IH].
Qed.

Lemma dict_keys_set_present k v d :
  dict_has k d = true -> dict_keys (dict_set k v d) = dict_keys d.
Proof.
  unfold dict_has. induction d as [|[k' v'] d IH]; simpl; [discriminate|].
  destruct (String.eqb_spec k k') as [->|N]; simpl; [reflexivity|].
  intros H. now rewrite IH.
Qed.

Lemma dict_keys_set_absent k v d :
  dict_has k d = false -> dict_keys (dict_set k v d) = (dict_keys d ++ [k])%list.
Proof.
  unfold dict_has. induction d as [|[k' v'] d IH]; simpl; [reflexivity|].
  destruct (String.eqb_spec k k') as [->|N]; simpl; [discriminate|].
  intros H. now rewrite IH.
Qed.

Lemma dict_has_set_other k k' v d :
  k <> k' -> dict_has k (dict_set k' v d) = dict_has k d.
Proof. intros N. unfold dict_has. now rewrite dict_find_set_other. Qed.

Lemma dict_set_same_value k v d : dict_find k d = Some v -> dict_set k v d = d.
Proof.
  induction d as [|[k' v'] d IH]; simpl; [discriminate|].
  destruct (String.eqb_spec k k') as [->|N].
  - now intros [= ->].
  - intros H. now rewrite IH.
Qed.

End DictFacts.

(* ------------------------------------------------------------------ *)
(** * schemas.py: what [validate_request] does to a payload *)

Lemma check_action_payload (normalized : dict) errors :
  fst (Schemas.check_action normalized errors)
  = let action := dict_get "action" VNone normalized in
    if Schemas._is_nonempty_string action
    then dict_set "action"
           (VStr (PyText.lower (PyText.strip (Schemas.text_of action)))) normalized
    else normalized.
Proof.
  unfold Schemas.check_action. cbv zeta.
  destruct (Schemas._is_nonempty_string (dict_get "action" VNone normalized));
    cbn [negb]; [|reflexivity].
  destruct (negb (PyText.mem _ Schemas.ALLOWED_ACTIONS)); reflexivity.
Qed.

Lemma check_role_payload (normalized : dict) errors :
  fst (Schemas.check_role normalized errors)
  = let role := dict_get "role" VNone normalized in
    if Schemas._is_nonempty_string role
    then dict_set "role"
           (VStr (PyText.lower (PyText.strip (Schemas.text_of role)))) normalized
    else normalized.
Proof.
  unfold Schemas.check_role. cbv zeta.
  destruct (dict_get "role" VNone normalized) eqn:R; cbn [is_none negb];
    try reflexivity.
  destruct (Schemas._is_nonempty_string (VStr s)); cbn [negb]; [|reflexivity].
  destruct (negb (PyText.mem _ Schemas.ALLOWED_ROLES)); reflexivity.
Qed.

Lemma strip_field_find (normalized : dict) field k :
  dict_find k (Schemas.strip_field normalized field)
  = if String.eqb k field then option_map stripped (dict_find k normalized)
    else dict_find k normalized.
Proof.
  unfold Schemas.strip_field.
  destruct (String.eqb_spec k field) as [->|N].
  - destruct (dict_find field normalized) as [[]|] eqn:F; simpl;
      rewrite ?F; try reflexivity.
    apply dict_find_set_same.
  - destruct (dict_find field normalized) as [[]|]; try reflexivity.
    now apply dict_find_set_other.
Qed.

Lemma strip_field_keys (normalized : dict) field :
  dict_keys (Schemas.strip_field normalized field) = dict_keys normalized.
Proof.
  unfold Schemas.strip_field.
  destruct (dict_find field normalized) as [[]|] eqn:F; try reflexivity.
  apply dict_keys_set_present. unfold dict_has. now rewrite F.
Qed.

Lemma strip_fields_find fields (normalized : dict) k :
  NoDup fields ->
  dict_find k (fold_left Schemas.strip_field fields normalized)
  = if PyText.mem k fields then option_map stripped (dict_find k normalized)
    else dict_find k normalized.
Proof.
  intros ND. revert normalized. induction ND as [|f fields Hf ND IH];
    intros normalized; [reflexivity|].
  cbn [fold_left]. rewrite IH, strip_field_find.
  unfold PyText.mem. cbn [existsb].
  destruct (String.eqb_spec k f) as [->|N]; [|reflexivity].
  cbn [orb].
  destruct (existsb (String.eqb f) fields) eqn:M; [|reflexivity].
  exfalso. apply Hf. apply existsb_exists in M. destruct M as (x & I & E).
  apply String.eqb_eq in E. now subst.
Qed.

Lemma strip_fields_keys fields (normalized : dict) :
  dict_keys (fold_left Schemas.strip_field fields normalized) = dict_keys normalized.
Proof.
  revert normalized. induction fields as [|f fields IH]; intros normalized;
    [reflexivity|].
  cbn [fold_left]. now rewrite IH, strip_field_keys.
Qed.

Lemma text_fields_nodup : NoDup Schemas.TEXT_FIELDS.
Proof.
  unfold Schemas.TEXT_FIELDS.
  repeat (constructor; [simpl; intuition discriminate|]). constructor.
Qed.

(** The payload [validate_request] returns when the required field is
    there. *)
Lemma validate_dict_payload (payload : dict) :
  dict_has "action" payload = true ->
  fst (Schemas.validate_dict payload)
  = dict_set "_schema" schema_record
      (fold_left Schemas.strip_field Schemas.TEXT_FIELDS
         (fst (Schemas.check_role
                 (fst (Schemas.check_action payload []))
                 (snd (Schemas.check_action payload []))))).
Proof.
  intros H. unfold Schemas.validate_dict. cbv zeta.
  cbn [fold_left Schemas.REQUIRED_FIELDS]. rewrite H. cbn [negb nonempty].
  destruct (Schemas.check_action payload []) as [n1 e1]. cbn [fst snd].
  destruct (Schemas.check_role n1 e1) as [n2 e2]. reflexivity.
Qed.

Lemma validate_required_field (payload : dict) :
  (dict_has "action" payload = false ->
   Schemas.validate_dict payload = (payload, [Schemas.missing_field "action"]))
  /\ (dict_has "action" payload = true ->
      dict_find "_schema" (fst (Schemas.validate_dict payload)) = Some schema_record
      /\ Forall (fun e => error_code e <> Some (VStr "missing_field"))
           (snd (Schemas.validate_dict payload))).
Proof.
  split; intros H.
  - unfold Schemas.validate_dict. cbv zeta.
    cbn [fold_left Schemas.REQUIRED_FIELDS]. rewrite H. reflexivity.
  - split.
    + rewrite validate_dict_payload by exact H. apply dict_find_set_same.
    + unfold Schemas.validate_dict. cbv zeta.
      cbn [fold_left Schemas.REQUIRED_FIELDS]. rewrite H. cbn [negb nonempty].
      unfold Schemas.check_action, Schemas.check_role. cbv zeta.
      repeat match goal with
      | |- context [if ?c then _ else _] => destruct c
      end; cbn [snd app]; repeat constructor; simpl; discriminate.
Qed.

Lemma validate_fields (payload : dict) :
  dict_has "action" payload = true ->
  (forall k, k <> "_schema" ->
     dict_find k (fst (Schemas.validate_dict payload))
     = option_map (field_after k) (dict_find k payload))
  /\ dict_keys (fst (Schemas.validate_dict payload))
     = (if dict_has "_schema" payload then dict_keys payload
        else (dict_keys payload ++ ["_schema"])%list).
Proof.
  intros H. rewrite validate_dict_payload by exact H.
  rewrite check_role_payload, check_action_payload. cbv zeta.
  match goal with
  | |- context [Schemas._is_nonempty_string (dict_get "role" VNone ?x)] =>
      set (n1 := x)
  end.
  assert (F1 : forall k, dict_find k n1
                = if String.eqb k "action"
                  then option_map (field_after "action") (dict_find k payload)
                  else dict_find k payload).
  { intros k. subst n1. destruct (String.eqb_spec k "action") as [->|N].
    - unfold field_after. cbn [String.eqb Ascii.eqb Bool.eqb orb].
      unfold dict_has in H. unfold dict_get.
      destruct (dict_find "action" payload) as [a|] eqn:F; [|discriminate].
      cbn [option_map].
      destruct (Schemas._is_nonempty_string a); [apply dict_find_set_same|].
      first [reflexivity | exact F].
    - destruct (Schemas._is_nonempty_string (dict_get "action" VNone payload));
        [|reflexivity].
      now apply dict_find_set_other. }
  assert (K1 : dict_keys n1 = dict_keys payload).
  { subst n1. destruct (Schemas._is_nonempty_string _); [|reflexivity].
    now apply dict_keys_set_present. }
  clearbody n1.
  match goal with
  | |- context [fold_left Schemas.strip_field Schemas.TEXT_FIELDS ?x] =>
      set (n2 := x)
  end.
  assert (F2 : forall k, dict_find k n2
                = if String.eqb k "role"
                  then option_map (field_after "role") (dict_find k n1)
                  else dict_find k n1).
  { intros k. subst n2. destruct (String.eqb_spec k "role") as [->|N].
    - unfold field_after. cbn [String.eqb Ascii.eqb Bool.eqb orb].
      unfold dict_get.
      destruct (dict_find "role" n1) as [r|] eqn:F; cbn [option_map].
      + destruct (Schemas._is_nonempty_string r);
          [apply dict_find_set_same|first [reflexivity | exact F]].
      + cbn [Schemas._is_nonempty_string]. first [reflexivity | exact F].
    - destruct (Schemas._is_nonempty_string (dict_get "role" VNone n1));
        [|reflexivity].
      now apply dict_find_set_other. }
  assert (K2 : dict_keys n2 = dict_keys payload).
  { subst n2. rewrite <- K1. unfold dict_get.
    destruct (dict_find "role" n1) as [r|] eqn:F; [|reflexivity].
    destruct (Schemas._is_nonempty_string r); [|reflexivity].
    apply dict_keys_set_present. unfold dict_has. now rewrite F. }
  clearbody n2.
  split.
  - intros k Hk. rewrite dict_find_set_other by exact Hk.
    rewrite (strip_fields_find n2 k text_fields_nodup), F2, F1.
    unfold field_after.
    destruct (String.eqb_spec k "action") as [->|Na]; [reflexivity|].
    destruct (String.eqb_spec k "role") as [->|Nr].
    + cbn [String.eqb Ascii.eqb Bool.eqb orb]. reflexivity.
    + cbn [orb]. destruct (PyText.mem k Schemas.TEXT_FIELDS);
        destruct (dict_find k payload) as [[]|]; reflexivity.
  - assert (Hs : dict_has "_schema"
                   (fold_left Schemas.strip_field Schemas.TEXT_FIELDS n2)
                 = dict_has "_schema" payload).
    { unfold dict_has.
      rewrite (strip_fields_find n2 "_schema" text_fields_nodup), F2, F1.
      reflexivity. }
    destruct (dict_has "_schema" payload) eqn:Hp.
    + rewrite dict_keys_set_present by exact Hs. now rewrite strip_fields_keys.
    + rewrite dict_keys_set_absent by exact Hs. now rewrite strip_fields_keys, K2.
Qed.

Lemma mem_In t l : PyText.mem t l = true <-> In t l.
Proof.
  unfold PyText.mem. rewrite existsb_exists. split.
  - intros (x & I & E). apply String.eqb_eq in E. now subst.
  - intros I. exists t. split; [exact I|apply String.eqb_refl].
Qed.

Lemma app_one_not_nil {A : Type} (l : list A) (x : A) : (l ++ [x])%list <> [].
Proof. destruct l; discriminate. Qed.

Lemma check_action_clean (normalized : dict) errors :
  snd (Schemas.check_action normalized errors) = [] ->
  errors = []
  /\ Schemas._is_nonempty_string (dict_get "action" VNone normalized) = true
  /\ In (PyText.lower (PyText.strip
           (Schemas.text_of (dict_get "action" VNone normalized))))
       Schemas.ALLOWED_ACTIONS.
Proof.
  unfold Schemas.check_action. cbv zeta.
  destruct (Schemas._is_nonempty_string (dict_get "action" VNone normalized));
    cbn [negb snd]; [|intros E; now apply app_one_not_nil in E].
  destruct (PyText.mem _ Schemas.ALLOWED_ACTIONS) eqn:M; cbn [negb snd].
  - intros ->. apply mem_In in M. auto.
  - intros E. now apply app_one_not_nil in E.
Qed.

Lemma check_role_clean (normalized : dict) errors :
  snd (Schemas.check_role normalized errors) = [] ->
  errors = []
  /\ (is_none (dict_get "role" VNone normalized) = true
      \/ (Schemas._is_nonempty_string (dict_get "role" VNone normalized) = true
          /\ In (PyText.lower (PyText.strip
                   (Schemas.text_of (dict_get "role" VNone normalized))))
               Schemas.ALLOWED_ROLES)).
Proof.
  unfold Schemas.check_role. cbv zeta.
  destruct (is_none (dict_get "role" VNone normalized)); cbn [negb snd];
    [intros ->; auto|].
  destruct (Schemas._is_nonempty_string (dict_get "role" VNone normalized));
    cbn [negb snd]; [|intros E; now apply app_one_not_nil in E].
  destruct (PyText.mem _ Schemas.ALLOWED_ROLES) eqn:M; cbn [negb snd].
  - intros ->. apply mem_In in M. auto.
  - intros E. now apply app_one_not_nil in E.
Qed.

Lemma validate_dict_errors (payload : dict) :
  dict_has "action" payload = true ->
  snd (Schemas.validate_dict payload)
  = snd (Schemas.check_role
           (fst (Schemas.check_action payload []))
           (snd (Schemas.check_action payload []))).
Proof.
  intros H. unfold Schemas.validate_dict. cbv zeta.
  cbn [fold_left Schemas.REQUIRED_FIELDS]. rewrite H. cbn [negb nonempty].
  destruct (Schemas.check_action payload []) as [n1 e1]. cbn [fst snd].
  destruct (Schemas.check_role n1 e1) as [n2 e2]. reflexivity.
Qed.

(** What a payload that passed validation looks like, for the two
    statements below. *)
Lemma validated_payload (payload normalized : dict) :
  Schemas.validate_dict payload = (normalized, []) ->
  (exists a, dict_find "action" normalized = Some (VStr a)
             /\ In a Schemas.ALLOWED_ACTIONS)
  /\ (dict_find "role" normalized = None
      \/ dict_find "role" normalized = Some VNone
      \/ exists r, dict_find "role" normalized = Some (VStr r)
                   /\ In r Schemas.ALLOWED_ROLES).
Proof.
  intros E.
  assert (E1 : fst (Schemas.validate_dict payload) = normalized)
    by (rewrite E; reflexivity).
  assert (E2 : snd (Schemas.validate_dict payload) = [])
    by (rewrite E; reflexivity).
  clear E.
  destruct (dict_has "action" payload) eqn:H.
  2:{ rewrite (proj1 (validate_required_field payload) H) in E2.
      cbn [snd] in E2. discriminate E2. }
  pose proof (proj1 (validate_fields payload H)) as F.
  rewrite E1 in F.
  rewrite validate_dict_errors in E2 by exact H.
  destruct (check_role_clean _ _ E2) as (E3 & Hrole).
  destruct (check_action_clean _ _ E3) as (_ & Hns & Hin).
  assert (R1 : dict_get "role" VNone (fst (Schemas.check_action payload []))
               = dict_get "role" VNone payload).
  { rewrite check_action_payload. cbv zeta. unfold dict_get at 1 3.
    destruct (Schemas._is_nonempty_string (dict_get "action" VNone payload));
      [|reflexivity].
    now rewrite dict_find_set_other by discriminate. }
  rewrite R1 in Hrole. clear R1 E2 E3.
  unfold dict_has in H. unfold dict_get in Hns, Hin, Hrole.
  split.
  - rewrite F by discriminate. unfold field_after.
    cbn [String.eqb Ascii.eqb Bool.eqb orb].
    destruct (dict_find "action" payload) as [a|]; [|discriminate].
    cbn [option_map]. rewrite Hns. eauto.
  - rewrite F by discriminate. unfold field_after.
    cbn [String.eqb Ascii.eqb Bool.eqb orb].
    destruct (dict_find "role" payload) as [r|]; [|now left]. cbn [option_map].
    right. destruct Hrole as [N|[Hn Hi]].
    + destruct r; try discriminate N. now left.
    + rewrite Hn. right. eauto.
Qed.

(** X15.  Without [action] the payload comes back untouched, with the one
    [missing_field] error; with it, the payload is stamped with [_schema]
    and [missing_field] is not reported. *)
Theorem validate_missing_action (payload : dict) :
  (dict_has "action" payload = false ->
   Schemas.validate_dict payload = (payload, [Schemas.missing_field "action"]))
  /\ (dict_has "action" payload = true ->
      dict_find "_schema" (fst (Schemas.validate_dict payload)) = Some schema_record
      /\ Forall (fun e => error_code e <> Some (VStr "missing_field"))
           (snd (Schemas.validate_dict payload))).
Proof. exact (validate_required_field payload). Qed.

(** X16.  Field by field: after validation a key other than [_schema] holds
    what [field_after] makes of its old value; no key is dropped and none
    but [_schema] is added, and the order of the keys is kept. *)
Theorem validate_field_by_field (payload : dict) :
  dict_has "action" payload = true ->
  (forall k, k <> "_schema" ->
     dict_find k (fst (Schemas.validate_dict payload))
     = option_map (field_after k) (dict_find k payload))
  /\ dict_keys (fst (Schemas.validate_dict payload))
     = (if dict_has "_schema" payload then dict_keys payload
        else (dict_keys payload ++ ["_schema"])%list).
Proof. exact (validate_fields payload). Qed.

(** X17.  A payload that passed validation holds a recognized action, stripped
    and in lower case, and no role, or [None], or a recognized role. *)
Theorem validate_success_postcondition (payload normalized : dict) :
  Schemas.validate_dict payload = (normalized, []) ->
  (exists a, dict_find "action" normalized = Some (VStr a)
             /\ In a Schemas.ALLOWED_ACTIONS)
  /\ (dict_find "role" normalized = None
      \/ dict_find "role" normalized = Some VNone
      \/ exists r, dict_find "role" normalized = Some (VStr r)
                   /\ In r Schemas.ALLOWED_ROLES).
Proof. exact (@validated_payload payload normalized). Qed.

(** X18.  After a payload passed validation the rules can refuse it for one
    reason only: the action is not in the role's row.  The rules for an
    unknown role and for a missing action cannot fire any more. *)
Theorem rules_after_schema (payload normalized : dict) :
  Schemas.validate_dict payload = (normalized, []) ->
  snd (Rules.check_rules_dict normalized) = []
  \/ exists e,
       snd (Rules.check_rules_dict normalized) = [e]
       /\ fst (Rules.check_rules_dict normalized) = normalized
       /\ error_code e = Some (VStr "action_not_allowed").
Proof.
  intros E. destruct (@validated_payload payload normalized E)
    as ((a & Fa & Ia) & Hr).
  rewrite check_rules_three_rules. cbv zeta.
  assert (B1 : negb (is_none (dict_get "role" VNone normalized))
               && negb (in_strs (dict_get "role" VNone normalized)
                          Rules.ALLOWED_ROLES) = false).
  { unfold dict_get. destruct Hr as [->|[->|(r & -> & Ir)]]; try reflexivity.
    cbn [is_none negb andb]. apply negb_false_iff. apply in_strs_In. eauto. }
  rewrite B1.
  assert (B2 : is_none (dict_get "action" VNone normalized) = false)
    by (unfold dict_get; now rewrite Fa).
  rewrite B2.
  match goal with
  | |- context [if ?c then _ else _] => destruct c
  end; cbn [fst snd]; [right|now left].
  eexists. split; [reflexivity|]. split; reflexivity.
Qed.

(* ------------------------------------------------------------------ *)
(** * guardrails.py: what [check_guardrails] reports *)

Lemma first_hit_find hit mk xs errors :
  Guardrails.first_hit hit mk xs errors
  = (errors ++ match find hit xs with
               | Some x => [mk x]
               | None => []
               end)%list.
Proof.
  induction xs as [|x xs IH]; simpl; [now rewrite app_nil_r|].
  destruct (hit x); [reflexivity|exact IH].
Qed.

Lemma list_scan (payload : dict) (errors : list value) :
  fold_left
    (fun errors kv =>
       match snd kv with
       | VList items =>
           if Z.ltb Guardrails.MAX_LIST_ITEMS (Z.of_nat (List.length items)) then
             (errors ++ [Guardrails.too_many_items (fst kv)
                           (Z.of_nat (List.length items))])%list
           else errors
       | _ => errors
       end)
    payload errors
  = (errors ++ map (fun kv => Guardrails.too_many_items (fst kv) (items_of (snd kv)))
                 (filter oversized payload))%list.
Proof.
  revert errors. induction payload as [|[k v] payload IH]; intros errors;
    cbn [fold_left filter]; [now rewrite app_nil_r|].
  rewrite IH. unfold oversized at 2. cbn [fst snd].
  destruct v; try reflexivity.
  destruct (Z.ltb _ _); [|reflexivity].
  cbn [map]. now rewrite <- app_assoc.
Qed.

(** The errors of [check_guardrails], step by step. *)
Lemma guardrails_errors (payload : dict) :
  snd (Guardrails.check_guardrails_dict payload)
  = (((length_errors payload ++ phrase_errors payload)
        ++ (if nonempty (length_errors payload ++ phrase_errors payload) then []
            else word_errors payload))
       ++ map (fun kv => Guardrails.too_many_items (fst kv) (items_of (snd kv)))
            (filter oversized payload))%list.
Proof.
  unfold Guardrails.check_guardrails_dict. cbv zeta. cbn [snd].
  rewrite list_scan. f_equal.
  change (PyText.lower (Guardrails._collect_text payload))
    with (scanned_text payload).
  rewrite first_hit_find. fold (phrase_errors payload).
  change (if Z.ltb Guardrails.MAX_TEXT_LEN (PyText.len (scanned_text payload))
          then _ else _) with (length_errors payload).
  destruct (nonempty (length_errors payload ++ phrase_errors payload)) eqn:N;
    cbn [negb].
  - now rewrite app_nil_r.
  - rewrite first_hit_find. reflexivity.
Qed.

Lemma guardrails_payload (payload : dict) :
  fst (Guardrails.check_guardrails_dict payload)
  = dict_set "_guardrails"
      (VDict [("scanned_chars", VInt (PyText.len (scanned_text payload)));
              ("errors",
               VInt (Z.of_nat (List.length
                                 (snd (Guardrails.check_guardrails_dict payload)))))])
      payload.
Proof. reflexivity. Qed.

(** X19.  Blocking or not, [check_guardrails] hands the payload back with every
    field as it was, plus the [_guardrails] record; the record counts the
    errors that are reported with it. *)
Theorem guardrails_only_adds_its_record (payload : dict) :
  dict_find "_guardrails" (fst (Guardrails.check_guardrails_dict payload))
  = Some (VDict [("scanned_chars", VInt (PyText.len (scanned_text payload)));
                 ("errors",
                  VInt (Z.of_nat
                          (List.length
                             (snd (Guardrails.check_guardrails_dict payload)))))])
  /\ (forall k, k <> "_guardrails" ->
        dict_find k (fst (Guardrails.check_guardrails_dict payload))
        = dict_find k payload).
Proof.
  rewrite guardrails_payload. split.
  - apply dict_find_set_same.
  - intros k Hk. now apply dict_find_set_other.
Qed.

(** X20.  There is one [too_many_items] error for each field that holds a list
    of more than 50 items, in the order of the fields, and for no other
    field: 50 items pass, 51 do not. *)
Theorem guardrails_list_bound (payload : dict) :
  filter (has_code "too_many_items") (snd (Guardrails.check_guardrails_dict payload))
  = map (fun kv => Guardrails.too_many_items (fst kv) (items_of (snd kv)))
      (filter oversized payload)
  /\ (forall k items,
        oversized (k, VList items) = true <-> 50 < List.length items).
Proof.
  split.
  - rewrite guardrails_errors. rewrite !filter_app.
    assert (H1 : filter (has_code "too_many_items") (length_errors payload) = []).
    { unfold length_errors. cbv zeta. destruct (Z.ltb _ _); reflexivity. }
    assert (H2 : filter (has_code "too_many_items") (phrase_errors payload) = []).
    { unfold phrase_errors. destruct (find _ _); reflexivity. }
    assert (H3 : filter (has_code "too_many_items") (word_errors payload) = []).
    { unfold word_errors. destruct (find _ _); reflexivity. }
    rewrite H1, H2. cbn [app].
    destruct (nonempty _); cbn [filter app]; rewrite ?H3; cbn [app];
      (induction (filter oversized payload) as [|kv l IH]; [reflexivity|];
       cbn [map filter]; rewrite IH; reflexivity).
  - intros k items. unfold oversized, Guardrails.MAX_LIST_ITEMS. cbn [snd].
    rewrite Z.ltb_lt. lia.
Qed.

(** X21.  At most one [banned_content] error is reported: the scan stops at the
    first phrase, and words are looked at only when nothing was found
    before. *)
Theorem at_most_one_banned_content (payload : dict) :
  List.length (filter (has_code "banned_content")
                 (snd (Guardrails.check_guardrails_dict payload))) <= 1.
Proof.
  rewrite guardrails_errors. rewrite !filter_app, !length_app.
  assert (H1 : filter (has_code "banned_content") (length_errors payload) = []).
  { unfold length_errors. cbv zeta. destruct (Z.ltb _ _); reflexivity. }
  assert (H4 : filter (has_code "banned_content")
                 (map (fun kv => Guardrails.too_many_items (fst kv) (items_of (snd kv)))
                    (filter oversized payload)) = []).
  { induction (filter oversized payload) as [|kv l IH]; [reflexivity|exact IH]. }
  rewrite H1, H4. cbn [List.length].
  unfold phrase_errors.
  destruct (find _ Guardrails.BANNED_PHRASES) as [p|].
  - assert (N : nonempty (length_errors payload ++ [Guardrails.banned p "phrase"])
                = true) by (destruct (length_errors payload); reflexivity).
    rewrite N. simpl. lia.
  - rewrite app_nil_r. destruct (nonempty (length_errors payload)).
    + simpl. lia.
    + unfold word_errors. destruct (find _ _); simpl; lia.
Qed.

(** X22.  The word scan is skipped when an earlier step has found something: a
    text that is too long is never reported for a banned word, only for
    a banned phrase. *)
Theorem long_text_skips_the_word_scan (payload : dict) :
  (Guardrails.MAX_TEXT_LEN < PyText.len (scanned_text payload))%Z ->
  Forall (fun e => forall w, e <> Guardrails.banned w "word")
    (snd (Guardrails.check_guardrails_dict payload)).
Proof.
  intros L. rewrite guardrails_errors.
  assert (HL : exists e, length_errors payload = [e]
                         /\ forall w, e <> Guardrails.banned w "word").
  { unfold length_errors. cbv zeta. rewrite (proj2 (Z.ltb_lt _ _) L).
    eexists. split; [reflexivity|]. intros w. discriminate. }
  destruct HL as (e & -> & He). cbn [app nonempty].
  constructor; [exact He|]. apply Forall_app. split.
  - unfold phrase_errors. destruct (find _ _); repeat constructor.
    intros w. discriminate.
  - induction (filter oversized payload) as [|kv l IH]; constructor; [|exact IH].
    intros w. discriminate.
Qed.

Lemma filter_nil_iff {A : Type} (f : A -> bool) (l : list A) :
  filter f l = [] <-> forall x, In x l -> f x = false.
Proof.
  induction l as [|a l IH]; cbn [filter].
  - split; [intros _ x []|reflexivity].
  - destruct (f a) eqn:E.
    + split; [intros D; discriminate D|].
      intros H. rewrite (H a (or_introl eq_refl)) in E. discriminate E.
    + rewrite IH. split.
      * intros H x [<-|I]; [exact E|now apply H].
      * intros H x I. apply H. now right.
Qed.

Lemma guardrails_accepts (payload : dict) :
  snd (Guardrails.check_guardrails_dict payload) = []
  <-> (PyText.len (scanned_text payload) <= Guardrails.MAX_TEXT_LEN)%Z
      /\ (forall phrase, In phrase Guardrails.BANNED_PHRASES ->
            PyText.contains phrase (scanned_text payload) = false)
      /\ (forall w, In w (Guardrails._to_words (scanned_text payload)) ->
            PyText.mem w Guardrails.BANNED_WORDS = false)
      /\ (forall kv, In kv payload -> oversized kv = false).
Proof.
  rewrite guardrails_errors.
  assert (HL : length_errors payload = []
               <-> (PyText.len (scanned_text payload) <= Guardrails.MAX_TEXT_LEN)%Z).
  { unfold length_errors. cbv zeta.
    destruct (Z.ltb_spec Guardrails.MAX_TEXT_LEN (PyText.len (scanned_text payload)));
      split; try discriminate; try reflexivity; lia. }
  assert (HP : phrase_errors payload = []
               <-> forall phrase, In phrase Guardrails.BANNED_PHRASES ->
                     PyText.contains phrase (scanned_text payload) = false).
  { unfold phrase_errors.
    destruct (find _ Guardrails.BANNED_PHRASES) as [p|] eqn:F.
    - split; [intros E; discriminate E|]. intros H. apply find_some in F.
      destruct F as [I C]. rewrite (H p I) in C. discriminate C.
    - split; [|reflexivity]. intros _ phrase I.
      apply (find_none _ _ F phrase I). }
  assert (HW : word_errors payload = []
               <-> forall w, In w (Guardrails._to_words (scanned_text payload)) ->
                     PyText.mem w Guardrails.BANNED_WORDS = false).
  { unfold word_errors.
    destruct (find _ (Guardrails._to_words _)) as [w0|] eqn:F.
    - split; [intros E; discriminate E|]. intros H. apply find_some in F.
      destruct F as [I C]. rewrite (H w0 I) in C. discriminate C.
    - split; [|reflexivity]. intros _ w I. apply (find_none _ _ F w I). }
  assert (HO : map (fun kv => Guardrails.too_many_items (fst kv) (items_of (snd kv)))
                 (filter oversized payload) = []
               <-> forall kv, In kv payload -> oversized kv = false).
  { rewrite <- filter_nil_iff. split; [apply map_eq_nil|intros ->; reflexivity]. }
  split.
  - intros E. apply app_eq_nil in E. destruct E as [E1 EO].
    apply app_eq_nil in E1. destruct E1 as [ELP EW].
    rewrite ELP in EW. cbn [nonempty] in EW.
    apply app_eq_nil in ELP. destruct ELP as [EL EP].
    repeat split; [apply HL|apply HP|apply HW|apply HO]; assumption.
  - intros (L & P & W & O).
    rewrite (proj2 HL L), (proj2 HP P), (proj2 HO O). cbn [app nonempty].
    rewrite (proj2 HW W). reflexivity.
Qed.

(** X23.  [check_guardrails] lets a payload through exactly when its text is
    not too long, contains no banned phrase, has no banned word, and no
    field is an oversized list. *)
Theorem guardrails_pass_iff (payload : dict) :
  snd (Guardrails.check_guardrails_dict payload) = []
  <-> (PyText.len (scanned_text payload) <= Guardrails.MAX_TEXT_LEN)%Z
      /\ (forall phrase, In phrase Guardrails.BANNED_PHRASES ->
            PyText.contains phrase (scanned_text payload) = false)
      /\ (forall w, In w (Guardrails._to_words (scanned_text payload)) ->
            PyText.mem w Guardrails.BANNED_WORDS = false)
      /\ (forall kv, In kv payload -> oversized kv = false).
Proof. exact (guardrails_accepts payload). Qed.

(* ------------------------------------------------------------------ *)
(** * The tokenizer *)

Lemma lower_char_not_upper c : PyText.is_upper (PyText.lower_char c) = false.
Proof.
  destruct c as [b0 b1 b2 b3 b4 b5 b6 b7];
    destruct b0, b1, b2, b3, b4, b5, b6, b7; reflexivity.
Qed.

Lemma lower_chars s :
  list_ascii_of_string (PyText.lower s)
  = map PyText.lower_char (list_ascii_of_string s).
Proof. induction s as [|c s IH]; simpl; [reflexivity|now rewrite IH]. Qed.

Lemma replace_char_chars ch by_ s :
  list_ascii_of_string (PyText.replace_char ch by_ s)
  = map (fun c => if Ascii.eqb c ch then by_ else c) (list_ascii_of_string s).
Proof. induction s as [|c s IH]; simpl; [reflexivity|now rewrite IH]. Qed.

Lemma replace_chars_chars (l : list ascii) s :
  existsb (Ascii.eqb " "%char) l = false ->
  list_ascii_of_string
    (fold_left (fun text ch => PyText.replace_char ch " "%char text) l s)
  = map (fun c => if existsb (Ascii.eqb c) l then " "%char else c)
      (list_ascii_of_string s).
Proof.
  revert s. induction l as [|ch l IH]; intros s H; cbn [fold_left existsb].
  - now rewrite map_id.
  - cbn [existsb] in H. apply orb_false_iff in H. destruct H as [H1 H2].
    rewrite IH by exact H2. rewrite replace_char_chars, map_map.
    apply map_ext. intros c. destruct (Ascii.eqb c ch); cbn [orb]; [|reflexivity].
    now rewrite H2.
Qed.

Lemma split_aux_words (Q : ascii -> Prop) cur s :
  Forall (fun c => Q c /\ PyText.is_space c = false) cur ->
  Forall Q (list_ascii_of_string s) ->
  Forall (fun w => w <> ""
                   /\ Forall (fun c => Q c /\ PyText.is_space c = false)
                        (list_ascii_of_string w))
    (PyText.split_aux cur s).
Proof.
  assert (W : forall cur, cur <> [] ->
                Forall (fun c => Q c /\ PyText.is_space c = false) cur ->
                string_of_list_ascii (rev cur) <> ""
                /\ Forall (fun c => Q c /\ PyText.is_space c = false)
                     (list_ascii_of_string (string_of_list_ascii (rev cur)))).
  { intros l N F. split.
    - intros E. apply N.
      assert (R : rev l = []).
      { rewrite <- (list_ascii_of_string_of_list_ascii (rev l)). now rewrite E. }
      rewrite <- (rev_involutive l). now rewrite R.
    - rewrite list_ascii_of_string_of_list_ascii. now apply Forall_rev. }
  revert cur. induction s as [|c s IH]; intros cur Fc Fs; cbn [PyText.split_aux].
  - destruct cur as [|x cur]; [constructor|].
    constructor; [|constructor]. apply W; [discriminate|exact Fc].
  - cbn [list_ascii_of_string] in Fs. inversion Fs as [|? ? Qc Fs']; subst.
    destruct (PyText.is_space c) eqn:Sp.
    + destruct cur as [|x cur]; [apply IH; [constructor|exact Fs']|].
      constructor; [apply W; [discriminate|exact Fc]|].
      apply IH; [constructor|exact Fs'].
    + apply IH; [|exact Fs']. constructor; [split; assumption|exact Fc].
Qed.

(** X24.  The words [_to_words] returns are never empty and hold no white space,
    no upper-case letter and none of the punctuation characters: a
    hyphen or an underscore always separates two words. *)
Theorem to_words_tokens (text : string) :
  Forall (fun w => w <> ""
                   /\ Forall (fun c => PyText.is_space c = false
                                       /\ PyText.is_upper c = false
                                       /\ ~ In c Guardrails.PUNCTUATION)
                        (list_ascii_of_string w))
    (Guardrails._to_words text).
Proof.
  unfold Guardrails._to_words, PyText.split. cbv zeta.
  set (Q := fun c => PyText.is_upper c = false
                     /\ existsb (Ascii.eqb c) Guardrails.PUNCTUATION = false).
  assert (F : Forall (fun w => w <> ""
                 /\ Forall (fun c => Q c /\ PyText.is_space c = false)
                      (list_ascii_of_string w))
                (PyText.split_aux []
                   (fold_left (fun text ch => PyText.replace_char ch " "%char text)
                      Guardrails.PUNCTUATION (PyText.lower text)))).
  { apply split_aux_words; [constructor|].
    rewrite replace_chars_chars by reflexivity.
    rewrite lower_chars, map_map. apply Forall_forall. intros c I.
    apply in_map_iff in I. destruct I as (c0 & <- & _). unfold Q.
    destruct (existsb (Ascii.eqb (PyText.lower_char c0)) Guardrails.PUNCTUATION)
      eqn:P.
    - split; reflexivity.
    - split; [apply lower_char_not_upper|exact P]. }
  eapply Forall_impl; [|exact F]. cbv beta. intros w [N Fw]. split; [exact N|].
  eapply Forall_impl; [|exact Fw]. cbv beta. intros c [[U P] Sp].
  repeat split; [exact Sp|exact U|]. intros I.
  assert (E : existsb (Ascii.eqb c) Guardrails.PUNCTUATION = true).
  { apply existsb_exists. exists c. split; [exact I|apply Ascii.eqb_refl]. }
  congruence.
Qed.

(* ------------------------------------------------------------------ *)
(** * The three policies together *)

Section ShippedMore.

Variable S : Type.

Lemma shipped_passed1_inv request (s s1 : S) p1 tr :
  passed1 (Schemas.module S) request s s1 p1 tr ->
  s1 = s /\ p1 = VDict (fst (Schemas.validate_dict request))
  /\ snd (Schemas.validate_dict request) = [].
Proof.
  intros (m1 & R & _).
  destruct (stage_returns_of_eq (schema_stage request s) R) as (-> & -> & E & _).
  symmetry in E. apply map_eq_nil in E. auto.
Qed.

Lemma shipped_passed2_inv request config (s s2 : S) p2 tr :
  passed2 (Schemas.module S) (Rules.module S) request config s s2 p2 tr ->
  s2 = s
  /\ p2 = VDict (fst (Rules.check_rules_dict (fst (Schemas.validate_dict request))))
  /\ snd (Schemas.validate_dict request) = []
  /\ (snd (Rules.check_rules_dict (fst (Schemas.validate_dict request))) = []
      \/ strict config = false).
Proof.
  intros (s1 & p1 & tr1 & e2 & m2 & P1 & R & L & _).
  destruct (shipped_passed1_inv P1) as (-> & -> & V1).
  destruct (stage_returns_of_eq (rules_stage _ s) R) as (-> & -> & E & _).
  repeat split; [exact V1|]. destruct L as [->|L]; [left|now right].
  symmetry in E. now apply map_eq_nil in E.
Qed.

Lemma shipped_passed3_inv request config (s s3 : S) p3 tr :
  passed3 (Schemas.module S) (Rules.module S) (Guardrails.module S) request config
    s s3 p3 tr ->
  s3 = s /\ p3 = VDict (passed_payload request) /\ policies_pass request config.
Proof.
  intros (s2 & p2 & tr2 & m3 & P2 & R & _).
  destruct (shipped_passed2_inv P2) as (-> & -> & V1 & L).
  destruct (stage_returns_of_eq (guardrails_stage _ s) R) as (-> & -> & E & _).
  symmetry in E. apply map_eq_nil in E.
  repeat split; assumption.
Qed.

(** X25.  Without a transform, a run of the shipped pipeline succeeds exactly
    when the three policy functions, each applied to the payload the one
    before returned, let the request through; the data of the Result is
    then the payload the guardrails returned. *)
Theorem pipeline_passes_iff request config (s s' : S) r :
  pipeline request None config s = (s', Ret r) ->
  (ok r = true <-> policies_pass request config)
  /\ (ok r = true -> data r = VDict (passed_payload request)).
Proof.
  intros H. unfold pipeline in H. apply run_complete in H.
  inversion H; subst; clear H; try discriminate.
  - (* schema blocked *)
    match goal with
    | R : stage_returns _ _ _ _ _ _ _ _ |- _ =>
        destruct (stage_returns_of_eq (schema_stage request s) R) as (_ & _ & E & _)
    end.
    split; [|discriminate]. split; [discriminate|]. intros (V1 & _).
    rewrite V1 in E. cbn [map] in E. congruence.
  - (* rules blocked *)
    match goal with
    | P : passed1 _ _ _ _ _ _ |- _ =>
        destruct (shipped_passed1_inv P) as (-> & -> & V1)
    end.
    match goal with
    | R : stage_returns _ _ _ _ _ _ _ _ |- _ =>
        destruct (stage_returns_of_eq (rules_stage _ s) R) as (_ & _ & E & _)
    end.
    split; [|discriminate]. split; [discriminate|]. intros (_ & [V2|St] & _).
    + cbv zeta in V2. rewrite V2 in E. cbn [map] in E. congruence.
    + congruence.
  - (* guardrails blocked *)
    match goal with
    | P : passed2 _ _ _ _ _ _ _ _ |- _ =>
        destruct (shipped_passed2_inv P) as (-> & -> & V1 & L)
    end.
    match goal with
    | R : stage_returns _ _ _ _ _ _ _ _ |- _ =>
        destruct (stage_returns_of_eq (guardrails_stage _ s) R) as (_ & _ & E & _)
    end.
    split; [|discriminate]. split; [discriminate|]. intros (_ & _ & V3).
    cbv zeta in V3. rewrite V3 in E. cbn [map] in E. congruence.
  - (* passed *)
    match goal with
    | P : passed3 _ _ _ _ _ _ _ _ _ |- _ =>
        destruct (shipped_passed3_inv P) as (-> & -> & PP)
    end.
    split; [split; [intros _; exact PP|reflexivity]|reflexivity].
Qed.

End ShippedMore.

(* ------------------------------------------------------------------ *)
(** * A second run *)

Lemma rstrip_cons c s :
  PyText.rstrip (String c s)
  = match PyText.rstrip s with
    | EmptyString => if PyText.is_space c then EmptyString else String c EmptyString
    | r => String c r
    end.
Proof. reflexivity. Qed.

Lemma rstrip_idem s : PyText.rstrip (PyText.rstrip s) = PyText.rstrip s.
Proof.
  induction s as [|c s IH]; [reflexivity|].
  rewrite rstrip_cons. destruct (PyText.rstrip s) as [|a r] eqn:R.
  - destruct (PyText.is_space c) eqn:Sp; [reflexivity|].
    rewrite rstrip_cons. cbn [PyText.rstrip]. now rewrite Sp.
  - rewrite rstrip_cons, IH. reflexivity.
Qed.

Lemma lstrip_head s :
  PyText.lstrip s = ""
  \/ exists c r, PyText.lstrip s = String c r /\ PyText.is_space c = false.
Proof.
  induction s as [|c s IH]; [now left|]. cbn [PyText.lstrip].
  destruct (PyText.is_space c) eqn:Sp; [exact IH|]. right. eauto.
Qed.

Lemma rstrip_head c s :
  PyText.is_space c = false -> exists r, PyText.rstrip (String c s) = String c r.
Proof.
  intros Sp. rewrite rstrip_cons. destruct (PyText.rstrip s); [rewrite Sp|]; eauto.
Qed.

Lemma strip_idem t : PyText.strip (PyText.strip t) = PyText.strip t.
Proof.
  unfold PyText.strip. destruct (lstrip_head t) as [E|(c & r & E & Sp)]; rewrite E.
  - reflexivity.
  - destruct (@rstrip_head c r Sp) as (r' & E'). rewrite E'.
    cbn [PyText.lstrip]. rewrite Sp. rewrite <- E'. apply rstrip_idem.
Qed.

Lemma In_dict_set {V : Type} (k : string) (v : V) d kv :
  In kv (dict_set k v d) -> kv = (k, v) \/ In kv d.
Proof.
  induction d as [|[k' v'] d IH]; simpl.
  - intros [<-|[]]. now left.
  - destruct (String.eqb k k'); simpl.
    + intros [<-|I]; auto.
    + intros [<-|I]; auto. destruct (IH I); auto.
Qed.

Lemma pair_of {A B : Type} (p : A * B) (b : B) : snd p = b -> p = (fst p, b).
Proof. destruct p. simpl. now intros ->. Qed.

(** ** The schema, again *)

Lemma allowed_action_clean a :
  In a Schemas.ALLOWED_ACTIONS ->
  Schemas._is_nonempty_string (VStr a) = true
  /\ PyText.lower (PyText.strip a) = a.
Proof.
  unfold Schemas.ALLOWED_ACTIONS. simpl.
  intros [<-|[<-|[<-|[<-|[<-|[<-|[]]]]]]]; split; reflexivity.
Qed.

Lemma allowed_role_clean r :
  In r Schemas.ALLOWED_ROLES ->
  Schemas._is_nonempty_string (VStr r) = true
  /\ PyText.lower (PyText.strip r) = r.
Proof.
  unfold Schemas.ALLOWED_ROLES. simpl.
  intros [<-|[<-|[<-|[]]]]; split; reflexivity.
Qed.

Lemma strip_fields_fixed fields (d : dict) :
  (forall f t, In f fields -> dict_find f d = Some (VStr t) -> PyText.strip t = t) ->
  fold_left Schemas.strip_field fields d = d.
Proof.
  induction fields as [|f fields IH]; intros H; [reflexivity|].
  cbn [fold_left].
  assert (E : Schemas.strip_field d f = d).
  { unfold Schemas.strip_field.
    destruct (dict_find f d) as [[]|] eqn:F; try reflexivity.
    rewrite (H f _ (or_introl eq_refl) F). now apply dict_set_same_value. }
  rewrite E. apply IH. intros f' t I. apply H. now right.
Qed.

Lemma validate_normal (d : dict) : normal d -> Schemas.validate_dict d = (d, []).
Proof.
  intros ((a & Fa & Ia) & Hr & Ht & Hs).
  destruct (@allowed_action_clean a Ia) as [Na Ca].
  assert (A : Schemas.check_action d [] = (d, [])).
  { unfold Schemas.check_action. cbv zeta. unfold dict_get. rewrite Fa.
    rewrite Na. cbn [negb Schemas.text_of]. rewrite Ca.
    rewrite (proj2 (mem_In a Schemas.ALLOWED_ACTIONS) Ia). cbn [negb].
    now rewrite dict_set_same_value. }
  assert (R : Schemas.check_role d [] = (d, [])).
  { unfold Schemas.check_role. cbv zeta. unfold dict_get.
    destruct Hr as [->|[->|(r & Fr & Ir)]]; try reflexivity.
    rewrite Fr. destruct (@allowed_role_clean r Ir) as [Nr Cr].
    cbn [is_none negb]. rewrite Nr. cbn [negb Schemas.text_of]. rewrite Cr.
    rewrite (proj2 (mem_In r Schemas.ALLOWED_ROLES) Ir). cbn [negb].
    now rewrite dict_set_same_value. }
  unfold Schemas.validate_dict. cbv zeta.
  cbn [fold_left Schemas.REQUIRED_FIELDS]. unfold dict_has. rewrite Fa.
  cbn [negb nonempty]. rewrite A, R. rewrite strip_fields_fixed by exact Ht.
  fold schema_record. now rewrite dict_set_same_value.
Qed.

Lemma validated_normal (payload normalized : dict) :
  Schemas.validate_dict payload = (normalized, []) -> normal normalized.
Proof.
  intros E. destruct (@validated_payload payload normalized E) as [HA HR].
  split; [exact HA|]. split; [exact HR|].
  assert (E1 : fst (Schemas.validate_dict payload) = normalized)
    by (rewrite E; reflexivity).
  destruct (dict_has "action" payload) eqn:H.
  2:{ rewrite (proj1 (validate_required_field payload) H) in E. discriminate E. }
  split.
  - intros f t If Ff.
    pose proof (proj1 (validate_fields payload H) f) as F. rewrite E1 in F.
    assert (Ns : f <> "_schema").
    { intros ->. simpl in If. intuition discriminate. }
    rewrite (F Ns) in Ff.
    assert (FA : field_after f = stripped).
    { unfold field_after. simpl in If.
      destruct If as [<-|[<-|[<-|[<-|[<-|[<-|[<-|[<-|[]]]]]]]]]; reflexivity. }
    rewrite FA in Ff.
    destruct (dict_find f payload) as [[]|]; try discriminate Ff.
    cbn [option_map stripped] in Ff. injection Ff as <-. apply strip_idem.
  - rewrite <- E1. exact (proj1 (proj2 (validate_required_field payload) H)).
Qed.

Lemma normal_set_other (d : dict) k v :
  k <> "action" -> k <> "role" -> k <> "_schema" -> ~ In k Schemas.TEXT_FIELDS ->
  normal d -> normal (dict_set k v d).
Proof.
  intros Na Nr Ns Nt (HA & HR & HT & HS).
  unfold normal. rewrite !(@dict_find_set_other value _ k v d) by congruence.
  repeat split; try assumption.
  intros f t I. rewrite dict_find_set_other by (intros ->; contradiction).
  now apply HT.
Qed.

Lemma normal_set_role (d : dict) r :
  In r Schemas.ALLOWED_ROLES -> normal d -> normal (dict_set "role" (VStr r) d).
Proof.
  intros Ir (HA & HR & HT & HS). unfold normal.
  rewrite dict_find_set_same.
  rewrite !(@dict_find_set_other value _ "role" (VStr r) d) by discriminate.
  repeat split; try assumption.
  - right. right. eauto.
  - intros f t I.
    rewrite dict_find_set_other
      by (intros ->; simpl in I; intuition discriminate).
    now apply HT.
Qed.

(** ** The rules, again *)

Lemma rules_fixed (d : dict) k v :
  k <> "role" -> k <> "action" -> k <> "_rules" ->
  fst (Rules.check_rules_dict d) = d ->
  Rules.check_rules_dict (dict_set k v d)
  = (dict_set k v d, snd (Rules.check_rules_dict d)).
Proof.
  intros Nr Na Nu. rewrite !check_rules_three_rules. cbv zeta.
  unfold effective_role, dict_get.
  rewrite !(@dict_find_set_other value _ k v d) by congruence.
  repeat match goal with
  | |- context [if ?c then _ else _] => destruct c
  end; cbn [fst snd]; try reflexivity.
  all: intros H;
    pose proof (f_equal (dict_find "role") H) as F1;
    rewrite dict_find_set_other in F1 by discriminate;
    rewrite dict_find_set_same in F1;
    pose proof (f_equal (dict_find "_rules") H) as F2;
    rewrite dict_find_set_same in F2;
    f_equal;
    match goal with
    | |- dict_set "_rules" ?R (dict_set "role" ?rho ?d3) = _ =>
        rewrite (@dict_set_same_value value "role" rho d3)
          by (rewrite dict_find_set_other by congruence; symmetry; exact F1)
    end;
    apply dict_set_same_value; rewrite dict_find_set_other by congruence;
    symmetry; exact F2.
Qed.

Lemma check_rules_refusal (d : dict) :
  snd (Rules.check_rules_dict d) = [] \/ fst (Rules.check_rules_dict d) = d.
Proof.
  rewrite check_rules_three_rules. cbv zeta.
  repeat match goal with
  | |- context [if ?c then _ else _] => destruct c
  end; cbn [fst snd]; auto.
Qed.

Lemma rules_idem (d : dict) :
  Rules.check_rules_dict (fst (Rules.check_rules_dict d)) = Rules.check_rules_dict d.
Proof.
  destruct (check_rules_refusal d) as [E|E].
  2:{ now rewrite E. }
  destruct (proj1 (proj1 (check_rules_accepts d)) E) as (r & a & Er & Ir & Ea & Ia).
  rewrite (pair_of _ E) at 2.
  rewrite (proj2 (check_rules_accepts d) E).
  set (rho := effective_role d) in *.
  set (act := dict_get "action" VNone d) in *.
  set (d2 := dict_set "_rules" _ _).
  assert (F1 : dict_find "role" d2 = Some rho).
  { subst d2. rewrite dict_find_set_other by discriminate. apply dict_find_set_same. }
  assert (F2 : dict_find "action" d2 = dict_find "action" d).
  { subst d2. now rewrite !dict_find_set_other by discriminate. }
  assert (F3 : dict_find "_rules" d2
               = Some (VDict [("checked", VBool true); ("role", rho);
                              ("action", act)])).
  { subst d2. apply dict_find_set_same. }
  rewrite check_rules_three_rules. cbv zeta. unfold effective_role, dict_get.
  rewrite F1, F2. fold (dict_get "action" VNone d). fold act.
  rewrite Er, Ea. cbn [is_none negb andb].
  rewrite (proj2 (in_strs_In (VStr r) Rules.ALLOWED_ROLES))
    by (exists r; auto).
  rewrite (proj2 (in_strs_In (VStr a) (Rules.role_actions_in Rules.ROLE_ACTIONS r)))
    by (exists a; auto).
  cbn [negb]. rewrite <- Er, <- Ea.
  rewrite (@dict_set_same_value value "role" rho d2 F1).
  rewrite (@dict_set_same_value value "_rules" _ d2 F3).
  reflexivity.
Qed.

Lemma rules_normal (d : dict) : normal d -> normal (fst (Rules.check_rules_dict d)).
Proof.
  intros N. destruct (check_rules_refusal d) as [E|E]; [|now rewrite E].
  rewrite (proj2 (check_rules_accepts d) E).
  destruct (proj1 (proj1 (check_rules_accepts d)) E) as (r & a & Er & Ir & _).
  rewrite Er.
  apply normal_set_other; try discriminate.
  - simpl. intuition discriminate.
  - apply normal_set_role; [exact Ir|exact N].
Qed.

(** ** The guardrails, again *)

Lemma scanned_text_set_guardrails (d : dict) v :
  scanned_text (dict_set "_guardrails" v d) = scanned_text d.
Proof.
  unfold scanned_text, Guardrails._collect_text. cbv zeta. cbn [fold_left].
  unfold dict_get.
  now rewrite !(@dict_find_set_other value _ "_guardrails" v d) by discriminate.
Qed.

Lemma guardrails_normal (d : dict) :
  normal d -> normal (fst (Guardrails.check_guardrails_dict d)).
Proof.
  intros N. rewrite guardrails_payload.
  apply normal_set_other; try discriminate; [|exact N].
  simpl. intuition discriminate.
Qed.

Lemma guardrails_idem (d : dict) :
  snd (Guardrails.check_guardrails_dict d) = [] ->
  Guardrails.check_guardrails_dict (fst (Guardrails.check_guardrails_dict d))
  = (fst (Guardrails.check_guardrails_dict d), []).
Proof.
  intros E. pose proof (proj1 (guardrails_accepts d) E) as (L & P & W & O).
  rewrite guardrails_payload. rewrite E. cbn [List.length].
  set (rec := VDict _). set (d3 := dict_set "_guardrails" rec d).
  assert (T : scanned_text d3 = scanned_text d)
    by apply scanned_text_set_guardrails.
  assert (E3 : snd (Guardrails.check_guardrails_dict d3) = []).
  { apply guardrails_accepts. rewrite T. repeat split; try assumption.
    intros kv I. apply In_dict_set in I. destruct I as [->|I]; [reflexivity|].
    now apply O. }
  rewrite (pair_of _ E3). f_equal.
  rewrite guardrails_payload, E3, T. cbn [List.length]. fold rec.
  apply dict_set_same_value. apply dict_find_set_same.
Qed.

(** ** The three policies, again *)

Lemma passed_payload_fixed (request : dict) (config : option dict) :
  policies_pass request config ->
  policies_pass (passed_payload request) config
  /\ passed_payload (passed_payload request) = passed_payload request.
Proof.
  intros (V1 & L & V3). unfold passed_payload in *.
  set (d1 := fst (Schemas.validate_dict request)) in *.
  set (d2 := fst (Rules.check_rules_dict d1)) in *.
  set (d3 := fst (Guardrails.check_guardrails_dict d2)).
  assert (N1 : normal d1) by exact (@validated_normal request d1 (pair_of _ V1)).
  assert (N3 : normal d3) by exact (@guardrails_normal d2 (@rules_normal d1 N1)).
  assert (S3 : Schemas.validate_dict d3 = (d3, [])) by exact (@validate_normal d3 N3).
  assert (R2 : Rules.check_rules_dict d2 = Rules.check_rules_dict d1)
    by apply rules_idem.
  assert (R3 : Rules.check_rules_dict d3 = (d3, snd (Rules.check_rules_dict d1))).
  { subst d3. rewrite guardrails_payload. rewrite <- R2.
    apply rules_fixed; try discriminate. now rewrite R2. }
  assert (G3 : Guardrails.check_guardrails_dict d3 = (d3, []))
    by exact (@guardrails_idem d2 V3).
  unfold policies_pass. cbv zeta. rewrite S3. cbn [fst snd]. rewrite R3.
  cbn [fst snd]. rewrite G3. cbn [fst snd]. auto.
Qed.

Section Again.

Variable S : Type.

Lemma pipeline_on_fixed_point (d : dict) config (s : S) :
  policies_pass d config ->
  passed_payload d = d ->
  pipeline d None config s
  = (s, Ret (succeeded (VDict d)
               (shipped_trace3
                  (snd (Rules.check_rules_dict (fst (Schemas.validate_dict d)))))
               false)).
Proof.
  intros (V1 & L & V3) F. cbv zeta in L, V3.
  pose proof (@shipped_passed3 S d config s
                (fst (Schemas.validate_dict d))
                (fst (Rules.check_rules_dict (fst (Schemas.validate_dict d))))
                (snd (Rules.check_rules_dict (fst (Schemas.validate_dict d))))
                (passed_payload d)
                (pair_of _ V1) (surjective_pairing _) L (pair_of _ V3)) as P3.
  rewrite F in P3.
  unfold pipeline. apply run_sound. eapply AiSkipped; [exact P3|now right].
Qed.

(** X26.  The data of a successful run is a fixed point of the shipped
    pipeline: run again on it (without a transform, under the same
    configuration), the pipeline succeeds and returns the same data. *)
Theorem successful_data_is_a_fixed_point request config (s s' : S) r :
  pipeline request None config s = (s', Ret r) ->
  ok r = true ->
  exists d r',
    data r = VDict d
    /\ pipeline d None config s = (s, Ret r')
    /\ ok r' = true /\ errors r' = [] /\ data r' = data r.
Proof.
  intros H Hok. unfold pipeline in H. apply run_complete in H.
  inversion H; subst; clear H; try discriminate.
  match goal with
  | P : passed3 _ _ _ _ _ _ _ _ _ |- _ =>
      destruct (shipped_passed3_inv P) as (-> & -> & PP)
  end.
  destruct (@passed_payload_fixed request config PP) as (PP' & F).
  exists (passed_payload request). eexists.
  split; [reflexivity|].
  split; [exact (@pipeline_on_fixed_point (passed_payload request) config s PP' F)|].
  repeat split.
Qed.

End Again.

(* ------------------------------------------------------------------ *)
(** * More concrete runs *)

Lemma call_layer_first_callable_witness :
  _call_layer (Rules.module unit) (["rules_check"] ++ "check_rules" :: ["apply_rules"])
    (VDict hello_d1)
  = _call_layer (Rules.module unit) ["check_rules"] (VDict hello_d1).
Proof.
  refine (@call_layer_first_callable unit (Rules.module unit) ["rules_check"]
            "check_rules" ["apply_rules"] _ (VDict hello_d1) _ eq_refl).
  intros n H. simpl in H. destruct H as [<-|[]]. exact I.
Defined.

Lemma call_layer_no_match_witness :
  _call_layer (Rules.module unit) ["evaluate_rules"; "validate_rules"]
    (VDict hello_d1) tt
  = (tt, Ret (VNone, [],
              VDict [("called", VNone);
                     ("note", VStr "no matching function found")])).
Proof.
  refine (@call_layer_no_match unit (Rules.module unit)
            ["evaluate_rules"; "validate_rules"] (VDict hello_d1) tt _).
  intros n H. simpl in H. destruct H as [<-|[<-|[]]]; exact I.
Defined.

Lemma call_layer_other_sequences_witness :
  _call_layer triple_module ["validate"] (VDict []) tt
  = (tt, Ret (VNone,
              [unexpected_return "odd" "validate"
                 (VTuple [VDict []; VList []; VNone])],
              VDict [("called", VStr "validate")])).
Proof.
  refine (@call_layer_other_sequences unit triple_module "validate" [] _ (VDict [])
            tt tt (VTuple [VDict []; VList []; VNone]) eq_refl eq_refl _).
  left. exists [VDict []; VList []; VNone]. split; [reflexivity|]. simpl. lia.
Defined.

Lemma call_layer_raises_on_unwalkable_errors_witness :
  _call_layer count_module ["validate"] (VDict []) tt
  = (tt, Raise (not_iterable (VInt 3))).
Proof.
  exact (@call_layer_raises_on_unwalkable_errors unit count_module "validate" [] _
           (VDict []) tt tt (VDict []) (VInt 3) eq_refl eq_refl eq_refl eq_refl).
Defined.

Lemma success_trace_flags_witness :
  pipeline delete_request None lax_config tt = (tt, Ret lax_delete_result)
  /\ ok lax_delete_result = true
  /\ (forall t, In t (trace lax_delete_result) -> step_ok t = false ->
        step t = "rules" /\ strict lax_config = false)
  /\ (strict lax_config = true -> forallb step_ok (trace lax_delete_result) = true).
Proof.
  assert (E : pipeline delete_request None lax_config tt = (tt, Ret lax_delete_result))
    by (vm_compute; reflexivity).
  split; [exact E|]. split; [reflexivity|].
  exact (@success_trace_flags unit _ _ _ delete_request None lax_config tt tt
           lax_delete_result E eq_refl).
Defined.

Lemma transform_needs_enable_ai_witness :
  pipeline hello_request (Some bad_ai_fn) None tt = pipeline hello_request None None tt.
Proof.
  exact (@transform_needs_enable_ai unit _ _ _ hello_request bad_ai_fn None tt eq_refl).
Defined.

Lemma ok_iff_no_errors_witness :
  pipeline no_action_request None None tt = (tt, Ret no_action_result)
  /\ (ok no_action_result = true <-> errors no_action_result = []).
Proof.
  assert (E : pipeline no_action_request None None tt = (tt, Ret no_action_result))
    by (vm_compute; reflexivity).
  split; [exact E|].
  exact (@ok_iff_no_errors unit _ _ _ no_action_request None None tt tt
           no_action_result E).
Defined.

Lemma ai_uncaught_propagates_witness :
  pipeline hello_request (Some interrupted_ai) ai_config tt
  = (tt, Raise KeyboardInterrupt).
Proof.
  exact (@ai_uncaught_propagates unit _ _ _ hello_request interrupted_ai ai_config
           tt tt (VDict hello_d3) (shipped_trace3 []) tt KeyboardInterrupt
           eq_refl (hello_passed3 ai_config) eq_refl eq_refl).
Defined.

Lemma only_admin_writes_and_deletes_witness :
  snd (Rules.check_rules_dict admin_delete_request) = []
  /\ dict_get "action" VNone admin_delete_request <> VStr "export"
  /\ (dict_get "action" VNone admin_delete_request = VStr "write"
      \/ dict_get "action" VNone admin_delete_request = VStr "delete" ->
      dict_find "role" admin_delete_request = Some (VStr "admin")).
Proof.
  split; [reflexivity|].
  exact (@only_admin_writes_and_deletes admin_delete_request eq_refl).
Defined.

Lemma validate_field_by_field_witness :
  dict_has "action" padded_request = true
  /\ (forall k, k <> "_schema" ->
        dict_find k (fst (Schemas.validate_dict padded_request))
        = option_map (field_after k) (dict_find k padded_request))
  /\ dict_keys (fst (Schemas.validate_dict padded_request))
     = ["action"; "prompt"; "items"; "_schema"].
Proof.
  split; [reflexivity|].
  exact (@validate_field_by_field padded_request eq_refl).
Defined.

Lemma validate_success_postcondition_witness :
  Schemas.validate_dict hello_request = (hello_d1, [])
  /\ (exists a, dict_find "action" hello_d1 = Some (VStr a)
                /\ In a Schemas.ALLOWED_ACTIONS)
  /\ (dict_find "role" hello_d1 = None
      \/ dict_find "role" hello_d1 = Some VNone
      \/ exists r, dict_find "role" hello_d1 = Some (VStr r)
                   /\ In r Schemas.ALLOWED_ROLES).
Proof.
  assert (E : Schemas.validate_dict hello_request = (hello_d1, []))
    by (vm_compute; reflexivity).
  split; [exact E|].
  exact (@validate_success_postcondition hello_request hello_d1 E).
Defined.

Lemma rules_after_schema_witness :
  Schemas.validate_dict delete_request = (delete_d1, [])
  /\ (snd (Rules.check_rules_dict delete_d1) = []
      \/ exists e,
           snd (Rules.check_rules_dict delete_d1) = [e]
           /\ fst (Rules.check_rules_dict delete_d1) = delete_d1
           /\ error_code e = Some (VStr "action_not_allowed")).
Proof.
  assert (E : Schemas.validate_dict delete_request = (delete_d1, []))
    by (vm_compute; reflexivity).
  split; [exact E|].
  exact (@rules_after_schema delete_request delete_d1 E).
Defined.

Lemma long_text_skips_the_word_scan_witness :
  (Guardrails.MAX_TEXT_LEN < PyText.len (scanned_text long_request))%Z
  /\ Forall (fun e => forall w, e <> Guardrails.banned w "word")
       (snd (Guardrails.check_guardrails_dict long_request)).
Proof.
  assert (L : (Guardrails.MAX_TEXT_LEN < PyText.len (scanned_text long_request))%Z)
    by (vm_compute; reflexivity).
  split; [exact L|].
  exact (@long_text_skips_the_word_scan long_request L).
Defined.

Lemma pipeline_passes_iff_witness :
  pipeline hello_request None None tt = (tt, Ret hello_result)
  /\ (ok hello_result = true <-> policies_pass hello_request None)
  /\ (ok hello_result = true -> data hello_result = VDict (passed_payload hello_request)).
Proof.
  assert (E : pipeline hello_request None None tt = (tt, Ret hello_result))
    by (vm_compute; reflexivity).
  split; [exact E|].
  exact (@pipeline_passes_iff unit hello_request None tt tt hello_result E).
Defined.

Lemma successful_data_is_a_fixed_point_witness :
  pipeline hello_request None None tt = (tt, Ret hello_result)
  /\ ok hello_result = true
  /\ exists d r',
       data hello_result = VDict d
       /\ pipeline d None None tt = (tt, Ret r')
       /\ ok r' = true /\ errors r' = [] /\ data r' = data hello_result.
Proof.
  assert (E : pipeline hello_request None None tt = (tt, Ret hello_result))
    by (vm_compute; reflexivity).
  split; [exact E|]. split; [reflexivity|].
  exact (@successful_data_is_a_fixed_point unit hello_request None tt tt
           hello_result E eq_refl).
Defined.

(** A set of errors returned in a pair is walked like a list. *)
Example errors_in_a_set_are_walked :
  _normalize_errors set_of_errors "layer_error" "check"
  = Ret (map (fun t => {| code := "layer_error"; message := t;
                          details := VDict [("step", VStr "check")] |})
           ["a"; "b"]).
Proof. reflexivity. Qed.

(* ------------------------------------------------------------------ *)
(** * A failing transform, over the store *)

Module StoreAi.
Import Store StorePaths StoreDemo.

Lemma bind_returns {S A B : Type} (m : M S A) (k : A -> M S B) (s s' : S) (a : A) :
  m s = (s', Ret a) -> bind m k s = k a s'.
Proof. intros E. unfold bind. now rewrite E. Qed.

Section Ai.

Variable str_in : heap -> ref_value -> string.
Variables schemas rules guardrails : pymodule.

Lemma lookup_alloc (h : heap) (v : ref_value) (ob o : object) :
  lookup h v = Some ob -> lookup (h ++ [o])%list v = Some ob.
Proof.
  destruct v; simpl; try discriminate. intros E.
  rewrite nth_error_app1; [exact E|]. apply nth_error_Some. congruence.
Qed.

(** C3.  With [enable_ai] on and a transform supplied, if the transform,
    called on the payload [p3] that came out of the three collaborator
    stages, raises an [Exception] or returns a value that is not a
    dictionary, [run] returns a Result instead of raising: [ok] is false,
    the trace ends with the entry [ai / false / called: True], one
    [ai_error] record with a new, empty [details] is appended to the
    (empty) error list, and [data] is [p3], the reference that was handed
    to the transform.  The object it refers to is as the transform left
    it: it is the payload as it was before the AI stage when the transform
    has not written to it. *)
Theorem ai_failure_returns_the_handed_payload request f config h h3 p3 tr3 h4 o :
  enable_ai config = true ->
  reaches_ai str_in schemas rules guardrails request config h h3 p3 tr3 ->
  f p3 h3 = (h4, o) ->
  transform_failed h4 o ->
  exists r,
    run str_in schemas rules guardrails request (Some f) config h
    = ((h4 ++ [ODict []])%list, Ret r)
    /\ ok r = false
    /\ trace r = (tr3 ++ [_step_trace "ai" false (VDict [("called", VBool true)])])%list
    /\ errors r = [{| code := "ai_error"; message := failure_text o;
                      details := RRef (List.length h4) |}]
    /\ data r = p3
    /\ (forall ob, lookup h4 p3 = Some ob ->
          lookup (h4 ++ [ODict []])%list (data r) = Some ob)
    /\ (forall ob, lookup h3 p3 = Some ob -> lookup h4 p3 = lookup h3 p3 ->
          lookup (h4 ++ [ODict []])%list (data r) = Some ob).
Proof.
  intros En (h0 & p0 & h1 & np1 & m1 & h2 & np2 & e2 & m2 & np3 & m3
             & C0 & C1 & C2 & L & C3 & -> & ->) F TF.
  unfold SCHEMA_NAMES, RULES_NAMES, GUARDRAILS_NAMES in *.
  exists {| ok := false;
            data := adopt (adopt (adopt p0 np1) np2) np3;
            errors := [{| code := "ai_error"; message := failure_text o;
                          details := RRef (List.length h4) |}];
            trace := [_step_trace "schema" true m1;
                      _step_trace "rules" (Nat.eqb (List.length e2) 0) m2;
                      _step_trace "guardrails" true m3;
                      _step_trace "ai" false (VDict [("called", VBool true)])] |}.
  split.
  - unfold run. cbv zeta.
    change (truthy (dict_get "enable_ai" (VBool false) _)) with (enable_ai config).
    change (truthy (dict_get "strict" (VBool true) _)) with (strict config).
    rewrite En.
    erewrite (@bind_returns heap _ _ (copy request) _ h h0 p0 C0). cbv beta.
    erewrite (@bind_returns heap _ _ _ _ h0 h1 (np1, [], m1) C1).
    cbv beta iota. cbn [nonempty].
    change (if negb (is_none np1) then np1 else p0) with (adopt p0 np1).
    erewrite (@bind_returns heap _ _ _ _ h1 h2 (np2, e2, m2) C2).
    cbv beta iota.
    replace (nonempty e2 && strict config) with false
      by (destruct L as [->|St]; [reflexivity|rewrite St; now rewrite andb_false_r]).
    change (if negb (is_none np2) then np2 else adopt p0 np1)
      with (adopt (adopt p0 np1) np2).
    erewrite (@bind_returns heap _ _ _ _ h2 h3 (np3, [], m3) C3).
    cbv beta iota. cbn [nonempty].
    change (if negb (is_none np3) then np3 else adopt (adopt p0 np1) np2)
      with (adopt (adopt (adopt p0 np1) np2) np3).
    unfold try_except, bind. rewrite F.
    destruct o as [ai_out|ex]; cbn [transform_failed] in TF.
    + unfold read. rewrite TF. cbn [negb]. unfold raise, TypeError.
      cbn [exn_is_Exception]. unfold alloc, ret. reflexivity.
    + rewrite TF. unfold alloc, ret. reflexivity.
  - cbn [ok trace errors data].
    repeat split.
    + intros ob E. now apply lookup_alloc.
    + intros ob E E'. apply lookup_alloc. now rewrite E'.
Qed.

End Ai.

Lemma nothing_reaches_ai :
  reaches_ai str_in nothing nothing nothing request ai_config caller_heap
    copied_heap (RRef 2) reached_trace.
Proof.
  exists copied_heap, (RRef 2), copied_heap, RNone, no_function,
    copied_heap, RNone, [], no_function, RNone, no_function.
  repeat split; try reflexivity. now left.
Qed.

Lemma ai_failure_returns_the_handed_payload_witness :
  exists r,
    run str_in nothing nothing nothing request (Some spoil) ai_config caller_heap
    = ((spoiled_heap ++ [ODict []])%list, Ret r)
    /\ ok r = false
    /\ trace r
       = (reached_trace
            ++ [_step_trace "ai" false (VDict [("called", VBool true)])])%list
    /\ errors r = [{| code := "ai_error"; message := "boom";
                      details := RRef (List.length spoiled_heap) |}]
    /\ data r = RRef 2
    /\ (forall ob, lookup spoiled_heap (RRef 2) = Some ob ->
          lookup (spoiled_heap ++ [ODict []])%list (data r) = Some ob)
    /\ (forall ob, lookup copied_heap (RRef 2) = Some ob ->
          lookup spoiled_heap (RRef 2) = lookup copied_heap (RRef 2) ->
          lookup (spoiled_heap ++ [ODict []])%list (data r) = Some ob).
Proof.
  exact (@ai_failure_returns_the_handed_payload str_in nothing nothing nothing
           request spoil ai_config caller_heap copied_heap (RRef 2) reached_trace
           spoiled_heap (Raise (Exn "RuntimeError" true "boom"))
           eq_refl nothing_reaches_ai eq_refl eq_refl).
Defined.

(** C3, as the claim words it, fails twice.  A transform that writes to
    the dictionary it is handed and then raises: the AI stage is reached
    with the copy of the request, and the data of the Result is that
    dictionary with the key the transform added, not the payload as it was
    before the AI stage.  A transform that raises [KeyboardInterrupt],
    which is not an [Exception]: [run] raises it. *)
Lemma ai_failure_is_not_always_contained :
  (reaches_ai str_in nothing nothing nothing request ai_config caller_heap
     copied_heap (RRef 2) reached_trace
   /\ lookup copied_heap (RRef 2)
      = Some (ODict [("action", RStr "read"); ("items", RRef 0)])
   /\ exists r,
        snd spoiled_run = Ret r
        /\ ok r = false
        /\ lookup (fst spoiled_run) (data r)
           = Some (ODict [("action", RStr "read"); ("items", RRef 0);
                          ("x", RInt 1)])
        /\ lookup (fst spoiled_run) (data r) <> lookup copied_heap (RRef 2))
  /\ snd interrupted_run = Raise KeyboardInterrupt.
Proof.
  split; [|vm_compute; reflexivity].
  split; [exact nothing_reaches_ai|]. split; [reflexivity|].
  eexists. split; [vm_compute; reflexivity|].
  split; [reflexivity|]. split; [vm_compute; reflexivity|].
  vm_compute. discriminate.
Qed.

End StoreAi.
